(** * Host-key verification of the go.crypto SSH client (ssh/ssh_gocrypto.go)

    A shallow embedding of [hostKeyCallback], [checkHostKey], [getTerminal]
    and the accessors of the process-wide default known_hosts path, with the
    collaborators the file calls into (the known-hosts library, the named
    mutex, the atomic file writer, the terminal) modelled as operations on an
    explicit world; then [splitUserHost], the substitution of the proxy
    command, and [Command] with the methods that drive its session, over a
    history of the calls into the transport library. *)

From Stdlib Require Import String Ascii List NArith Lia Bool.
From Stdlib.Strings Require Import Byte.
From stdpp Require Import base option gmap strings list.

Local Open Scope string_scope.
Import ListNotations.

(** ** Go strings

    A Go [string] and a Go [[]byte] are both byte sequences; both are
    modelled as [string] (a list of 8-bit characters). *)

Module GoString.

Definition nl : string := String "010" EmptyString.

(** [strings.ToLower] on one byte of an ASCII string. *)
Definition lowerAscii (c : ascii) : ascii :=
  let n := nat_of_ascii c in
  if (65 <=? n)%nat && (n <=? 90)%nat then ascii_of_nat (n + 32) else c.

(** [strings.ToLower].  Only the ASCII letters are mapped: the callers
    compare the result with ASCII words, and no character outside ASCII
    lowers to an ASCII letter of those words. *)
Fixpoint ToLower (s : string) : string :=
  match s with
  | EmptyString => EmptyString
  | String c s' => String (lowerAscii c) (ToLower s')
  end.

(** Last byte of a string, if any. *)
Fixpoint lastByte (s : string) : option ascii :=
  match s with
  | EmptyString => None
  | String c EmptyString => Some c
  | String _ s' => lastByte s'
  end.

(** [bytes.HasSuffix(s, []byte("\n"))]. *)
Definition HasSuffixNl (s : string) : bool :=
  match lastByte s with
  | Some c => Ascii.eqb c "010"
  | None => false
  end.

(** [len(s) > 0]. *)
Definition nonEmpty (s : string) : bool :=
  match s with EmptyString => false | _ => true end.

(** Decimal rendering of a line number ([%d]). *)
Definition digit (n : nat) : ascii := ascii_of_nat (48 + n).

Fixpoint itoaFuel (fuel n : nat) (acc : string) : string :=
  match fuel with
  | O => acc
  | S fuel' =>
      let acc' := String (digit (n mod 10)) acc in
      if (n <? 10)%nat then acc' else itoaFuel fuel' (n / 10) acc'
  end.

Definition Itoa (n : nat) : string := itoaFuel (S n) n EmptyString.

(** Split at every occurrence of a separator byte ([strings.Split]). *)
Fixpoint splitOn (sep : ascii) (s : string) : list string :=
  match s with
  | EmptyString => [EmptyString]
  | String c s' =>
      if Ascii.eqb c sep then EmptyString :: splitOn sep s'
      else match splitOn sep s' with
           | [] => [String c EmptyString]
           | x :: xs => String c x :: xs
           end
  end.

Fixpoint contains (c : ascii) (s : string) : bool :=
  match s with
  | EmptyString => false
  | String d s' => Ascii.eqb c d || contains c s'
  end.

End GoString.

Import GoString.

(** ** Standard base64 (encoding/base64, [StdEncoding])

    The known-hosts line carries the key blob in padded standard base64. *)

Module base64.

Definition alphabet : string :=
  "ABCDEFGHIJKLMNOPQRSTUVWXYZabcdefghijklmnopqrstuvwxyz0123456789+/".

Definition pad : ascii := "=".

Definition encChar (n : N) : ascii :=
  match String.get (N.to_nat n) alphabet with
  | Some c => c
  | None => pad
  end.

Fixpoint EncodeToString (src : list byte) : string :=
  match src with
  | [] => EmptyString
  | [a] =>
      let x := Byte.to_N a in
      String (encChar (N.shiftr x 2))
        (String (encChar (N.shiftl (N.land x 3) 4))
           (String pad (String pad EmptyString)))
  | [a; b] =>
      let x := Byte.to_N a in
      let y := Byte.to_N b in
      String (encChar (N.shiftr x 2))
        (String (encChar (N.lor (N.shiftl (N.land x 3) 4) (N.shiftr y 4)))
           (String (encChar (N.shiftl (N.land y 15) 2))
              (String pad EmptyString)))
  | a :: b :: c :: rest =>
      let x := Byte.to_N a in
      let y := Byte.to_N b in
      let z := Byte.to_N c in
      String (encChar (N.shiftr x 2))
        (String (encChar (N.lor (N.shiftl (N.land x 3) 4) (N.shiftr y 4)))
           (String (encChar (N.lor (N.shiftl (N.land y 15) 2) (N.shiftr z 6)))
              (String (encChar (N.land z 63)) (EncodeToString rest))))
  end.

Fixpoint indexFrom (c : ascii) (s : string) (i : N) : option N :=
  match s with
  | EmptyString => None
  | String d s' => if Ascii.eqb c d then Some i else indexFrom c s' (N.succ i)
  end.

Definition decChar (c : ascii) : option N := indexFrom c alphabet 0.

Definition isPad (c : ascii) : bool := Ascii.eqb c pad.

Definition byteOf (n : N) : option byte := Byte.of_N (N.land n 255).

Fixpoint decodeQuads (cs : list ascii) : option (list byte) :=
  match cs with
  | [] => Some []
  | a :: b :: c :: d :: rest =>
      x ← decChar a; y ← decChar b;
      b0 ← byteOf (N.lor (N.shiftl x 2) (N.shiftr y 4));
      if isPad d then
        match rest with
        | [] =>
            if isPad c then Some [b0]
            else
              z ← decChar c;
              b1 ← byteOf (N.lor (N.shiftl y 4) (N.shiftr z 2));
              Some [b0; b1]
        | _ => None
        end
      else
        z ← decChar c; t ← decChar d;
        b1 ← byteOf (N.lor (N.shiftl y 4) (N.shiftr z 2));
        b2 ← byteOf (N.lor (N.shiftl z 6) t);
        tl ← decodeQuads rest;
        Some (b0 :: b1 :: b2 :: tl)
  | _ => None
  end.

Definition DecodeString (s : string) : option (list byte) :=
  decodeQuads (list_ascii_of_string s).

End base64.

(** ** Keys and errors *)

#[global] Instance byte_eq_decision : EqDecision byte := Byte.byte_eq_dec.

(** [ssh.PublicKey]: the interface is used through [Type()] and
    [Marshal()]. *)
Record PublicKey := { pk_Type : string; pk_Marshal : list byte }.

#[global] Instance PublicKey_eq_decision : EqDecision PublicKey.
Proof. solve_decision. Defined.

(** [knownhosts.KnownKey]. *)
Record KnownKey := { kk_Key : PublicKey; kk_Filename : string; kk_Line : nat }.

#[global] Instance KnownKey_eq_decision : EqDecision KnownKey.
Proof. solve_decision. Defined.

(** The [error] values that reach [hostKeyCallback].  [errors.Trace] only
    records the call site and keeps the message, so it is the identity here. *)
Inductive error : Type :=
| errors_New (message : string)            (* errors.New, errors.Errorf *)
| KeyError (Want : list KnownKey)          (* *knownhosts.KeyError *)
| ErrNotExist (path : string)              (* os.IsNotExist(err) holds *)
| ErrPermission (path : string)            (* any other failure on a path *)
| io_EOF                                   (* end of the terminal input *)
| ErrRawMode                               (* terminal.MakeRaw failed *)
| ErrTermWrite                             (* writing to the terminal failed *)
| ErrMutex                                 (* mutex.Acquire failed *)
| errors_Annotate (cause : error) (message : string).

Definition errors_Trace (err : option error) : option error := err.

(** [os.IsNotExist]. *)
Definition os_IsNotExist (err : error) : bool :=
  match err with ErrNotExist _ => true | _ => false end.

(** [os.DevNull]. *)
Definition os_DevNull : string := "/dev/null".

(** Modelled from the spec: the declaration of [StrictHostChecksOption] is
    missing.  The source names [StrictHostChecksNo], [StrictHostChecksDefault]
    and [StrictHostChecksAsk]; every other value takes the [default:] branch
    of the switch, and the fourth policy of the spec (Strict) is
    [StrictHostChecksYes]. *)
Inductive StrictHostChecksOption :=
| StrictHostChecksDefault
| StrictHostChecksNo
| StrictHostChecksYes
| StrictHostChecksAsk.

(** ** The known-hosts library (golang.org/x/crypto/ssh/knownhosts) *)

Module knownhosts.

(** Modelled from the spec: the library is not part of the source file.
    A HostKeyRecord is one line of the store. *)
Record HostKeyRecord := {
  hostname : string;
  keyType : string;
  keyBytes : list byte;
  sourceFile : string;
  sourceLine : nat
}.

Definition startsWith (c : ascii) (s : string) : bool :=
  match s with
  | String d _ => Ascii.eqb c d
  | EmptyString => false
  end.

(** Modelled from the spec: one record per non-blank, non-comment line of
    the form [<hostname> <keyType> <base64Key>]; a malformed line yields no
    record; a hashed-hostname entry is inert. *)
Definition parseLine (file : string) (lineNo : nat) (line : string)
  : option HostKeyRecord :=
  if startsWith "#" line then None
  else
    match splitOn " " line with
    | [h; t; k] =>
        if nonEmpty h && nonEmpty t && negb (startsWith "|" h) then
          blob ← base64.DecodeString k;
          Some {| hostname := h; keyType := t; keyBytes := blob;
                  sourceFile := file; sourceLine := lineNo |}
        else None
    | _ => None
    end.

Fixpoint loadLines (file : string) (lineNo : nat) (lines : list string)
  : list HostKeyRecord :=
  match lines with
  | [] => []
  | l :: ls =>
      match parseLine file lineNo l with
      | Some r => r :: loadLines file (S lineNo) ls
      | None => loadLines file (S lineNo) ls
      end
  end.

(** Modelled from the spec: [load] of an existing file. *)
Definition load (file : string) (data : string) : list HostKeyRecord :=
  loadLines file 1 (splitOn "010" data).

Definition sameHost (h : string) (r : HostKeyRecord) : bool :=
  String.eqb (hostname r) h.

Definition exact (h : string) (key : PublicKey) (r : HostKeyRecord) : bool :=
  sameHost h r && String.eqb (keyType r) (pk_Type key)
  && bool_decide (keyBytes r = pk_Marshal key).

Inductive VerificationOutcome := Matched | Unknown | Changed.

(** Modelled from the spec: [match].  An exact record gives Matched; no
    record for the hostname gives Unknown; otherwise the hostname is known
    with other key bytes or other key types: Changed. *)
Definition classify (records : list HostKeyRecord) (h : string)
  (key : PublicKey) : VerificationOutcome :=
  if existsb (exact h key) records then Matched
  else if existsb (sameHost h) records then Changed
  else Unknown.

Definition knownKey (r : HostKeyRecord) : KnownKey :=
  {| kk_Key := {| pk_Type := keyType r; pk_Marshal := keyBytes r |};
     kk_Filename := sourceFile r; kk_Line := sourceLine r |}.

(** Modelled from the spec: the callback that [knownhosts.New] returns,
    [nil] for Matched and a [*KeyError] otherwise, whose [Want] lists the
    keys on record for the host; the source reads an empty [Want] as an
    unknown host (line 424). *)
Definition check (records : list HostKeyRecord)
  (h : string) (remote : string) (key : PublicKey) : option error :=
  match classify records h key with
  | Matched => None
  | Unknown => Some (KeyError [])
  | Changed => Some (KeyError (map knownKey (filter (fun r => sameHost h r = true) records)))
  end.

Definition serialize (key : PublicKey) : string :=
  pk_Type key ++ " " ++ base64.EncodeToString (pk_Marshal key).

(** Modelled from the spec: the record line [h t base64(k)], without the
    line feed.  [knownhosts.Line] takes a list of addresses and joins them
    with commas. *)
Definition Line (addresses : list string) (key : PublicKey) : string :=
  String.concat "," addresses ++ " " ++ serialize key.

End knownhosts.

(** ** The world of one client process

    Everything [hostKeyCallback] reads or changes outside its arguments:
    the process-wide default path, standard input, the file system, the
    named mutex, and the trace of effects in program order. *)

Inductive File :=
| Regular (data : string)
| Unreadable.

Inductive Stdin :=
| NotATerminal
| Terminal (rawModeOk : bool).

#[global] Instance Stdin_eq_dec : EqDecision Stdin.
Proof. solve_decision. Defined.

Inductive Mutex :=
| Free
| Held                 (* by this call *)
| HeldElsewhere.       (* by another holder that does not let go *)

Inductive Event :=
| EvMakeRaw                                  (* terminal.MakeRaw *)
| EvRestore                                  (* terminal.Restore *)
| EvTermWrite (text : string)                (* fmt.Fprint(term, ...) *)
| EvReadLine (line : string)                 (* term.ReadLine *)
| EvLog (message : string)                   (* logger.Errorf *)
| EvLoadStore (path : string)                (* knownhosts.New *)
| EvAcquire (name : string)                  (* mutex.Acquire *)
| EvRelease (name : string)                  (* releaser.Release *)
| EvReadFile (path : string)                 (* ioutil.ReadFile *)
| EvWriteTemp (target : string) (data : string)
| EvRename (target : string).

#[global] Instance Event_eq_decision : EqDecision Event.
Proof. solve_decision. Defined.

Record World := mkWorld {
  goCryptoKnownHostsMutex : bool;        (* sync.Mutex: locked? *)
  goCryptoKnownHostsFile : string;
  stdin : Stdin;
  termWritable : bool;                   (* writes to the terminal succeed *)
  termInput : list string;               (* the lines ReadLine will deliver *)
  files : gmap string File;
  mutex : Mutex;                         (* the mutex named juju-ssh-client *)
  dirWritable : bool;                    (* AtomicWriteFile succeeds *)
  trace : list Event
}.

Definition emit (e : Event) (w : World) : World :=
  mkWorld (goCryptoKnownHostsMutex w) (goCryptoKnownHostsFile w) (stdin w)
    (termWritable w) (termInput w) (files w) (mutex w) (dirWritable w)
    (trace w ++ [e]).

Definition setTermInput (input : list string) (w : World) : World :=
  mkWorld (goCryptoKnownHostsMutex w) (goCryptoKnownHostsFile w) (stdin w)
    (termWritable w) input (files w) (mutex w) (dirWritable w) (trace w).

Definition setFiles (fs : gmap string File) (w : World) : World :=
  mkWorld (goCryptoKnownHostsMutex w) (goCryptoKnownHostsFile w) (stdin w)
    (termWritable w) (termInput w) fs (mutex w) (dirWritable w) (trace w).

Definition setMutex (m : Mutex) (w : World) : World :=
  mkWorld (goCryptoKnownHostsMutex w) (goCryptoKnownHostsFile w) (stdin w)
    (termWritable w) (termInput w) (files w) m (dirWritable w) (trace w).

Definition setKnownHostsMutex (b : bool) (w : World) : World :=
  mkWorld b (goCryptoKnownHostsFile w) (stdin w)
    (termWritable w) (termInput w) (files w) (mutex w) (dirWritable w) (trace w).

Definition setKnownHostsFile (file : string) (w : World) : World :=
  mkWorld (goCryptoKnownHostsMutex w) file (stdin w)
    (termWritable w) (termInput w) (files w) (mutex w) (dirWritable w) (trace w).

(** A Go function with effects: a world transformer with a result. *)
Definition M (A : Type) : Type := World -> A * World.

(** ** Accessors of the process-wide default path (lines 486-505)

    [Lock] waits while another goroutine holds the mutex; a sequential
    caller finds it free, takes it, and the deferred [Unlock] frees it. *)

Definition sync_Lock (w : World) : World := setKnownHostsMutex true w.
Definition sync_Unlock (w : World) : World := setKnownHostsMutex false w.

Definition GoCryptoKnownHostsFile : M string := fun w =>
  let w1 := sync_Lock w in
  let result := goCryptoKnownHostsFile w1 in
  (result, sync_Unlock w1).

Definition SetGoCryptoKnownHostsFile (file : string) : M unit := fun w =>
  let w1 := sync_Lock w in
  let w2 := setKnownHostsFile file w1 in
  (tt, sync_Unlock w2).

(** ** Collaborators acting on the world *)

(** Modelled from the spec: [knownhosts.New] reads the file and returns
    the checking callback; a missing file is reported as such (the source
    tests [os.IsNotExist], line 412), a line that does not parse is
    skipped. *)
Definition knownhosts_New (path : string)
  : M (error + (string -> string -> PublicKey -> option error)) := fun w =>
  let w1 := emit (EvLoadStore path) w in
  match files w !! path with
  | None => (inl (ErrNotExist path), w1)
  | Some Unreadable => (inl (ErrPermission path), w1)
  | Some (Regular data) => (inr (knownhosts.check (knownhosts.load path data)), w1)
  end.

(** [ioutil.ReadFile]. *)
Definition ioutil_ReadFile (path : string) : M (string * option error) := fun w =>
  let w1 := emit (EvReadFile path) w in
  match files w !! path with
  | None => ((EmptyString, Some (ErrNotExist path)), w1)
  | Some Unreadable => ((EmptyString, Some (ErrPermission path)), w1)
  | Some (Regular data) => ((data, None), w1)
  end.

(** Modelled from the spec: [utils.AtomicWriteFile] is not part of the
    source file; it writes the bytes to a temporary file in the directory of
    the target and renames it over the target.  A failure leaves the target
    as it was. *)
Definition utils_AtomicWriteFile (path : string) (data : string)
  : M (option error) := fun w =>
  if dirWritable w then
    let w1 := emit (EvWriteTemp path data) w in
    let w2 := emit (EvRename path) w1 in
    (None, setFiles (<[path := Regular data]> (files w2)) w2)
  else (Some (ErrPermission path), w).

(** Modelled from the spec: [mutex.Acquire] of the juju/mutex library takes
    a named mutual-exclusion token and fails when the token cannot be
    obtained; the returned releaser gives it back. *)
Definition mutex_Acquire (name : string) : M (option error) := fun w =>
  match mutex w with
  | Free => (None, emit (EvAcquire name) (setMutex Held w))
  | _ => (Some ErrMutex, w)
  end.

Definition mutex_Release (name : string) (w : World) : World :=
  emit (EvRelease name) (setMutex Free w).

(** The terminal that [getTerminal] returns, a [readLineWriter]. *)
Inductive readLineWriter := stdinTerminal.

(** [fmt.Fprint(term, text)]. *)
Definition Fprint (term : readLineWriter) (text : string) : M (option error) :=
  fun w =>
    if termWritable w then (None, emit (EvTermWrite text) w)
    else (Some ErrTermWrite, w).

(** [term.ReadLine()]: the next line of input, [io.EOF] after the last. *)
Definition ReadLine (term : readLineWriter) : M (string * option error) :=
  fun w =>
    match termInput w with
    | [] => ((EmptyString, Some io_EOF), w)
    | line :: rest => ((line, None), emit (EvReadLine line) (setTermInput rest w))
    end.

(** [getTerminal] (lines 383-393). *)
Definition getTerminal : M (option readLineWriter * option error) := fun w =>
  match stdin w with
  | Terminal rawModeOk =>
      if rawModeOk then ((Some stdinTerminal, None), emit EvMakeRaw w)
      else ((None, errors_Trace (Some ErrRawMode)), w)
  | NotATerminal => ((None, None), w)
  end.

(** The [cleanup] closure of [getTerminal]. *)
Definition cleanupTerm (w : World) : World := emit EvRestore w.

Definition isSome {A} (o : option A) : bool :=
  match o with Some _ => true | None => false end.

(** ** The host-key verifier (lines 259-476) *)

(** The fields of [goCryptoCommand] that [hostKeyCallback] reads. *)
Record goCryptoCommand := {
  knownHostsFile : string;
  strictHostKeyChecking : StrictHostChecksOption
}.

Section Verifier.

(** [ssh.FingerprintSHA256]: the printable SHA-256 digest of a key, used
    in messages only. *)
Variable FingerprintSHA256 : PublicKey -> string.

(** The two [printError] closures of [hostKeyCallback] (lines 268-283):
    [Fprintln] to the terminal when there is one, the logger otherwise. *)
Definition printError (term : option readLineWriter) (message : string)
  : M (option error) :=
  match term with
  | Some t => Fprint t (message ++ nl)
  | None => fun w => (None, emit (EvLog message) w)
  end.

(** The banner of [checkHostKey] (lines 428-439), after [[1:]]. *)
Definition mismatchHead (key : PublicKey) (knownHostsFile : string) : string :=
  "@@@@@@@@@@@@@@@@@@@@@@@@@@@@@@@@@@@@@@@@@@@@@@@@@@@@@@@@@@@" ++ nl ++
  "@    WARNING: REMOTE HOST IDENTIFICATION HAS CHANGED!     @" ++ nl ++
  "@@@@@@@@@@@@@@@@@@@@@@@@@@@@@@@@@@@@@@@@@@@@@@@@@@@@@@@@@@@" ++ nl ++
  "IT IS POSSIBLE THAT SOMEONE IS DOING SOMETHING NASTY!" ++ nl ++
  "Someone could be eavesdropping on you right now (man-in-the-middle attack)!" ++ nl ++
  "It is also possible that a host key has just been changed." ++ nl ++
  "The fingerprint for the " ++ pk_Type key ++ " key sent by the remote host is" ++ nl ++
  FingerprintSHA256 key ++ "." ++ nl ++
  "Please contact your system administrator." ++ nl ++
  "Add correct host key in " ++ knownHostsFile ++ " to get rid of this message." ++ nl.

(** The loop of lines 441-446: the last wanted key of the offered type. *)
Definition findTypeKey (key : PublicKey) (Want : list KnownKey) : option KnownKey :=
  fold_left
    (fun typeKey knownKey =>
       if String.eqb (pk_Type (kk_Key knownKey)) (pk_Type key)
       then Some knownKey else typeKey)
    Want None.

(** Lines 448-466. *)
Definition mismatchTail (key : PublicKey) (Want : list KnownKey) : string :=
  match findTypeKey key Want with
  | Some typeKey =>
      "Offending " ++ pk_Type (kk_Key typeKey) ++ " key in " ++
      kk_Filename typeKey ++ ":" ++ Itoa (kk_Line typeKey)
  | None =>
      fold_left
        (fun tail knownKey =>
           tail ++ nl ++ " - " ++ pk_Type (kk_Key knownKey) ++ " key in " ++
           kk_Filename knownKey ++ ":" ++ Itoa (kk_Line knownKey))
        Want "Host was previously using different host key algorithms:"
  end.

(** [checkHostKey] (lines 398-476).  After the type switch, line 475
    returns the callback's error itself: a non-nil [*KeyError] for a host
    known under other keys, or any error of another kind. *)
Definition checkHostKey (hostname remote : string) (key : PublicKey)
  (knownHostsFile : string) (printError : string -> M (option error))
  : M (bool * option error) := fun w =>
  match knownhosts_New knownHostsFile w with
  | (inl err, w1) =>
      if os_IsNotExist err then ((false, None), w1)
      else ((false, errors_Trace (Some err)), w1)
  | (inr callback, w1) =>
      let err := callback hostname remote key in
      match err with
      | None => ((true, None), w1)
      | Some (KeyError Want) =>
          if (length Want =? 0)%nat then ((false, None), w1)
          else
            let head := mismatchHead key knownHostsFile in
            let tail := mismatchTail key Want in
            match printError (head ++ tail) w1 with
            | (Some perr, w2) =>
                ((false,
                  Some (errors_Annotate perr
                          "failed to print host key mismatch warning")), w2)
            | (None, w2) => ((false, errors_Trace err), w2)
            end
      | Some _ => ((false, errors_Trace err), w1)
      end
  end.

(** The message of lines 298-305. *)
Definition authenticityMessage (hostname remote : string) (key : PublicKey)
  : string :=
  "The authenticity of host '" ++ hostname ++ " (" ++ remote ++
  ")' can't be established." ++ nl ++
  pk_Type key ++ " key fingerprint is " ++ FingerprintSHA256 key ++ "." ++ nl.

(** The loop of lines 316-333, by recursion on the lines that the
    terminal still has to deliver ([input] is [termInput w]); each turn is
    one [ReadLine], see [promptLoop_iteration].  [None] is the [break]
    after a yes. *)
Fixpoint promptLoop (term : readLineWriter) (input : list string) (w : World)
  : option error * World :=
  match input with
  | [] => (errors_Trace (Some io_EOF), w)
  | line :: rest =>
      let w1 := emit (EvReadLine line) (setTermInput rest w) in
      if String.eqb (ToLower line) "yes" then (None, w1)
      else if String.eqb (ToLower line) "no" then
        (Some (errors_New "Host key verification failed."), w1)
      else
        promptLoop term rest (snd (Fprint term "Please type 'yes' or 'no': " w1))
  end.

(** The switch of lines 292-339: either a [return] with an error, or the
    value of [warnAdd] with which the function goes on. *)
Definition strictnessSwitch (c : goCryptoCommand) (hostname remote : string)
  (key : PublicKey) (term : option readLineWriter) : M (error + bool) := fun w =>
  match strictHostKeyChecking c with
  | StrictHostChecksNo => (inr true, w)
  | StrictHostChecksDefault | StrictHostChecksAsk =>
      let message := authenticityMessage hostname remote key in
      match term with
      | None =>
          (inl (errors_New
                  "not running in a terminal, cannot prompt for verification"),
           emit (EvLog message) w)
      | Some t =>
          let w1 :=
            snd (Fprint t
                   (message ++ "Are you sure you want to continue connecting (yes/no)? ")
                   w) in
          match promptLoop t (termInput w1) w1 with
          | (Some err, w2) => (inl err, w2)
          | (None, w2) => (inr false, w2)
          end
      end
  | _ =>
      (inl (errors_New
              ("no " ++ pk_Type key ++ " host key is known for " ++ hostname ++
               " and you have requested strict checking")),
       w)
  end.

(** The bytes handed to [AtomicWriteFile] (lines 359-364). *)
Definition appendRecord (knownHostsData : string) (line : string) : string :=
  let buf := knownHostsData in
  let buf :=
    if nonEmpty knownHostsData && negb (HasSuffixNl knownHostsData)
    then buf ++ nl else buf in
  let buf := buf ++ line in
  buf ++ nl.

(** Lines 369-375. *)
Definition warnAndReturn (warnAdd : bool) (printError : string -> M (option error))
  (hostname : string) (key : PublicKey) : M (option error) := fun w =>
  if warnAdd then
    let w1 :=
      snd (printError
             ("Warning: permanently added '" ++ hostname ++ "' (" ++
              pk_Type key ++ ") to the list of known hosts.") w) in
    (None, w1)
  else (None, w).

(** Lines 341-375.  The deferred [Release] runs when the function
    returns, on every path after a successful [Acquire]. *)
Definition persist (knownHostsFile hostname : string) (key : PublicKey)
  (warnAdd : bool) (printError : string -> M (option error))
  : M (option error) := fun w =>
  if negb (String.eqb knownHostsFile os_DevNull) then
    match mutex_Acquire "juju-ssh-client" w with
    | (Some err, w1) => (errors_Trace (Some err), w1)
    | (None, w1) =>
        let '(result, w4) :=
          match ioutil_ReadFile knownHostsFile w1 with
          | ((knownHostsData, err), w2) =>
              if match err with
                 | Some e => negb (os_IsNotExist e)
                 | None => false
                 end
              then (errors_Trace err, w2)
              else
                let buf :=
                  appendRecord knownHostsData (knownhosts.Line [hostname] key) in
                match utils_AtomicWriteFile knownHostsFile buf w2 with
                | (Some werr, w3) => (errors_Trace (Some werr), w3)
                | (None, w3) => warnAndReturn warnAdd printError hostname key w3
                end
          end in
        (result, mutex_Release "juju-ssh-client" w4)
    end
  else warnAndReturn warnAdd printError hostname key w.

(** Lines 285-375: the body that runs between [getTerminal] and the
    deferred [cleanupTerm]. *)
Definition verify (c : goCryptoCommand) (hostname remote : string)
  (key : PublicKey) (knownHostsFile : string) (term : option readLineWriter)
  : M (option error) := fun w =>
  match checkHostKey hostname remote key knownHostsFile (printError term) w with
  | ((matched, err), w1) =>
      if isSome err || matched then (errors_Trace err, w1)
      else
        match strictnessSwitch c hostname remote key term w1 with
        | (inl e, w2) => (Some e, w2)
        | (inr warnAdd, w2) =>
            persist knownHostsFile hostname key warnAdd (printError term) w2
        end
  end.

(** [hostKeyCallback] (lines 259-376).  [nil] is [None]. *)
Definition hostKeyCallback (c : goCryptoCommand) (hostname remote : string)
  (key : PublicKey) : M (option error) := fun w =>
  let '(knownHostsFile, w1) :=
    if negb (nonEmpty (knownHostsFile c)) then GoCryptoKnownHostsFile w
    else (knownHostsFile c, w) in
  if negb (nonEmpty knownHostsFile) then
    (Some (errors_New "known_hosts file not configured"), w1)
  else
    match getTerminal w1 with
    | ((_, Some err), w2) => (errors_Trace (Some err), w2)
    | ((term, None), w2) =>
        let '(result, w3) := verify c hostname remote key knownHostsFile term w2 in
        (result, match term with Some _ => cleanupTerm w3 | None => w3 end)
    end.

End Verifier.

(** ** Vocabulary of the statements *)

(** The path that [hostKeyCallback] settles on (lines 260-266); empty when
    nothing is configured. *)
Definition resolvedPath (c : goCryptoCommand) (w : World) : string :=
  if nonEmpty (knownHostsFile c) then knownHostsFile c
  else goCryptoKnownHostsFile w.

(** The bytes of a file, the empty string for a missing one. *)
Definition contents (w : World) (path : string) : string :=
  match files w !! path with
  | Some (Regular data) => data
  | _ => EmptyString
  end.

(** The classification of an offered key against the store at [path]:
    a missing file is the empty store, an unreadable one classifies nothing. *)
Definition storeOutcome (w : World) (path : string) (h : string)
  (key : PublicKey) : option knownhosts.VerificationOutcome :=
  match files w !! path with
  | None => Some knownhosts.Unknown
  | Some Unreadable => None
  | Some (Regular data) =>
      Some (knownhosts.classify (knownhosts.load path data) h key)
  end.

(** The keys on record for a host, as the mismatch error lists them. *)
Definition wanted (w : World) (path : string) (h : string) : list KnownKey :=
  map knownhosts.knownKey
    (filter (fun r => knownhosts.sameHost h r = true)
       (knownhosts.load path (contents w path))).

(** The events by which a file is replaced. *)
Definition isMutation (e : Event) : bool :=
  match e with
  | EvWriteTemp _ _ | EvRename _ => true
  | _ => false
  end.

Definition mutations (evs : list Event) : list Event := List.filter isMutation evs.

(** The events of the terminal session around the body of the callback. *)
Definition rawOpen (w : World) : list Event :=
  match stdin w with Terminal _ => [EvMakeRaw] | NotATerminal => [] end.

Definition rawClose (w : World) : list Event :=
  match stdin w with Terminal _ => [EvRestore] | NotATerminal => [] end.

(** A line that is neither yes nor no, whatever its case. *)
Definition otherAnswer (line : string) : bool :=
  negb (String.eqb (ToLower line) "yes") && negb (String.eqb (ToLower line) "no").

(** What the loop echoes for the lines it does not accept as an answer. *)
Definition reprompts (writable : bool) (lines : list string) : list Event :=
  flat_map
    (fun line =>
       EvReadLine line ::
       (if writable then [EvTermWrite "Please type 'yes' or 'no': "] else []))
    lines.

(** Two worlds that differ at most in the trace and in the mutex of the
    default path. *)
Definition sameEnv (w1 w : World) : Prop :=
  goCryptoKnownHostsFile w1 = goCryptoKnownHostsFile w
  /\ stdin w1 = stdin w /\ termWritable w1 = termWritable w
  /\ termInput w1 = termInput w /\ files w1 = files w
  /\ mutex w1 = mutex w /\ dirWritable w1 = dirWritable w.

(** The terminal that [getTerminal] hands out in a world. *)
Definition termOf (w : World) : option readLineWriter :=
  match stdin w with Terminal _ => Some stdinTerminal | NotATerminal => None end.

(** The deferred cleanup, when there is a terminal. *)
Definition closeRaw (w0 w : World) : World :=
  match stdin w0 with Terminal _ => cleanupTerm w | NotATerminal => w end.

(** Events that neither read the terminal, nor take the mutex, nor touch a
    file: loading the store and logging. *)
Definition isPassive (e : Event) : bool :=
  match e with
  | EvLoadStore _ | EvLog _ => true
  | _ => false
  end.

(** The warning of lines 370-373 and the events it leaves. *)
Definition addedWarning (hostname : string) (key : PublicKey) : string :=
  "Warning: permanently added '" ++ hostname ++ "' (" ++
  pk_Type key ++ ") to the list of known hosts.".

Definition warnEvents (warnAdd : bool) (term : option readLineWriter)
  (writable : bool) (hostname : string) (key : PublicKey) : list Event :=
  if warnAdd then
    match term with
    | None => [EvLog (addedWarning hostname key)]
    | Some _ =>
        if writable then [EvTermWrite (addedWarning hostname key ++ nl)] else []
    end
  else [].

(** The events of a successful append of [new] to the file at [path]. *)
Definition appendEvents (path new : string) : list Event :=
  [EvAcquire "juju-ssh-client"; EvReadFile path;
   EvWriteTemp path new; EvRename path].

(** The question of line 315 and the event it leaves. *)
Definition question : string :=
  "Are you sure you want to continue connecting (yes/no)? ".

Definition askEvents (FingerprintSHA256 : PublicKey -> string)
  (writable : bool) (hostname remote : string) (key : PublicKey) : list Event :=
  if writable then
    [EvTermWrite (authenticityMessage FingerprintSHA256 hostname remote key ++ question)]
  else [].

(** The error of the Strict policy (lines 335-338). *)
Definition strictError (hostname : string) (key : PublicKey) : error :=
  errors_New ("no " ++ pk_Type key ++ " host key is known for " ++ hostname ++
              " and you have requested strict checking").

(** A world that differs from another at most in the pending terminal
    input, the trace and the mutex of the default path. *)
Definition sameStore (w1 w : World) : Prop :=
  goCryptoKnownHostsFile w1 = goCryptoKnownHostsFile w
  /\ stdin w1 = stdin w /\ termWritable w1 = termWritable w
  /\ files w1 = files w
  /\ mutex w1 = mutex w /\ dirWritable w1 = dirWritable w.

(** A stand-in for [ssh.FingerprintSHA256] in the examples; the digest only
    appears in messages. *)
Definition sampleFingerprint (key : PublicKey) : string :=
  "SHA256:" ++ base64.EncodeToString (pk_Marshal key).

(** The events on the named mutex and on the store file. *)
Definition isStoreEvent (e : Event) : bool :=
  match e with
  | EvAcquire _ | EvRelease _ | EvReadFile _ | EvWriteTemp _ _ | EvRename _ => true
  | _ => false
  end.

Definition storeEvents (evs : list Event) : list Event :=
  List.filter isStoreEvent evs.

(** The store events of an append that stops after reading, and of one
    that completes. *)
Definition lockedRead (path : string) : list Event :=
  [EvAcquire "juju-ssh-client"; EvReadFile path; EvRelease "juju-ssh-client"].

Definition lockedAppend (path new : string) : list Event :=
  [EvAcquire "juju-ssh-client"; EvReadFile path;
   EvWriteTemp path new; EvRename path; EvRelease "juju-ssh-client"].

(** What a call may do to the store at [path]: nothing, or a read under
    the lock, or the replacement of the file by [new] under the lock. *)
Definition storeEffect (path new : string) (w w' : World)
  (result : option error) (evs : list Event) : Prop :=
  ((storeEvents evs = [] \/ storeEvents evs = lockedRead path)
   /\ files w' = files w)
  \/ (storeEvents evs = lockedAppend path new
      /\ files w' = <[path := Regular new]> (files w)
      /\ result = None).

(** ** Concurrent appends (lines 341-368)

    Several calls, in one or several processes, that have each accepted a
    key and append it to the same file.  A call moves through the append one
    effect at a time and an arbitrary schedule interleaves the calls. *)

Module Concurrent.

(** Where a call stands in its append. *)
Inductive pc :=
| Waiting                              (* before mutex.Acquire, line 343 *)
| Locked                               (* mutex held, before ioutil.ReadFile *)
| HasRead (knownHostsData : string)    (* file read, before AtomicWriteFile *)
| Written                              (* file replaced, Release pending *)
| Done.                                (* returned, mutex released *)

Record State := mkState {
  store : string;             (* the bytes of the file, empty when missing *)
  holder : option nat;        (* the call that holds the mutex *)
  pcs : list pc               (* one position per call *)
}.

Definition init (old : string) (n : nat) : State :=
  mkState old None (replicate n Waiting).

(** Modelled from the spec: [mutex.Acquire] waits until the named mutex is
    free, and the rename of [AtomicWriteFile] replaces the file in one step.
    [step] is one effect of call [i], whose record line is [lines !! i], in
    the order of lines 343-367: acquire, read, write, release.  A call that
    waits for a held mutex does not move. *)
Definition step (lines : list string) (i : nat) (s : State) : State :=
  match lines !! i, pcs s !! i with
  | Some line, Some Waiting =>
      match holder s with
      | None => mkState (store s) (Some i) (<[i := Locked]> (pcs s))
      | Some _ => s
      end
  | Some line, Some Locked =>
      mkState (store s) (holder s) (<[i := HasRead (store s)]> (pcs s))
  | Some line, Some (HasRead knownHostsData) =>
      mkState (appendRecord knownHostsData line) (holder s)
        (<[i := Written]> (pcs s))
  | Some line, Some Written =>
      mkState (store s) None (<[i := Done]> (pcs s))
  | _, _ => s
  end.

(** A schedule names the call that moves next, turn after turn. *)
Definition run (lines : list string) (schedule : list nat) (s : State) : State :=
  fold_left (fun s i => step lines i s) schedule s.

Definition isDone (p : pc) : bool :=
  match p with Done => true | _ => false end.

Definition allDone (s : State) : bool := forallb isDone (pcs s).

(** Calls inside the critical section, and calls whose record is in the
    file. *)
Definition holds (p : pc) : bool :=
  match p with Locked | HasRead _ | Written => true | _ => false end.

Definition appended (p : pc) : bool :=
  match p with Written | Done => true | _ => false end.

Definition lineOf (lines : list string) (i : nat) : string :=
  default EmptyString (lines !! i).

(** The records of a list of lines, each ended by a line feed. *)
Definition joinLines (ls : list string) : string :=
  fold_right (fun line rest => line ++ nl ++ rest) EmptyString ls.

(** The effects a call still has to perform. *)
Definition remaining (p : pc) : nat :=
  match p with
  | Waiting => 4 | Locked => 3 | HasRead _ => 2 | Written => 1 | Done => 0
  end.

(** The effects all calls together still have to perform. *)
Definition work (s : State) : nat := sum_list (remaining <$> pcs s).

(** For comparison only, the effects of a call whose [Acquire] would not
    wait for the holder: what the mutex is there to prevent. *)
Definition stepWithoutWait (lines : list string) (i : nat) (s : State) : State :=
  match lines !! i, pcs s !! i with
  | Some line, Some Waiting =>
      mkState (store s) (Some i) (<[i := Locked]> (pcs s))
  | _, _ => step lines i s
  end.

(** The invariant of every schedule: the holder of the mutex is the only
    call inside the critical section, what it has read is the current file,
    and the file is the original bytes with the records of the calls that
    have written, each once, in the order [order] of their writes. *)
Definition Inv (lines : list string) (old : string) (s : State) : Prop :=
  length (pcs s) = length lines
  /\ (forall i p, pcs s !! i = Some p -> holds p = true -> holder s = Some i)
  /\ (forall i, holder s = Some i -> exists p, pcs s !! i = Some p /\ holds p = true)
  /\ (forall i d, pcs s !! i = Some (HasRead d) -> d = store s)
  /\ exists order : list nat,
      NoDup order
      /\ (forall i, i ∈ order <-> exists p, pcs s !! i = Some p /\ appended p = true)
      /\ store s = fold_left appendRecord (lineOf lines <$> order) old.

End Concurrent.

(** ** Data of the examples *)

Definition keyFoo : PublicKey :=
  {| pk_Type := "ssh-rsa"; pk_Marshal := [x66; x6f; x6f] |}.

Definition keyBar : PublicKey :=
  {| pk_Type := "ssh-rsa"; pk_Marshal := [x62; x61; x72] |}.

(** A store with one record, [keyFoo] for example.com. *)
Definition storeFoo : gmap string File :=
  {[ "known_hosts" := Regular ("example.com ssh-rsa Zm9v" ++ nl) ]}.

(** A store for another host, without a final line feed. *)
Definition storeOther : gmap string File :=
  {[ "known_hosts" := Regular "other.org ssh-rsa Zm9v" ]}.

Definition command (policy : StrictHostChecksOption) : goCryptoCommand :=
  {| knownHostsFile := "known_hosts"; strictHostKeyChecking := policy |}.

(** A world with a free mutex, a writable directory and an empty trace. *)
Definition world (input : Stdin) (lines : list string) (fs : gmap string File)
  : World :=
  mkWorld false EmptyString input true lines fs Free true [].

(** ** Addresses and proxy commands (lines 110-127 and 478-484) *)

Module Address.

(** The first occurrence of a separator byte: the text before it and the
    text after it. *)
Fixpoint cut (sep : ascii) (s : string) : option (string * string) :=
  match s with
  | EmptyString => None
  | String c s' =>
      if Ascii.eqb c sep then Some (EmptyString, s')
      else
        match cut sep s' with
        | Some (before, after) => Some (String c before, after)
        | None => None
        end
  end.

(** [strings.SplitN(s, sep, 2)] for a one-byte separator. *)
Definition SplitN2 (s : string) (sep : ascii) : list string :=
  match cut sep s with
  | Some (before, after) => [before; after]
  | None => [s]
  end.

(** [splitUserHost] (lines 478-484).  [SplitN] with a count of 2 returns
    one or two strings, so [userHost[0]] always exists. *)
Definition splitUserHost (s : string) : string * string :=
  let userHost := SplitN2 s "@" in
  match userHost with
  | [user; host] => (user, host)
  | first :: _ => (EmptyString, first)
  | [] => (EmptyString, EmptyString)
  end.

(** [strings.Replace(s, old, new, -1)] for a two-byte [old]: every
    occurrence, left to right, none overlapping. *)
Fixpoint Replace2 (o1 o2 : ascii) (new : string) (s : string) : string :=
  match s with
  | EmptyString => EmptyString
  | String c tl =>
      match tl with
      | String d rest =>
          if Ascii.eqb c o1 && Ascii.eqb d o2 then new ++ Replace2 o1 o2 new rest
          else String c (Replace2 o1 o2 new tl)
      | EmptyString => String c EmptyString
      end
  end.

(** The body of the loop of lines 120-127 for one argument. *)
Definition substitute (host port user : string) (arg : string) : string :=
  let arg := Replace2 "%" "h" host arg in
  let arg := if nonEmpty port then Replace2 "%" "p" port arg else arg in
  let arg := Replace2 "%" "r" user arg in
  arg.

(** Lines 116-127: the proxy command after the loop has overwritten its
    elements.  [split] is the result of [net.SplitHostPort(addr)], [None]
    for an error, on which the host is the whole address and the port is
    empty. *)
Definition proxyArguments (split : option (string * string)) (addr user : string)
  (proxyCommand : list string) : list string :=
  let '(host, port) :=
    match split with
    | Some (host, port) => (host, port)
    | None => (addr, EmptyString)
    end in
  map (substitute host port user) proxyCommand.

End Address.

(** ** Vocabulary of the further statements *)

(** One line of the list that the mismatch warning prints when the host
    has no key of the offered type (lines 459-464). *)
Definition knownKeyItem (knownKey : KnownKey) : string :=
  nl ++ " - " ++ pk_Type (kk_Key knownKey) ++ " key in " ++
  kk_Filename knownKey ++ ":" ++ Itoa (kk_Line knownKey).

(** The lines that the events [EvReadLine] of a trace took from the
    terminal. *)
Definition readLines (evs : list Event) : list string :=
  flat_map (fun e => match e with EvReadLine line => [line] | _ => [] end) evs.

(** The events that switch the terminal mode. *)
Definition isRawEvent (e : Event) : bool :=
  match e with EvMakeRaw | EvRestore => true | _ => false end.

Definition rawEvents (evs : list Event) : list Event := List.filter isRawEvent evs.

(** What the body of a call does to the terminal, seen in the events [evs]
    that it adds to the trace: it leaves the mode alone, and the lines it
    reads are the lines that are gone from the pending input, in order. *)
Definition terminalEffect (w w' : World) (evs : list Event) : Prop :=
  trace w' = (trace w ++ evs)%list
  /\ rawEvents evs = []
  /\ termInput w = (readLines evs ++ termInput w')%list.

(** Every byte, and every number below a bound: the ranges over which the
    facts about sextets are checked. *)
Definition allBytes : list byte :=
  map (fun n => match Byte.of_nat n with Some b => b | None => x00 end) (seq 0 256).

Definition below (k : nat) : list N := map N.of_nat (seq 0 k).

(** One sextet goes through the alphabet and back, and is not the padding. *)
Definition sextetOk (n : N) : bool :=
  bool_decide (base64.decChar (base64.encChar n) = Some n)
  && negb (base64.isPad (base64.encChar n)).

(** The sextets of a group of three bytes [x], [y], [z]: the second and
    the third take their low bits [q] and [r] from the next byte. *)
Definition sextet1 (x : N) : N := N.shiftr x 2.
Definition sextet2 (x q : N) : N := N.lor (N.shiftl (N.land x 3) 4) q.
Definition sextet3 (y r : N) : N := N.lor (N.shiftl (N.land y 15) 2) r.
Definition sextet4 (z : N) : N := N.land z 63.

(** A host name and a key type that can stand as the fields of a record
    line: not empty, free of blanks and line feeds, the host name opening
    neither a comment nor a hashed entry. *)
Definition recordable (h : string) (key : PublicKey) : bool :=
  nonEmpty h && negb (contains " " h) && negb (contains "010" h)
  && negb (knownhosts.startsWith "#" h) && negb (knownhosts.startsWith "|" h)
  && nonEmpty (pk_Type key) && negb (contains " " (pk_Type key))
  && negb (contains "010" (pk_Type key)).

(** ** The command and its session (lines 29-257)

    [Command] builds a [goCryptoCommand]; [Start], [Wait], [Kill], [Close]
    and the pipes drive one session of the transport library over one
    client connection, made on first use by [ensureSession]. *)

Module Session.

(** Signers, readers and writers are values of interfaces that the file
    only passes on; they are told apart by a number.  [None] is [nil]. *)
Definition Signer := nat.
Definition Reader := nat.
Definition Writer := nat.

(** [errors.Errorf] with a constant message, [errors.Errorf] with one
    [%v] argument, and the errors of the libraries, which the file only
    passes on. *)
Inductive error :=
| errors_Errorf (message : string)
| errors_Errorf_v (format : string) (cause : error)
| failure (code : nat).

(** The fields of [Options] that [Command] reads (lines 63-70); the
    declaration is in another file. *)
Module Options.
Record Options := {
  port : Z;
  proxyCommand : list string;
  knownHostsFile : string;
  strictHostKeyChecking : StrictHostChecksOption;
  hostKeyAlgorithms : list string
}.
End Options.

(** [GoCryptoClient] (lines 38-40) and [NewGoCryptoClient] (lines 46-48). *)
Module Client.
Record GoCryptoClient := { signers : list Signer }.
End Client.

Definition NewGoCryptoClient (signers : list Signer)
  : Client.GoCryptoClient * option error :=
  ({| Client.signers := signers |}, None).

(** [ssh.ClientConfig] as [ensureSession] fills it (lines 158-167): [Auth]
    is the callback that returns the signers; [HostKeyCallback] is always
    the method [hostKeyCallback] of the command itself and is left out. *)
Record ClientConfig := {
  User : string;
  HostKeyAlgorithms : list string;
  Auth : list Signer
}.

(** [sess.Stdin] is [WrapStdin(c.stdin)]; [WrapStdin] is in another file
    and is kept as a constructor. *)
Inductive SessionStdin := WrapStdin (stdin : option Reader).

(** An [*ssh.Session] with the fields that the file sets. *)
Record ssh_Session := {
  handle : nat;
  Stdin : SessionStdin;
  Stdout : option Writer;
  Stderr : option Writer
}.

Inductive Pipe := pipeStdin | pipeStdout | pipeStderr.

(** The calls that leave the process, in program order. *)
Inductive Event :=
| EvCurrentUser                                          (* user.Current() *)
| EvDial (addr : string) (config : ClientConfig)         (* sshDial("tcp", addr, config) *)
| EvExec (argv : list string)                            (* exec.Command(argv[0], argv[1:]...).Start() *)
| EvNewClientConn (addr : string) (config : ClientConfig) (* ssh.NewClientConn *)
| EvNewSession (client : nat)                            (* client.NewSession() *)
| EvClientClose (client : nat)                           (* client.Close() *)
| EvSessionClose (sess : nat)                            (* sess.Close() *)
| EvShell (sess : nat)                                   (* sess.Shell() *)
| EvSessionStart (sess : nat) (cmd : string)             (* sess.Start(cmd) *)
| EvWait (sess : nat)                                    (* sess.Wait() *)
| EvSignalKill (sess : nat)                              (* sess.Signal(ssh.SIGKILL) *)
| EvPipe (sess : nat) (pipe : Pipe).                     (* sess.StdinPipe() and the like *)

(** Modelled from the spec: the transport and session library, the
    proxy process and the signing identities are consumed as black boxes.
    Each call into them is logged; whether it fails is decided by the
    environment from everything that has happened so far, the call
    included.  The helpers of the standard library and of other files that
    only compute are functions of their arguments. *)
Record Library := {
  outcome : list Event -> option error;
  Username : list Event -> string;                (* user.Current().Username *)
  net_SplitHostPort : string -> option (string * string);
  net_JoinHostPort : string -> string -> string;
  utils_CommandString : list string -> string;
  privateKeys : list Signer
}.

(** [goCryptoCommand] (lines 92-106); a client is known by the number it
    got when it was made. *)
Record goCryptoCommand := {
  signers : list Signer;
  user : string;
  addr : string;
  command : string;
  proxyCommand : list string;
  knownHostsFile : string;
  strictHostKeyChecking : StrictHostChecksOption;
  hostKeyAlgorithms : list string;
  stdin : option Reader;
  stdout : option Writer;
  stderr : option Writer;
  client : option nat;
  sess : option ssh_Session
}.

Definition setUser (u : string) (c : goCryptoCommand) : goCryptoCommand :=
  {| signers := signers c; user := u; addr := addr c; command := command c;
     proxyCommand := proxyCommand c; knownHostsFile := knownHostsFile c;
     strictHostKeyChecking := strictHostKeyChecking c;
     hostKeyAlgorithms := hostKeyAlgorithms c;
     stdin := stdin c; stdout := stdout c; stderr := stderr c;
     client := client c; sess := sess c |}.

Definition setProxyCommand (p : list string) (c : goCryptoCommand) : goCryptoCommand :=
  {| signers := signers c; user := user c; addr := addr c; command := command c;
     proxyCommand := p; knownHostsFile := knownHostsFile c;
     strictHostKeyChecking := strictHostKeyChecking c;
     hostKeyAlgorithms := hostKeyAlgorithms c;
     stdin := stdin c; stdout := stdout c; stderr := stderr c;
     client := client c; sess := sess c |}.

Definition setSession (cl : option nat) (s : option ssh_Session)
  (c : goCryptoCommand) : goCryptoCommand :=
  {| signers := signers c; user := user c; addr := addr c; command := command c;
     proxyCommand := proxyCommand c; knownHostsFile := knownHostsFile c;
     strictHostKeyChecking := strictHostKeyChecking c;
     hostKeyAlgorithms := hostKeyAlgorithms c;
     stdin := stdin c; stdout := stdout c; stderr := stderr c;
     client := cl; sess := s |}.

(** [strconv.Itoa] of an [int]. *)
Definition strconv_Itoa (i : Z) : string :=
  if (i <? 0)%Z then "-" ++ Itoa (Z.to_nat (- i)) else Itoa (Z.to_nat i).

Definition sshDefaultPort : Z := 22.

(** The result of a method that may dereference a [nil] pointer. *)
Inductive Result (A : Type) :=
| Return (a : A) (c : goCryptoCommand) (t : list Event)
| Panic (t : list Event).

Arguments Return {A} a c t.
Arguments Panic {A} t.

(** The methods that a caller of the command may invoke, in any order. *)
Inductive Call :=
| CallStart
| CallClose
| CallWait
| CallKill
| CallSetStdio (stdin : option Reader) (stdout stderr : option Writer)
| CallStdinPipe
| CallStdoutPipe
| CallStderrPipe.

Section Methods.

Variable lib : Library.

(** One call into the environment. *)
Definition invoke (e : Event) (t : list Event) : option error * list Event :=
  let t1 := (t ++ [e])%list in
  (outcome lib t1, t1).

(** [Command] (lines 51-83).  The zero value of [StrictHostChecksOption]
    is the first of its constants; the trace-level log of line 72 is left
    out. *)
Definition Command (c : Client.GoCryptoClient) (host : string)
  (command : list string) (options : option Options.Options) : goCryptoCommand :=
  let shellCommand := utils_CommandString lib command in
  let signers := Client.signers c in
  let signers := if (length signers =? 0)%nat then privateKeys lib else signers in
  let '(user, host) := Address.splitUserHost host in
  let port := sshDefaultPort in
  let port :=
    match options with
    | Some o => if negb (Options.port o =? 0)%Z then Options.port o else port
    | None => port
    end in
  {| signers := signers;
     user := user;
     addr := net_JoinHostPort lib host (strconv_Itoa port);
     command := shellCommand;
     proxyCommand :=
       match options with Some o => Options.proxyCommand o | None => [] end;
     knownHostsFile :=
       match options with Some o => Options.knownHostsFile o | None => EmptyString end;
     strictHostKeyChecking :=
       match options with
       | Some o => Options.strictHostKeyChecking o
       | None => StrictHostChecksDefault
       end;
     hostKeyAlgorithms :=
       match options with Some o => Options.hostKeyAlgorithms o | None => [] end;
     stdin := None; stdout := None; stderr := None;
     client := None; sess := None |}.

(** [Copy] (lines 88-90). *)
Definition Copy (c : Client.GoCryptoClient) (args : list string)
  (options : option Options.Options) : option error :=
  Some (errors_Errorf
          "scp command is not implemented (OpenSSH scp not available in PATH)").

(** [sshDial] (line 108) is [ssh.Dial]; a client that is made gets the
    length of the history as its number. *)
Definition sshDial (addr : string) (config : ClientConfig) (t : list Event)
  : (nat + error) * list Event :=
  let '(err, t1) := invoke (EvDial addr config) t in
  match err with
  | Some e => (inr e, t1)
  | None => (inl (length t1), t1)
  end.

(** [sshDialWithProxy] (lines 110-142).  The loop of lines 120-127
    writes the substituted arguments into the elements of the slice it was
    given, which are the elements of the caller's slice: the new elements
    are returned with the result. *)
Definition sshDialWithProxy (addr : string) (proxyCommand : list string)
  (config : ClientConfig) (t : list Event)
  : (nat + error) * list string * list Event :=
  if (length proxyCommand =? 0)%nat then
    let '(res, t1) := sshDial addr config t in
    (res, proxyCommand, t1)
  else
    let proxyCommand :=
      Address.proxyArguments (net_SplitHostPort lib addr) addr (User config)
        proxyCommand in
    let '(err, t1) := invoke (EvExec proxyCommand) t in
    match err with
    | Some e => (inr e, proxyCommand, t1)
    | None =>
        let '(err, t2) := invoke (EvNewClientConn addr config) t1 in
        match err with
        | Some e => (inr e, proxyCommand, t2)
        | None => (inl (length t2), proxyCommand, t2)
        end
    end.

(** [ensureSession] (lines 144-183). *)
Definition ensureSession (c : goCryptoCommand) (t : list Event)
  : (ssh_Session + error) * goCryptoCommand * list Event :=
  match sess c with
  | Some s => (inl s, c, t)
  | None =>
      if (length (signers c) =? 0)%nat then
        (inr (errors_Errorf "no private keys available"), c, t)
      else
        let '(uerr, c1, t1) :=
          if String.eqb (user c) EmptyString then
            let '(err, t1) := invoke EvCurrentUser t in
            match err with
            | Some e =>
                (Some (errors_Errorf_v "getting current user: %v" e), c, t1)
            | None => (None, setUser (Username lib t1) c, t1)
            end
          else (None, c, t) in
        match uerr with
        | Some e => (inr e, c1, t1)
        | None =>
            let config :=
              {| User := user c1;
                 HostKeyAlgorithms := hostKeyAlgorithms c1;
                 Auth := signers c1 |} in
            let '(res, proxy, t2) :=
              sshDialWithProxy (addr c1) (proxyCommand c1) config t1 in
            let c2 := setProxyCommand proxy c1 in
            match res with
            | inr e => (inr e, c2, t2)
            | inl cl =>
                let '(err, t3) := invoke (EvNewSession cl) t2 in
                match err with
                | Some e =>
                    let '(_, t4) := invoke (EvClientClose cl) t3 in
                    (inr e, c2, t4)
                | None =>
                    let s :=
                      {| handle := length t3;
                         Stdin := WrapStdin (stdin c2);
                         Stdout := stdout c2;
                         Stderr := stderr c2 |} in
                    (inl s, setSession (Some cl) (Some s) c2, t3)
                end
            end
        end
  end.

(** [Start] (lines 185-194). *)
Definition Start (c : goCryptoCommand) (t : list Event)
  : option error * goCryptoCommand * list Event :=
  let '(res, c1, t1) := ensureSession c t in
  match res with
  | inr e => (Some e, c1, t1)
  | inl s =>
      if String.eqb (command c1) EmptyString then
        let '(err, t2) := invoke (EvShell (handle s)) t1 in (err, c1, t2)
      else
        let '(err, t2) := invoke (EvSessionStart (handle s) (command c1)) t1 in
        (err, c1, t2)
  end.

(** [Close] (lines 196-208).  [c.client.Close()] on a [nil] client
    dereferences it. *)
Definition Close (c : goCryptoCommand) (t : list Event) : Result (option error) :=
  match sess c with
  | None => Return None c t
  | Some s =>
      let '(err0, t1) := invoke (EvSessionClose (handle s)) t in
      match client c with
      | None => Panic t1
      | Some cl =>
          let '(err1, t2) := invoke (EvClientClose cl) t1 in
          let err0 := match err0 with None => err1 | Some _ => err0 end in
          Return err0 (setSession None None c) t2
      end
  end.

(** [Wait] (lines 210-217). *)
Definition Wait (c : goCryptoCommand) (t : list Event) : Result (option error) :=
  match sess c with
  | None => Return (Some (errors_Errorf "command has not been started")) c t
  | Some s =>
      let '(err, t1) := invoke (EvWait (handle s)) t in
      match Close c t1 with
      | Return _ c2 t2 => Return err c2 t2
      | Panic t2 => Panic t2
      end
  end.

(** [Kill] (lines 219-224). *)
Definition Kill (c : goCryptoCommand) (t : list Event)
  : option error * goCryptoCommand * list Event :=
  match sess c with
  | None => (Some (errors_Errorf "command has not been started"), c, t)
  | Some s =>
      let '(err, t1) := invoke (EvSignalKill (handle s)) t in (err, c, t1)
  end.

(** [SetStdio] (lines 226-230). *)
Definition SetStdio (stdin : option Reader) (stdout stderr : option Writer)
  (c : goCryptoCommand) : goCryptoCommand :=
  {| signers := signers c; user := user c; addr := addr c; command := command c;
     proxyCommand := proxyCommand c; knownHostsFile := knownHostsFile c;
     strictHostKeyChecking := strictHostKeyChecking c;
     hostKeyAlgorithms := hostKeyAlgorithms c;
     stdin := stdin; stdout := stdout; stderr := stderr;
     client := client c; sess := sess c |}.

(** The pipe that the library hands out, [nil] with an error. *)
Definition pipeOf (err : option error) (t : list Event) : option nat :=
  match err with Some _ => None | None => Some (length t) end.

(** [StdinPipe] (lines 232-239). *)
Definition StdinPipe (c : goCryptoCommand) (t : list Event)
  : (option nat * option SessionStdin * option error)
    * goCryptoCommand * list Event :=
  let '(res, c1, t1) := ensureSession c t in
  match res with
  | inr e => ((None, None, Some e), c1, t1)
  | inl s =>
      let '(err, t2) := invoke (EvPipe (handle s) pipeStdin) t1 in
      ((pipeOf err t2, Some (Stdin s), err), c1, t2)
  end.

(** [StdoutPipe] (lines 241-248) and [StderrPipe] (lines 250-257);
    [ioutil.NopCloser] only wraps the pipe. *)
Definition StdoutPipe (c : goCryptoCommand) (t : list Event)
  : (option nat * option Writer * option error) * goCryptoCommand * list Event :=
  let '(res, c1, t1) := ensureSession c t in
  match res with
  | inr e => ((None, None, Some e), c1, t1)
  | inl s =>
      let '(err, t2) := invoke (EvPipe (handle s) pipeStdout) t1 in
      ((pipeOf err t2, Stdout s, err), c1, t2)
  end.

Definition StderrPipe (c : goCryptoCommand) (t : list Event)
  : (option nat * option Writer * option error) * goCryptoCommand * list Event :=
  let '(res, c1, t1) := ensureSession c t in
  match res with
  | inr e => ((None, None, Some e), c1, t1)
  | inl s =>
      let '(err, t2) := invoke (EvPipe (handle s) pipeStderr) t1 in
      ((pipeOf err t2, Stderr s, err), c1, t2)
  end.

(** One method call on the command, its results dropped; [None] is a
    panic. *)
Definition call (op : Call) (c : goCryptoCommand) (t : list Event)
  : option (goCryptoCommand * list Event) :=
  match op with
  | CallStart => let '(_, c1, t1) := Start c t in Some (c1, t1)
  | CallClose =>
      match Close c t with Return _ c1 t1 => Some (c1, t1) | Panic _ => None end
  | CallWait =>
      match Wait c t with Return _ c1 t1 => Some (c1, t1) | Panic _ => None end
  | CallKill => let '(_, c1, t1) := Kill c t in Some (c1, t1)
  | CallSetStdio i o e => Some (SetStdio i o e c, t)
  | CallStdinPipe => let '(_, c1, t1) := StdinPipe c t in Some (c1, t1)
  | CallStdoutPipe => let '(_, c1, t1) := StdoutPipe c t in Some (c1, t1)
  | CallStderrPipe => let '(_, c1, t1) := StderrPipe c t in Some (c1, t1)
  end.

Fixpoint calls (ops : list Call) (c : goCryptoCommand) (t : list Event)
  : option (goCryptoCommand * list Event) :=
  match ops with
  | [] => Some (c, t)
  | op :: rest =>
      match call op c t with
      | Some (c1, t1) => calls rest c1 t1
      | None => None
      end
  end.

(** The clients that have been made and on which [Close] has not been
    called, after a history; [before] is the history backwards. *)
Definition clientStep (made : bool) (number : nat) (e : Event) (open : list nat)
  : list nat :=
  match e with
  | EvDial _ _ | EvNewClientConn _ _ => if made then (open ++ [number])%list else open
  | EvClientClose cl => List.filter (fun i => negb (i =? cl)%nat) open
  | _ => open
  end.

Fixpoint openClientsRev (before : list Event) : list nat :=
  match before with
  | [] => []
  | e :: before' =>
      let t := rev before in
      clientStep (negb (isSome (outcome lib t))) (length t) e
        (openClientsRev before')
  end.

Definition openClients (t : list Event) : list nat := openClientsRev (rev t).

(** The same for the sessions. *)
Definition sessionStep (made : bool) (number : nat) (e : Event) (open : list nat)
  : list nat :=
  match e with
  | EvNewSession _ => if made then (open ++ [number])%list else open
  | EvSessionClose s => List.filter (fun i => negb (i =? s)%nat) open
  | _ => open
  end.

Fixpoint openSessionsRev (before : list Event) : list nat :=
  match before with
  | [] => []
  | e :: before' =>
      let t := rev before in
      sessionStep (negb (isSome (outcome lib t))) (length t) e
        (openSessionsRev before')
  end.

Definition openSessions (t : list Event) : list nat := openSessionsRev (rev t).

End Methods.

(** What the command holds. *)
Definition heldClients (c : goCryptoCommand) : list nat :=
  match client c with Some cl => [cl] | None => [] end.

Definition heldSessions (c : goCryptoCommand) : list nat :=
  match sess c with Some s => [handle s] | None => [] end.

(** The events that reach out of the process to another host or start
    another process. *)
Definition isContact (e : Event) : bool :=
  match e with
  | EvDial _ _ | EvExec _ | EvNewClientConn _ _ => true
  | _ => false
  end.

End Session.

(** A command and a history are tidy when the clients and the sessions
    that are open are the ones the command holds, and it holds a client
    exactly when it holds a session. *)
Definition tidy (lib : Session.Library) (c : Session.goCryptoCommand)
  (t : list Session.Event) : Prop :=
  Session.openClients lib t = Session.heldClients c
  /\ Session.openSessions lib t = Session.heldSessions c
  /\ (Session.client c = None <-> Session.sess c = None).

(** ** Data of the further examples *)

(** A library whose calls fail as [fail] says; the current user is
    ubuntu, addresses are joined with a colon and not split, and no private
    key is found. *)
Definition sampleLibrary (fail : list Session.Event -> option Session.error)
  : Session.Library :=
  {| Session.outcome := fail;
     Session.Username := fun _ => "ubuntu";
     Session.net_SplitHostPort := fun _ => None;
     Session.net_JoinHostPort := fun host port => host ++ ":" ++ port;
     Session.utils_CommandString := String.concat " ";
     Session.privateKeys := [] |}.

Definition neverFails (t : list Session.Event) : option Session.error := None.

Definition alwaysFails (t : list Session.Event) : option Session.error :=
  Some (Session.failure 1).

(** A command for ubuntu at example.com with one key, and the command
    and the history after [Start]. *)
Definition sampleCommand (lib : Session.Library) (target : string)
  : Session.goCryptoCommand :=
  Session.Command lib {| Session.Client.signers := [7] |} target ["ls"] None.

Definition sampleStarted : Session.goCryptoCommand * list Session.Event :=
  let '(_, c, t) :=
    Session.Start (sampleLibrary neverFails)
      (sampleCommand (sampleLibrary neverFails) "ubuntu@example.com") [] in
  (c, t).

(** A world in which the named mutex is held by another process, and one
    in which the directory of the store cannot be written. *)
Definition worldLocked : World :=
  mkWorld false EmptyString NotATerminal true [] storeOther HeldElsewhere true [].

Definition worldReadOnly : World :=
  mkWorld false EmptyString NotATerminal true [] storeOther Free false [].

(** A terminal that takes raw mode and refuses every write. *)
Definition worldMuted : World :=
  mkWorld false EmptyString (Terminal true) false ["yes"] storeFoo Free true [].

(** * Properties *)

(** ** Sanity checks of the library models *)

Example encode_foobar :
  base64.EncodeToString [x66; x6f; x6f; x62; x61] = "Zm9vYmE=".
Proof. reflexivity. Qed.

Example decode_foobar :
  base64.DecodeString "Zm9vYmE=" = Some [x66; x6f; x6f; x62; x61].
Proof. reflexivity. Qed.

Example decode_rejects : base64.DecodeString "Zm9" = None.
Proof. reflexivity. Qed.

(** No character of the alphabet, nor the padding, is a line feed. *)
Lemma encChar_not_nl (n : N) : base64.encChar n <> "010"%char.
Proof.
  unfold base64.encChar.
  destruct (String.get (N.to_nat n) base64.alphabet) as [c|] eqn:E; [| discriminate].
  intros ->. revert E. generalize (N.to_nat n). intros k.
  do 65 (destruct k as [|k]; [discriminate |]). discriminate.
Qed.

Example Itoa_example : Itoa 0 = "0" /\ Itoa 7 = "7" /\ Itoa 120 = "120".
Proof. repeat split. Qed.

Example ToLower_example : ToLower "YeS" = "yes" /\ ToLower "No!" = "no!".
Proof. split; reflexivity. Qed.

Example Line_example :
  knownhosts.Line ["example.com"] {| pk_Type := "ssh-rsa"; pk_Marshal := [x66; x6f; x6f] |}
  = "example.com ssh-rsa Zm9v".
Proof. reflexivity. Qed.

Example load_example :
  knownhosts.load "kh"
    ("# trusted" ++ nl ++ nl ++ "garbage" ++ nl
     ++ "example.com ssh-rsa Zm9v" ++ nl)
  = [ {| knownhosts.hostname := "example.com";
         knownhosts.keyType := "ssh-rsa";
         knownhosts.keyBytes := [x66; x6f; x6f];
         knownhosts.sourceFile := "kh";
         knownhosts.sourceLine := 4 |} ].
Proof. reflexivity. Qed.

(** ** The accessors of the default path *)

(** C10: setting the process-wide default known_hosts path and then
    getting it returns exactly the value set; the getter changes nothing,
    so it returns the most recently set value, and both accessors leave the
    mutex free. *)
Theorem set_then_get_roundtrip (f : string) (w : World) :
  let w1 := snd (SetGoCryptoKnownHostsFile f w) in
  fst (GoCryptoKnownHostsFile w1) = f
  /\ goCryptoKnownHostsFile (snd (GoCryptoKnownHostsFile w1)) = f
  /\ goCryptoKnownHostsMutex w1 = false
  /\ goCryptoKnownHostsMutex (snd (GoCryptoKnownHostsFile w1)) = false
  /\ forall g, fst (GoCryptoKnownHostsFile (snd (SetGoCryptoKnownHostsFile f
                      (snd (SetGoCryptoKnownHostsFile g w))))) = f.
Proof. repeat split. Qed.

(** ** The verifier *)

Section VerifierProperties.

Variable FingerprintSHA256 : PublicKey -> string.

(** *** Classification and the result of [checkHostKey] *)

Lemma classify_matched_of_record records h key r :
  In r records ->
  knownhosts.hostname r = h ->
  knownhosts.keyType r = pk_Type key ->
  knownhosts.keyBytes r = pk_Marshal key ->
  knownhosts.classify records h key = knownhosts.Matched.
Proof.
  intros Hin Hh Ht Hk. unfold knownhosts.classify.
  assert (E : existsb (knownhosts.exact h key) records = true).
  { apply existsb_exists. exists r. split; [exact Hin |].
    unfold knownhosts.exact, knownhosts.sameHost.
    rewrite Hh, Ht, Hk, !String.eqb_refl, bool_decide_eq_true_2 by reflexivity.
    reflexivity. }
  now rewrite E.
Qed.

Lemma classify_changed_wanted records h key :
  knownhosts.classify records h key = knownhosts.Changed ->
  filter (fun r => knownhosts.sameHost h r = true) records <> [].
Proof.
  unfold knownhosts.classify.
  destruct (existsb (knownhosts.exact h key) records); [discriminate |].
  destruct (existsb (knownhosts.sameHost h) records) eqn:E; [| discriminate].
  intros _ Hnil. apply existsb_exists in E as (r & Hin & Hr).
  assert (Hr' : r ∈ filter (fun r => knownhosts.sameHost h r = true) records).
  { apply list_elem_of_filter. split; [exact Hr | now apply list_elem_of_In]. }
  rewrite Hnil in Hr'. inversion Hr'.
Qed.

Lemma checkHostKey_matched h r key path pe w :
  storeOutcome w path h key = Some knownhosts.Matched ->
  checkHostKey FingerprintSHA256 h r key path pe w = ((true, None), emit (EvLoadStore path) w).
Proof.
  unfold storeOutcome, checkHostKey, knownhosts_New, knownhosts.check.
  destruct (files w !! path) as [[data|]|]; try discriminate.
  intros [= ->]. reflexivity.
Qed.

Lemma checkHostKey_unknown h r key path pe w :
  storeOutcome w path h key = Some knownhosts.Unknown ->
  checkHostKey FingerprintSHA256 h r key path pe w = ((false, None), emit (EvLoadStore path) w).
Proof.
  unfold storeOutcome, checkHostKey, knownhosts_New, knownhosts.check.
  destruct (files w !! path) as [[data|]|]; try discriminate.
  - intros [= ->]. reflexivity.
  - reflexivity.
Qed.

Lemma checkHostKey_changed h r key path pe w :
  storeOutcome w path h key = Some knownhosts.Changed ->
  checkHostKey FingerprintSHA256 h r key path pe w =
    match pe (mismatchHead FingerprintSHA256 key path
              ++ mismatchTail key (wanted w path h))
             (emit (EvLoadStore path) w) with
    | (Some perr, w2) =>
        ((false, Some (errors_Annotate perr
                         "failed to print host key mismatch warning")), w2)
    | (None, w2) => ((false, Some (KeyError (wanted w path h))), w2)
    end.
Proof.
  unfold storeOutcome, checkHostKey, knownhosts_New, knownhosts.check,
    wanted, contents.
  destruct (files w !! path) as [[data|]|]; try discriminate.
  intros [= E]. rewrite E.
  pose proof (classify_changed_wanted _ _ _ E) as Hne.
  destruct (filter _ (knownhosts.load path data)) as [|x xs]; [congruence |].
  reflexivity.
Qed.

Lemma checkHostKey_unreadable h r key path pe w :
  storeOutcome w path h key = None ->
  checkHostKey FingerprintSHA256 h r key path pe w =
    ((false, Some (ErrPermission path)), emit (EvLoadStore path) w).
Proof.
  unfold storeOutcome, checkHostKey, knownhosts_New.
  destruct (files w !! path) as [[data|]|]; try discriminate.
  reflexivity.
Qed.

(** *** The body between [getTerminal] and the deferred cleanup *)

Lemma verify_matched c h r key path term w :
  storeOutcome w path h key = Some knownhosts.Matched ->
  verify FingerprintSHA256 c h r key path term w = (None, emit (EvLoadStore path) w).
Proof.
  intros H. unfold verify. now rewrite (checkHostKey_matched _ _ _ _ _ _ H).
Qed.

Lemma verify_unreadable c h r key path term w :
  storeOutcome w path h key = None ->
  verify FingerprintSHA256 c h r key path term w =
    (Some (ErrPermission path), emit (EvLoadStore path) w).
Proof.
  intros H. unfold verify. now rewrite (checkHostKey_unreadable _ _ _ _ _ _ H).
Qed.

Lemma verify_changed c h r key path term w :
  storeOutcome w path h key = Some knownhosts.Changed ->
  verify FingerprintSHA256 c h r key path term w =
    match printError term
            (mismatchHead FingerprintSHA256 key path
             ++ mismatchTail key (wanted w path h))
            (emit (EvLoadStore path) w) with
    | (Some perr, w2) =>
        (Some (errors_Annotate perr "failed to print host key mismatch warning"), w2)
    | (None, w2) => (Some (KeyError (wanted w path h)), w2)
    end.
Proof.
  intros H. unfold verify. rewrite (checkHostKey_changed _ _ _ _ _ _ H).
  now destruct (printError term _ _) as [[perr|] w2].
Qed.

Lemma verify_unknown c h r key path term w :
  storeOutcome w path h key = Some knownhosts.Unknown ->
  verify FingerprintSHA256 c h r key path term w =
    match strictnessSwitch FingerprintSHA256 c h r key term (emit (EvLoadStore path) w) with
    | (inl e, w2) => (Some e, w2)
    | (inr warnAdd, w2) => persist path h key warnAdd (printError term) w2
    end.
Proof.
  intros H. unfold verify. now rewrite (checkHostKey_unknown _ _ _ _ _ _ H).
Qed.

(** *** From the callback to its body *)

Lemma hostKeyCallback_unconfigured c h r key w :
  nonEmpty (resolvedPath c w) = false ->
  exists w',
    hostKeyCallback FingerprintSHA256 c h r key w
    = (Some (errors_New "known_hosts file not configured"), w')
    /\ sameEnv w' w /\ trace w' = trace w.
Proof.
  unfold resolvedPath, hostKeyCallback, GoCryptoKnownHostsFile.
  destruct (nonEmpty (knownHostsFile c)) eqn:E; cbn [negb fst snd].
  - intros H. congruence.
  - cbn. intros ->. cbn. eexists. split; [reflexivity |]. now split.
Qed.

Lemma hostKeyCallback_rawModeFails c h r key w :
  nonEmpty (resolvedPath c w) = true ->
  stdin w = Terminal false ->
  exists w',
    hostKeyCallback FingerprintSHA256 c h r key w = (Some ErrRawMode, w')
    /\ sameEnv w' w /\ trace w' = trace w.
Proof.
  unfold resolvedPath, hostKeyCallback, GoCryptoKnownHostsFile, getTerminal.
  destruct (nonEmpty (knownHostsFile c)) eqn:E; cbn [negb fst snd].
  - intros _ Hs. rewrite E. cbn. rewrite Hs. eexists. split; [reflexivity |]. now split.
  - cbn. intros -> Hs. cbn. rewrite Hs. eexists. split; [reflexivity |]. now split.
Qed.

Lemma hostKeyCallback_body c h r key w :
  nonEmpty (resolvedPath c w) = true ->
  stdin w <> Terminal false ->
  exists w1,
    sameEnv w1 w /\ trace w1 = (trace w ++ rawOpen w)%list
    /\ hostKeyCallback FingerprintSHA256 c h r key w
       = (fst (verify FingerprintSHA256 c h r key (resolvedPath c w) (termOf w) w1),
          closeRaw w (snd (verify FingerprintSHA256 c h r key (resolvedPath c w) (termOf w) w1))).
Proof.
  unfold resolvedPath, hostKeyCallback, GoCryptoKnownHostsFile, getTerminal,
    termOf, closeRaw, rawOpen.
  destruct (nonEmpty (knownHostsFile c)) eqn:E; cbn [negb fst snd].
  - intros _ Hs. rewrite E. cbn [negb].
    destruct (stdin w) as [|[|]] eqn:Hst; [| | congruence].
    + exists w. split; [done |]. split; [now rewrite app_nil_r |].
      now destruct (verify FingerprintSHA256 _ _ _ _ _ _ _).
    + exists (emit EvMakeRaw w). split; [done |]. split; [done |].
      now destruct (verify FingerprintSHA256 _ _ _ _ _ _ _).
  - cbn. intros Hp Hs. rewrite Hp. cbn [negb].
    destruct (stdin w) as [|[|]] eqn:Hst; [| | congruence].
    + exists (sync_Unlock (sync_Lock w)). split; [done |].
      split; [cbn; now rewrite app_nil_r |].
      now destruct (verify FingerprintSHA256 _ _ _ _ _ _ _).
    + exists (emit EvMakeRaw (sync_Unlock (sync_Lock w))). split; [done |].
      split; [done |].
      now destruct (verify FingerprintSHA256 _ _ _ _ _ _ _).
Qed.

Lemma storeOutcome_env w1 w path h key :
  sameEnv w1 w -> storeOutcome w1 path h key = storeOutcome w path h key.
Proof. intros (_ & _ & _ & _ & Hf & _). unfold storeOutcome. now rewrite Hf. Qed.

Lemma wanted_env w1 w path h :
  sameEnv w1 w -> wanted w1 path h = wanted w path h.
Proof. intros (_ & _ & _ & _ & Hf & _). unfold wanted, contents. now rewrite Hf. Qed.

Lemma sameEnv_emit e w1 w : sameEnv w1 w -> sameEnv (emit e w1) w.
Proof. intros H. exact H. Qed.

Lemma sameEnv_closeRaw w0 w1 w : sameEnv w1 w -> sameEnv (closeRaw w0 w1) w.
Proof. intros H. unfold closeRaw. now destruct (stdin w0). Qed.

Lemma trace_closeRaw w0 w1 :
  trace (closeRaw w0 w1) = (trace w1 ++ rawClose w0)%list.
Proof.
  unfold closeRaw, rawClose. destruct (stdin w0); cbn; [now rewrite app_nil_r | done].
Qed.

(** *** Claims about rejection and acceptance without a prompt *)

(** C9: when neither the per-connection known_hosts file nor the
    process-wide default is configured, every verification is rejected with
    the configuration error, and nothing has happened before: the trace is
    unchanged, so no terminal was opened and no store was loaded or
    classified.  This holds whatever standard input is, in particular when
    no terminal is available. *)
Theorem unconfigured_rejects_before_classification c h r key w :
  knownHostsFile c = "" ->
  goCryptoKnownHostsFile w = "" ->
  exists w',
    hostKeyCallback FingerprintSHA256 c h r key w
    = (Some (errors_New "known_hosts file not configured"), w')
    /\ sameEnv w' w /\ trace w' = trace w.
Proof.
  intros Hc Hg. apply hostKeyCallback_unconfigured.
  unfold resolvedPath. now rewrite Hc, Hg.
Qed.

(** C8: when the store at the configured path holds a record with the
    offered hostname, key type and key bytes, the verification returns nil
    at once under every strictness policy, with or without a terminal: the
    file system, the pending terminal input and the named mutex are as
    before, and the only effects are the load of the store and, with a
    terminal, entering and leaving raw mode. *)
Theorem matched_accepts_without_mutation c h r key w data rec :
  nonEmpty (resolvedPath c w) = true ->
  stdin w <> Terminal false ->
  files w !! resolvedPath c w = Some (Regular data) ->
  In rec (knownhosts.load (resolvedPath c w) data) ->
  knownhosts.hostname rec = h ->
  knownhosts.keyType rec = pk_Type key ->
  knownhosts.keyBytes rec = pk_Marshal key ->
  exists w',
    hostKeyCallback FingerprintSHA256 c h r key w = (None, w')
    /\ files w' = files w
    /\ sameEnv w' w
    /\ trace w' =
       (trace w ++ rawOpen w ++ [EvLoadStore (resolvedPath c w)] ++ rawClose w)%list.
Proof.
  intros Hp Hs Hf Hin Hh Ht Hk.
  destruct (hostKeyCallback_body c h r key w Hp Hs) as (w1 & Henv & Htr & ->).
  assert (Hm : storeOutcome w1 (resolvedPath c w) h key = Some knownhosts.Matched).
  { rewrite (storeOutcome_env _ _ _ _ _ Henv). unfold storeOutcome. rewrite Hf.
    f_equal. eapply classify_matched_of_record; eauto. }
  rewrite (verify_matched c h r key _ (termOf w) w1 Hm). cbn [fst snd].
  eexists. split; [reflexivity |].
  assert (He : sameEnv (closeRaw w (emit (EvLoadStore (resolvedPath c w)) w1)) w)
    by now apply sameEnv_closeRaw, sameEnv_emit.
  split; [apply He |]. split; [exact He |].
  rewrite trace_closeRaw. cbn [trace emit]. rewrite Htr.
  now rewrite <- !app_assoc.
Qed.

(** C6: under the Default or the Ask policy, without an interactive
    terminal, a verification whose key is not Matched is rejected with an
    error; the call only loads the store and logs, so it reads no input,
    takes no lock, and leaves the file system as it was. *)
Theorem no_terminal_rejects_unmatched c h r key w :
  strictHostKeyChecking c = StrictHostChecksDefault
  \/ strictHostKeyChecking c = StrictHostChecksAsk ->
  stdin w = NotATerminal ->
  storeOutcome w (resolvedPath c w) h key <> Some knownhosts.Matched ->
  exists err w' evs,
    hostKeyCallback FingerprintSHA256 c h r key w = (Some err, w')
    /\ files w' = files w
    /\ sameEnv w' w
    /\ trace w' = (trace w ++ evs)%list
    /\ forallb isPassive evs = true.
Proof.
  intros Hpol Hs Hnm.
  destruct (nonEmpty (resolvedPath c w)) eqn:Hp.
  2:{ destruct (hostKeyCallback_unconfigured c h r key w Hp) as (w' & -> & He & Ht).
      exists (errors_New "known_hosts file not configured"), w', [].
      repeat split; try apply He. now rewrite app_nil_r. }
  assert (Hs' : stdin w <> Terminal false) by (rewrite Hs; discriminate).
  destruct (hostKeyCallback_body c h r key w Hp Hs') as (w1 & Henv & Htr & ->).
  unfold termOf, closeRaw, rawOpen in *. rewrite Hs in *. rewrite app_nil_r in Htr.
  rewrite <- (storeOutcome_env _ _ _ _ _ Henv) in Hnm.
  destruct (storeOutcome w1 (resolvedPath c w) h key) as [[| |]|] eqn:Ho.
  - congruence.
  - rewrite (verify_unknown c h r key _ None w1 Ho).
    unfold strictnessSwitch.
    destruct Hpol as [-> | ->]; cbn [fst snd];
      (eexists _, _, [EvLoadStore _; EvLog _];
       split; [reflexivity |]; split; [apply Henv |]; split; [exact Henv |];
       split; [cbn; rewrite Htr; now rewrite <- app_assoc | reflexivity]).
  - rewrite (verify_changed c h r key _ None w1 Ho). cbn [printError fst snd].
    eexists _, _, [EvLoadStore _; EvLog _].
    split; [reflexivity |]. split; [apply Henv |]. split; [exact Henv |].
    split; [cbn; rewrite Htr; now rewrite <- app_assoc | reflexivity].
  - rewrite (verify_unreadable c h r key _ None w1 Ho). cbn [fst snd].
    eexists _, _, [EvLoadStore _].
    split; [reflexivity |]. split; [apply Henv |]. split; [exact Henv |].
    split; [cbn; now rewrite Htr | reflexivity].
Qed.

(** *** The switch on the policy, the prompt loop and the append *)

Lemma sameEnv_sameStore w1 w : sameEnv w1 w -> sameStore w1 w.
Proof. unfold sameEnv, sameStore. tauto. Qed.

Lemma sameStore_refl w : sameStore w w.
Proof. now unfold sameStore. Qed.

Lemma sameStore_trans w2 w1 w : sameStore w2 w1 -> sameStore w1 w -> sameStore w2 w.
Proof. unfold sameStore. intuition congruence. Qed.

Lemma strictnessSwitch_no c h r key term w :
  strictHostKeyChecking c = StrictHostChecksNo ->
  strictnessSwitch FingerprintSHA256 c h r key term w = (inr true, w).
Proof. intros H. unfold strictnessSwitch. now rewrite H. Qed.

Lemma strictnessSwitch_yes c h r key term w :
  strictHostKeyChecking c = StrictHostChecksYes ->
  strictnessSwitch FingerprintSHA256 c h r key term w = (inl (strictError h key), w).
Proof. intros H. unfold strictnessSwitch. now rewrite H. Qed.

Lemma strictnessSwitch_ask c h r key t w :
  strictHostKeyChecking c = StrictHostChecksDefault
  \/ strictHostKeyChecking c = StrictHostChecksAsk ->
  exists w1,
    sameEnv w1 w
    /\ trace w1 = (trace w ++ askEvents FingerprintSHA256 (termWritable w) h r key)%list
    /\ strictnessSwitch FingerprintSHA256 c h r key (Some t) w =
       match promptLoop t (termInput w) w1 with
       | (Some err, w2) => (inl err, w2)
       | (None, w2) => (inr false, w2)
       end.
Proof.
  intros Hpol. unfold strictnessSwitch, Fprint, askEvents, question.
  destruct (termWritable w) eqn:Hw.
  - eexists (emit _ w). split; [done |]. split; [reflexivity |].
    destruct Hpol as [-> | ->]; reflexivity.
  - exists w. split; [done |]. split; [cbn; now rewrite app_nil_r |].
    destruct Hpol as [-> | ->]; reflexivity.
Qed.

(** The loop skips every line that is neither yes nor no, asking again
    each time. *)
Lemma promptLoop_others t pre rest w :
  forallb otherAnswer pre = true ->
  termInput w = (pre ++ rest)%list ->
  exists w1,
    sameStore w1 w
    /\ termInput w1 = rest
    /\ trace w1 = (trace w ++ reprompts (termWritable w) pre)%list
    /\ promptLoop t (pre ++ rest) w = promptLoop t rest w1.
Proof.
  revert w. induction pre as [|line pre IH]; intros w Hall Hin.
  - exists w. split; [apply sameStore_refl |]. split; [exact Hin |].
    split; [cbn; now rewrite app_nil_r | done].
  - cbn [forallb] in Hall. apply andb_prop in Hall as [Hline Hall].
    unfold otherAnswer in Hline. apply andb_prop in Hline as [Hy Hn].
    apply negb_true_iff in Hy, Hn.
    cbn [app promptLoop]. rewrite Hy, Hn. unfold Fprint. cbn [termWritable emit setTermInput].
    destruct (termWritable w) eqn:Hw; cbn [snd].
    + destruct (IH (emit (EvTermWrite "Please type 'yes' or 'no': ")
                      (emit (EvReadLine line) (setTermInput (pre ++ rest)%list w)))
                  Hall eq_refl)
        as (w1 & Hs & Hti & Ht & ->).
      exists w1. split; [| split; [exact Hti | split; [| reflexivity]]].
      * eapply sameStore_trans; [exact Hs | done].
      * rewrite Ht. cbn. rewrite Hw. now rewrite <- !app_assoc.
    + destruct (IH (emit (EvReadLine line) (setTermInput (pre ++ rest)%list w))
                  Hall eq_refl)
        as (w1 & Hs & Hti & Ht & ->).
      exists w1. split; [| split; [exact Hti | split; [| reflexivity]]].
      * eapply sameStore_trans; [exact Hs | done].
      * rewrite Ht. cbn. rewrite Hw. now rewrite <- !app_assoc.
Qed.

(** One turn of the loop, as the source has it: read a line, then stop
    with the read error, break on yes, fail on no, or ask again. *)
Lemma promptLoop_iteration t w :
  promptLoop t (termInput w) w =
    match ReadLine t w with
    | ((line, Some err), w1) => (errors_Trace (Some err), w1)
    | ((line, None), w1) =>
        if String.eqb (ToLower line) "yes" then (None, w1)
        else if String.eqb (ToLower line) "no" then
          (Some (errors_New "Host key verification failed."), w1)
        else
          promptLoop t (termInput w1)
            (snd (Fprint t "Please type 'yes' or 'no': " w1))
    end.
Proof.
  unfold ReadLine. destruct (termInput w) as [|line rest]; reflexivity.
Qed.

Lemma promptLoop_eof t w :
  promptLoop t [] w = (Some io_EOF, w).
Proof. reflexivity. Qed.

Lemma promptLoop_yes t line rest w :
  String.eqb (ToLower line) "yes" = true ->
  promptLoop t (line :: rest) w
  = (None, emit (EvReadLine line) (setTermInput rest w)).
Proof. intros H. cbn [promptLoop]. now rewrite H. Qed.

Lemma promptLoop_no t line rest w :
  String.eqb (ToLower line) "no" = true ->
  promptLoop t (line :: rest) w
  = (Some (errors_New "Host key verification failed."),
     emit (EvReadLine line) (setTermInput rest w)).
Proof.
  intros H. cbn [promptLoop].
  destruct (String.eqb (ToLower line) "yes") eqn:Hy.
  - apply String.eqb_eq in Hy, H. congruence.
  - now rewrite H.
Qed.

(** The append, when the lock can be taken and the write succeeds. *)
Lemma persist_appends path h key warnAdd term w :
  String.eqb path os_DevNull = false ->
  mutex w = Free ->
  dirWritable w = true ->
  files w !! path <> Some Unreadable ->
  let new := appendRecord (contents w path) (knownhosts.Line [h] key) in
  exists w',
    persist path h key warnAdd (printError term) w = (None, w')
    /\ files w' = <[path := Regular new]> (files w)
    /\ termInput w' = termInput w
    /\ mutex w' = Free
    /\ trace w' =
       (trace w ++ appendEvents path new
        ++ warnEvents warnAdd term (termWritable w) h key
        ++ [EvRelease "juju-ssh-client"])%list.
Proof.
  intros Hp Hm Hd Hf new. subst new.
  unfold persist, mutex_Acquire, ioutil_ReadFile, utils_AtomicWriteFile,
    warnAndReturn, contents, appendEvents, warnEvents.
  rewrite Hp, Hm. cbn [negb files emit setMutex].
  destruct (files w !! path) as [[data|]|] eqn:E; [| congruence |];
    cbn [os_IsNotExist negb errors_Trace dirWritable emit setMutex];
    rewrite Hd;
    (destruct warnAdd;
     [ destruct term as [t|]; unfold printError, Fprint;
       cbn [termWritable emit setFiles setMutex];
       [ destruct (termWritable w) | ]
     | ]);
    cbn [snd];
    (eexists; split; [reflexivity |]; cbn; repeat split;
     now rewrite <- ?app_assoc).
Qed.

(** *** Strings and the appended bytes *)

Lemma append_cons ch (s t : string) : String ch s ++ t = String ch (s ++ t).
Proof. reflexivity. Qed.

Lemma append_assoc (s t u : string) : (s ++ t) ++ u = s ++ t ++ u.
Proof.
  induction s as [|ch s IH]; [reflexivity |].
  now rewrite !append_cons, IH.
Qed.

Lemma append_empty_r (s : string) : s ++ "" = s.
Proof.
  induction s as [|ch s IH]; [reflexivity |]. now rewrite append_cons, IH.
Qed.

Lemma lastByte_append (s t : string) :
  nonEmpty t = true -> lastByte (s ++ t) = lastByte t.
Proof.
  intros Ht. induction s as [|ch s IH]; [reflexivity |].
  rewrite append_cons. cbn [lastByte]. rewrite IH.
  destruct (s ++ t) eqn:E; [| reflexivity].
  destruct s; [| discriminate]. destruct t; [discriminate Ht | discriminate E].
Qed.

Lemma nonEmpty_append_r (s t : string) : nonEmpty t = true -> nonEmpty (s ++ t) = true.
Proof. intros Ht. destruct s; [exact Ht | reflexivity]. Qed.

Lemma appendRecord_empty line : appendRecord "" line = line ++ nl.
Proof. reflexivity. Qed.

Lemma appendRecord_unterminated pre ch line :
  ch <> "010"%char ->
  appendRecord (pre ++ String ch "") line
  = (pre ++ String ch "") ++ nl ++ line ++ nl.
Proof.
  intros Hch. unfold appendRecord, HasSuffixNl.
  rewrite nonEmpty_append_r, lastByte_append by reflexivity. cbn [lastByte].
  apply Ascii.eqb_neq in Hch. rewrite Hch. cbn [andb negb].
  now rewrite !append_assoc.
Qed.

Lemma appendRecord_terminated pre line :
  appendRecord (pre ++ nl) line = (pre ++ nl) ++ line ++ nl.
Proof.
  unfold appendRecord, HasSuffixNl.
  rewrite nonEmpty_append_r, lastByte_append by reflexivity.
  change (lastByte nl) with (Some "010"%char). cbv iota.
  rewrite Ascii.eqb_refl. cbn [andb negb].
  now rewrite !append_assoc.
Qed.

Lemma Line_single h key :
  knownhosts.Line [h] key
  = h ++ " " ++ pk_Type key ++ " " ++ base64.EncodeToString (pk_Marshal key).
Proof. reflexivity. Qed.

Ltac same_store := first [apply sameStore_refl | done | now unfold sameStore].

Ltac env_closed H :=
  first
    [ exact H
    | apply H
    | apply sameEnv_closeRaw; env_closed H
    | apply sameEnv_emit; env_closed H ].

(** *** Claims about the policies *)

(** C4 (as the code has it): under the Strict policy a verification whose
    key is not Matched is always rejected, with or without a terminal, and
    nothing is read, locked or written.  When the host is Unknown the error
    names the key type and the hostname and says that strict checking was
    requested; when the host is known under other keys (Changed) the error
    is the key-mismatch error of the store, returned by [checkHostKey]
    before the policy is looked at. *)
Theorem strict_rejects_unmatched c h r key w :
  strictHostKeyChecking c = StrictHostChecksYes ->
  storeOutcome w (resolvedPath c w) h key <> Some knownhosts.Matched ->
  exists err w',
    hostKeyCallback FingerprintSHA256 c h r key w = (Some err, w')
    /\ files w' = files w
    /\ sameEnv w' w
    /\ (nonEmpty (resolvedPath c w) = true ->
        stdin w <> Terminal false ->
        storeOutcome w (resolvedPath c w) h key = Some knownhosts.Unknown ->
        err = strictError h key)
    /\ (nonEmpty (resolvedPath c w) = true ->
        stdin w = NotATerminal \/ (stdin w = Terminal true /\ termWritable w = true) ->
        storeOutcome w (resolvedPath c w) h key = Some knownhosts.Changed ->
        err = KeyError (wanted w (resolvedPath c w) h)).
Proof.
  intros Hpol Hnm.
  destruct (nonEmpty (resolvedPath c w)) eqn:Hp.
  2:{ destruct (hostKeyCallback_unconfigured c h r key w Hp) as (w' & -> & He & Ht).
      eexists _, w'. split; [reflexivity |]. split; [apply He |]. split; [exact He |].
      split; discriminate. }
  destruct (Stdin_eq_dec (stdin w) (Terminal false)) as [Hs | Hs].
  { destruct (hostKeyCallback_rawModeFails c h r key w Hp Hs) as (w' & -> & He & Ht).
    eexists _, w'. split; [reflexivity |]. split; [apply He |]. split; [exact He |].
    split; [congruence |]. intros _ [Hn | [Hn _]]; congruence. }
  destruct (hostKeyCallback_body c h r key w Hp Hs) as (w1 & Henv & Htr & ->).
  rewrite <- (storeOutcome_env _ _ _ _ _ Henv) in *.
  assert (Hclose : forall e, sameEnv (closeRaw w (emit e w1)) w)
    by (intros e; now apply sameEnv_closeRaw, sameEnv_emit).
  destruct (storeOutcome w1 (resolvedPath c w) h key) as [[| |]|] eqn:Ho.
  - congruence.
  - rewrite (verify_unknown c h r key _ _ w1 Ho).
    rewrite (strictnessSwitch_yes c h r key _ _ Hpol). cbn [fst snd].
    eexists _, _. split; [reflexivity |]. split; [apply Hclose |].
    split; [apply Hclose |]. split; [reflexivity | discriminate].
  - rewrite (verify_changed c h r key _ _ w1 Ho).
    rewrite (wanted_env _ _ _ _ Henv).
    unfold printError, Fprint, termOf.
    pose proof Henv as (_ & _ & Hw & _). cbn [termWritable emit].
    destruct (stdin w) as [|b] eqn:Hsw.
    + cbn [fst snd]. eexists _, _. split; [reflexivity |].
      split; [| split; [| split; [discriminate | reflexivity]]];
        rewrite <- Hsw in *; env_closed Henv.
    + cbn [termWritable emit]. rewrite Hw.
      destruct (termWritable w) eqn:Hww; cbn [fst snd].
      * eexists _, _. split; [reflexivity |].
        split; [| split; [| split; [discriminate | reflexivity]]];
          rewrite <- Hsw in *; env_closed Henv.
      * eexists _, _. split; [reflexivity |].
        split; [| split; [| split; [discriminate |]]];
          [rewrite <- Hsw in *; env_closed Henv ..|].
        intros _ [Hn | [_ Hn]]; congruence.
  - rewrite (verify_unreadable c h r key _ _ w1 Ho). cbn [fst snd].
    eexists _, _. split; [reflexivity |]. split; [apply Hclose |].
    split; [apply Hclose |]. split; discriminate.
Qed.

(** C5 (as the code has it): under the Disabled policy, when the store at
    the configured path has no record for the hostname (Unknown; a missing
    file counts as an empty store), the path is not the discard sink, the
    lock can be taken and the write succeeds, the verification accepts
    without reading any input, the file becomes its former bytes followed by
    exactly the line [hostname type base64(key)] and a line feed, with a
    line feed put first when the former bytes were not empty and did not end
    in one, and the "permanently added" warning goes to the terminal if
    there is one, to the log otherwise; a terminal that cannot be written
    does not stop the acceptance. *)
Theorem disabled_accepts_unknown_and_appends c h r key w :
  strictHostKeyChecking c = StrictHostChecksNo ->
  nonEmpty (resolvedPath c w) = true ->
  String.eqb (resolvedPath c w) os_DevNull = false ->
  stdin w <> Terminal false ->
  storeOutcome w (resolvedPath c w) h key = Some knownhosts.Unknown ->
  mutex w = Free ->
  dirWritable w = true ->
  let path := resolvedPath c w in
  let old := contents w path in
  let line := h ++ " " ++ pk_Type key ++ " "
              ++ base64.EncodeToString (pk_Marshal key) in
  exists w' new,
    hostKeyCallback FingerprintSHA256 c h r key w = (None, w')
    /\ new = appendRecord old line
    /\ files w' = <[path := Regular new]> (files w)
    /\ termInput w' = termInput w
    /\ mutex w' = Free
    /\ trace w' =
       (trace w ++ rawOpen w ++ [EvLoadStore path] ++ appendEvents path new
        ++ warnEvents true (termOf w) (termWritable w) h key
        ++ [EvRelease "juju-ssh-client"] ++ rawClose w)%list
    /\ (old = "" -> new = line ++ nl)
    /\ (forall pre ch, old = pre ++ String ch "" -> ch <> "010"%char ->
        new = old ++ nl ++ line ++ nl)
    /\ (forall pre, old = pre ++ nl -> new = old ++ line ++ nl).
Proof.
  intros Hpol Hp Hdev Hs Ho Hm Hd path old line.
  destruct (hostKeyCallback_body c h r key w Hp Hs) as (w1 & Henv & Htr & ->).
  fold path in Ho, Hdev |- *.
  rewrite <- (storeOutcome_env _ _ _ _ _ Henv) in Ho.
  rewrite (verify_unknown c h r key _ _ w1 Ho).
  rewrite (strictnessSwitch_no c h r key _ _ Hpol).
  pose proof Henv as (_ & _ & Hw & Hti & Hf & Hmu & Hdw).
  assert (Hread : files (emit (EvLoadStore path) w1) !! path <> Some Unreadable).
  { cbn [files emit]. unfold storeOutcome in Ho.
    destruct (files w1 !! path) as [[d|]|]; congruence. }
  destruct (persist_appends path h key true (termOf w)
              (emit (EvLoadStore path) w1) Hdev
              ltac:(cbn; congruence) ltac:(cbn; congruence) Hread)
    as (w2 & -> & Hf2 & Hti2 & Hm2 & Htr2).
  cbn [fst snd]. exists (closeRaw w w2), (appendRecord old line).
  assert (Hold : contents (emit (EvLoadStore path) w1) path = old).
  { unfold old, contents. cbn [files emit]. now rewrite Hf. }
  rewrite Hold, Line_single in *. fold line in Hf2, Htr2.
  split; [reflexivity |]. split; [reflexivity |].
  split; [unfold closeRaw; destruct (stdin w); cbn [files emit cleanupTerm];
          rewrite Hf2; cbn [files emit]; now rewrite Hf |].
  split; [unfold closeRaw; destruct (stdin w); cbn [termInput emit cleanupTerm];
          rewrite Hti2; cbn [termInput emit]; exact Hti |].
  split; [unfold closeRaw; destruct (stdin w); cbn [mutex emit cleanupTerm];
          exact Hm2 |].
  split.
  { rewrite trace_closeRaw, Htr2. cbn [trace emit termWritable].
    rewrite Htr, Hw. now rewrite <- !app_assoc. }
  split; [intros ->; apply appendRecord_empty |].
  split.
  - intros pre ch -> Hch. now apply appendRecord_unterminated.
  - intros pre ->. apply appendRecord_terminated.
Qed.

(** C1 (as the code has it): when the offered key is Changed, that is the
    store has records for the hostname and none with the offered type and
    bytes, a verification with a writable terminal prints the warning block
    ending in the offending record, or the list of known key types, and then
    returns the key-mismatch error of the store.  It does not ask: no line
    is read from the terminal, nothing is locked or written, and the policy
    plays no part. *)
Theorem changed_key_warns_and_rejects c h r key w :
  nonEmpty (resolvedPath c w) = true ->
  stdin w = Terminal true ->
  termWritable w = true ->
  storeOutcome w (resolvedPath c w) h key = Some knownhosts.Changed ->
  let path := resolvedPath c w in
  exists w',
    hostKeyCallback FingerprintSHA256 c h r key w
    = (Some (KeyError (wanted w path h)), w')
    /\ wanted w path h <> []
    /\ files w' = files w
    /\ sameEnv w' w
    /\ trace w' =
       (trace w ++
        [EvMakeRaw; EvLoadStore path;
         EvTermWrite ((mismatchHead FingerprintSHA256 key path
                       ++ mismatchTail key (wanted w path h)) ++ nl);
         EvRestore])%list.
Proof.
  intros Hp Hs Hw Ho path.
  assert (Hs' : stdin w <> Terminal false) by (rewrite Hs; discriminate).
  destruct (hostKeyCallback_body c h r key w Hp Hs') as (w1 & Henv & Htr & ->).
  fold path in Ho |- *.
  assert (Hwant : wanted w path h <> []).
  { unfold wanted, contents, storeOutcome in *.
    destruct (files w !! path) as [[d|]|]; try discriminate.
    injection Ho as Ho. intros Hnil. apply map_eq_nil in Hnil.
    now apply (classify_changed_wanted _ _ _ Ho). }
  rewrite <- (storeOutcome_env _ _ _ _ _ Henv) in Ho.
  rewrite (verify_changed c h r key _ _ w1 Ho), (wanted_env _ _ _ _ Henv).
  pose proof Henv as (_ & _ & Hw1 & _).
  unfold printError, Fprint, termOf. rewrite Hs. cbn [termWritable emit].
  rewrite Hw1, Hw. cbn [fst snd].
  eexists. split; [reflexivity |]. split; [exact Hwant |].
  split; [| split].
  - unfold closeRaw. rewrite Hs. cbn. apply Henv.
  - unfold closeRaw. rewrite Hs. exact Henv.
  - rewrite trace_closeRaw. unfold rawClose, rawOpen in *. rewrite Hs in *.
    cbn [trace emit]. rewrite Htr. now rewrite <- !app_assoc.
Qed.

(** *** The interactive approval *)

Lemma hostKeyCallback_prompt c h r key w pre tail :
  strictHostKeyChecking c = StrictHostChecksDefault
  \/ strictHostKeyChecking c = StrictHostChecksAsk ->
  nonEmpty (resolvedPath c w) = true ->
  stdin w = Terminal true ->
  storeOutcome w (resolvedPath c w) h key = Some knownhosts.Unknown ->
  forallb otherAnswer pre = true ->
  termInput w = (pre ++ tail)%list ->
  let path := resolvedPath c w in
  exists w3,
    sameStore w3 w
    /\ termInput w3 = tail
    /\ trace w3 =
       (trace w ++ [EvMakeRaw; EvLoadStore path]
        ++ askEvents FingerprintSHA256 (termWritable w) h r key
        ++ reprompts (termWritable w) pre)%list
    /\ hostKeyCallback FingerprintSHA256 c h r key w =
       match promptLoop stdinTerminal tail w3 with
       | (Some err, w4) => (Some err, cleanupTerm w4)
       | (None, w4) =>
           (fst (persist path h key false (printError (Some stdinTerminal)) w4),
            cleanupTerm
              (snd (persist path h key false (printError (Some stdinTerminal)) w4)))
       end.
Proof.
  intros Hpol Hp Hs Ho Hpre Hin path.
  assert (Hs' : stdin w <> Terminal false) by (rewrite Hs; discriminate).
  destruct (hostKeyCallback_body c h r key w Hp Hs') as (w1 & Henv & Htr & ->).
  fold path in Ho |- *.
  rewrite <- (storeOutcome_env _ _ _ _ _ Henv) in Ho.
  rewrite (verify_unknown c h r key _ _ w1 Ho).
  unfold termOf, closeRaw, rawOpen in *. rewrite Hs in *.
  destruct (strictnessSwitch_ask c h r key stdinTerminal
              (emit (EvLoadStore path) w1) Hpol) as (w2 & Henv2 & Htr2 & ->).
  pose proof Henv as (Hg & Hst & Hw & Hti & Hf & Hmu & Hdw).
  pose proof Henv2 as (Hg2 & Hst2 & Hw2 & Hti2 & Hf2 & Hmu2 & Hdw2).
  cbn [termInput termWritable emit files mutex dirWritable stdin
       goCryptoKnownHostsFile trace] in *.
  rewrite Hti, Hin.
  destruct (promptLoop_others stdinTerminal pre tail w2 Hpre
              ltac:(now rewrite Hti2, Hti))
    as (w3 & Hs3 & Hti3 & Htr3 & ->).
  exists w3. split; [| split; [exact Hti3 | split]].
  - unfold sameStore in *. intuition congruence.
  - rewrite Htr3, Htr2, Htr, Hw2, Hw. now rewrite <- !app_assoc.
  - destruct (promptLoop stdinTerminal tail w3) as [[err|] w4]; cbn [fst snd];
      [reflexivity |].
    now destruct (persist path h key false _ w4).
Qed.

(** C7: in the interactive approval of an Unknown key (Default or Ask
    policy, terminal available), the lines read before the first yes or no,
    compared without regard to case, are each answered by the request to
    type yes or no; a first answer no rejects with "Host key verification
    failed." and nothing is locked or written; a first answer yes accepts
    and the record is appended to the store; input that ends without an
    answer rejects with the read error. *)
Theorem prompt_loop_answers c h r key w pre rest :
  strictHostKeyChecking c = StrictHostChecksDefault
  \/ strictHostKeyChecking c = StrictHostChecksAsk ->
  nonEmpty (resolvedPath c w) = true ->
  stdin w = Terminal true ->
  storeOutcome w (resolvedPath c w) h key = Some knownhosts.Unknown ->
  forallb otherAnswer pre = true ->
  let path := resolvedPath c w in
  let new := appendRecord (contents w path) (knownhosts.Line [h] key) in
  let asked :=
    ([EvMakeRaw; EvLoadStore path]
     ++ askEvents FingerprintSHA256 (termWritable w) h r key
     ++ reprompts (termWritable w) pre)%list in
  (forall ans,
      termInput w = (pre ++ ans :: rest)%list ->
      ToLower ans = "no" ->
      exists w',
        hostKeyCallback FingerprintSHA256 c h r key w
        = (Some (errors_New "Host key verification failed."), w')
        /\ files w' = files w /\ mutex w' = mutex w /\ termInput w' = rest
        /\ trace w' = (trace w ++ asked ++ [EvReadLine ans; EvRestore])%list)
  /\ (forall ans,
      termInput w = (pre ++ ans :: rest)%list ->
      ToLower ans = "yes" ->
      String.eqb path os_DevNull = false ->
      mutex w = Free ->
      dirWritable w = true ->
      exists w',
        hostKeyCallback FingerprintSHA256 c h r key w = (None, w')
        /\ files w' = <[path := Regular new]> (files w)
        /\ mutex w' = Free /\ termInput w' = rest
        /\ trace w' =
           (trace w ++ asked ++ [EvReadLine ans] ++ appendEvents path new
            ++ [EvRelease "juju-ssh-client"; EvRestore])%list)
  /\ (termInput w = pre ->
      exists w',
        hostKeyCallback FingerprintSHA256 c h r key w = (Some io_EOF, w')
        /\ files w' = files w /\ mutex w' = mutex w /\ termInput w' = []
        /\ trace w' = (trace w ++ asked ++ [EvRestore])%list).
Proof.
  intros Hpol Hp Hs Ho Hpre path new asked. split; [| split].
  - intros ans Hin Hno.
    destruct (hostKeyCallback_prompt c h r key w pre (ans :: rest)
                Hpol Hp Hs Ho Hpre Hin) as (w3 & Hs3 & Hti3 & Htr3 & ->).
    rewrite promptLoop_no by (rewrite Hno; reflexivity).
    eexists. split; [reflexivity |]. cbn. rewrite Htr3.
    repeat split; try apply Hs3. unfold asked. now rewrite <- !app_assoc.
  - intros ans Hin Hyes Hdev Hm Hd.
    destruct (hostKeyCallback_prompt c h r key w pre (ans :: rest)
                Hpol Hp Hs Ho Hpre Hin) as (w3 & Hs3 & Hti3 & Htr3 & ->).
    rewrite promptLoop_yes by (rewrite Hyes; reflexivity).
    pose proof Hs3 as (Hg & Hst & Hw & Hf & Hmu & Hdw).
    assert (Hread : files (emit (EvReadLine ans) (setTermInput rest w3))
                      !! resolvedPath c w <> Some Unreadable).
    { cbn [files emit setTermInput]. rewrite Hf. unfold storeOutcome in Ho.
      destruct (files w !! resolvedPath c w) as [[d|]|]; congruence. }
    destruct (persist_appends (resolvedPath c w) h key false (Some stdinTerminal)
                (emit (EvReadLine ans) (setTermInput rest w3)) Hdev
                ltac:(cbn; congruence) ltac:(cbn; congruence) Hread)
      as (w5 & -> & Hf5 & Hti5 & Hm5 & Htr5).
    assert (Hold : contents (emit (EvReadLine ans) (setTermInput rest w3))
                     (resolvedPath c w) = contents w path).
    { unfold contents. cbn [files emit setTermInput]. now rewrite Hf. }
    rewrite Hold in *. fold path new in Hf5, Htr5.
    cbn [fst snd]. eexists. split; [reflexivity |].
    cbn [files mutex termInput trace cleanupTerm emit].
    split; [rewrite Hf5; cbn; now rewrite Hf |].
    split; [exact Hm5 |]. split; [rewrite Hti5; reflexivity |].
    rewrite Htr5. cbn [trace emit setTermInput warnEvents]. rewrite Htr3.
    unfold asked. now rewrite <- !app_assoc.
  - intros Hin.
    destruct (hostKeyCallback_prompt c h r key w pre []
                Hpol Hp Hs Ho Hpre ltac:(now rewrite app_nil_r))
      as (w3 & Hs3 & Hti3 & Htr3 & ->).
    rewrite promptLoop_eof.
    eexists. split; [reflexivity |]. cbn. rewrite Htr3.
    repeat split; try apply Hs3; [exact Hti3 |].
    unfold asked. now rewrite <- !app_assoc.
Qed.

(** *** Every call: the store is left alone or appended to, atomically *)

Lemma storeEvents_app (a b : list Event) :
  storeEvents (a ++ b)%list = (storeEvents a ++ storeEvents b)%list.
Proof. apply List.filter_app. Qed.

Lemma mutations_storeEvents (evs : list Event) :
  mutations (storeEvents evs) = mutations evs.
Proof.
  unfold mutations, storeEvents.
  induction evs as [|e evs IH]; [reflexivity |].
  destruct e; cbn; now rewrite ?IH.
Qed.

Lemma promptLoop_effect t input w :
  sameStore (snd (promptLoop t input w)) w
  /\ exists evs,
      trace (snd (promptLoop t input w)) = (trace w ++ evs)%list
      /\ storeEvents evs = [].
Proof.
  revert w. induction input as [|line rest IH]; intros w.
  - cbn. split; [same_store |]. exists []. now rewrite app_nil_r.
  - cbn [promptLoop].
    destruct (String.eqb (ToLower line) "yes");
      [| destruct (String.eqb (ToLower line) "no")].
    + cbn. split; [same_store |]. now exists [EvReadLine line].
    + cbn. split; [same_store |]. now exists [EvReadLine line].
    + unfold Fprint. cbn [termWritable emit setTermInput].
      destruct (termWritable w); cbn [snd];
        match goal with
        | |- context [promptLoop t rest ?w0] =>
            destruct (IH w0) as (Hs & evs & Ht & Hm)
        end.
      * split; [eapply sameStore_trans; [exact Hs | done] |].
        exists ([EvReadLine line; EvTermWrite "Please type 'yes' or 'no': "] ++ evs)%list.
        split; [rewrite Ht; cbn; now rewrite <- !app_assoc |].
        now rewrite storeEvents_app, Hm.
      * split; [eapply sameStore_trans; [exact Hs | done] |].
        exists ([EvReadLine line] ++ evs)%list.
        split; [rewrite Ht; cbn; now rewrite <- !app_assoc |].
        now rewrite storeEvents_app, Hm.
Qed.

Lemma Fprint_effect t text w :
  sameEnv (snd (Fprint t text w)) w
  /\ exists evs,
      trace (snd (Fprint t text w)) = (trace w ++ evs)%list
      /\ storeEvents evs = [].
Proof.
  unfold Fprint. destruct (termWritable w); cbn.
  - split; [done |]. now eexists [_].
  - split; [done |]. exists []. now rewrite app_nil_r.
Qed.

Lemma printError_effect term message w :
  sameEnv (snd (printError term message w)) w
  /\ exists evs,
      trace (snd (printError term message w)) = (trace w ++ evs)%list
      /\ storeEvents evs = [].
Proof.
  destruct term as [t|]; [apply Fprint_effect |].
  cbn. split; [done |]. now eexists [_].
Qed.

Lemma strictnessSwitch_effect c h r key term w :
  sameStore (snd (strictnessSwitch FingerprintSHA256 c h r key term w)) w
  /\ exists evs,
      trace (snd (strictnessSwitch FingerprintSHA256 c h r key term w))
      = (trace w ++ evs)%list
      /\ storeEvents evs = [].
Proof.
  unfold strictnessSwitch.
  assert (Hprompt : forall t,
    let w1 := snd (Fprint t
                (authenticityMessage FingerprintSHA256 h r key
                 ++ "Are you sure you want to continue connecting (yes/no)? ") w) in
    let out := match promptLoop t (termInput w1) w1 with
               | (Some err, w2) => (@inl error bool err, w2)
               | (None, w2) => (inr false, w2)
               end in
    sameStore (snd out) w
    /\ exists evs, trace (snd out) = (trace w ++ evs)%list /\ storeEvents evs = []).
  { intros t w1 out. subst out.
    destruct (Fprint_effect t
                (authenticityMessage FingerprintSHA256 h r key
                 ++ "Are you sure you want to continue connecting (yes/no)? ") w)
      as (Hs0 & evs0 & Ht0 & Hm0). fold w1 in Hs0, Ht0.
    destruct (promptLoop_effect t (termInput w1) w1) as (Hs & evs & Ht & Hm).
    destruct (promptLoop t (termInput w1) w1) as [[err|] w2]; cbn [snd] in *;
      (split; [eapply sameStore_trans; [exact Hs | now apply sameEnv_sameStore] |];
       exists (evs0 ++ evs)%list;
       split; [rewrite Ht, Ht0; now rewrite <- app_assoc |];
       now rewrite storeEvents_app, Hm0, Hm). }
  destruct (strictHostKeyChecking c); destruct term as [t|]; cbn [snd];
    try (split; [same_store |]; exists []; now rewrite app_nil_r);
    try apply Hprompt;
    (cbn; split; [same_store |]; now eexists [_]).
Qed.

(** What an append does to the files, the mutex and the trace, on every
    path through lines 341-375. *)
Lemma persist_effect path h key warnAdd term w :
  let new := appendRecord (contents w path) (knownhosts.Line [h] key) in
  let res := persist path h key warnAdd (printError term) w in
  mutex (snd res) = mutex w
  /\ exists evs,
      trace (snd res) = (trace w ++ evs)%list
      /\ storeEffect path new w (snd res) (fst res) evs.
Proof.
  intros new res. subst new res.
  unfold storeEffect, lockedRead, lockedAppend,
    persist, mutex_Acquire, ioutil_ReadFile, utils_AtomicWriteFile,
    warnAndReturn, contents, printError, Fprint.
  destruct (String.eqb path os_DevNull) eqn:Hdev; cbn [negb].
  - destruct warnAdd; [destruct term as [t|]; [destruct (termWritable w) |] |];
      cbn [fst snd];
      (split; [reflexivity |]; eexists; split;
       [cbn; rewrite <- ?app_assoc; try reflexivity; symmetry; apply app_nil_r
       | left; split; [now left | reflexivity]]).
  - destruct (mutex w) eqn:Hm;
      try (split; [exact Hm |]; exists []; split;
           [cbn; now rewrite app_nil_r | left; split; [now left | reflexivity]]).
    cbn [files emit setMutex].
    destruct (files w !! path) as [[data|]|];
      cbn [os_IsNotExist negb errors_Trace dirWritable emit setMutex fst snd];
      try (split; [reflexivity |]; eexists; split;
           [cbn; rewrite <- ?app_assoc; reflexivity
           | left; split; [now right | reflexivity]]);
      (destruct (dirWritable w);
       [ destruct warnAdd;
         [destruct term as [t|];
          cbn [termWritable emit setFiles setMutex];
          [destruct (termWritable w) |] |];
         cbn [fst snd];
         (split; [reflexivity |]; eexists; split;
          [cbn; rewrite <- ?app_assoc; reflexivity | right; now repeat split])
       | split; [reflexivity |]; eexists; split;
         [cbn; rewrite <- ?app_assoc; reflexivity
         | left; split; [now right | reflexivity]] ]).
Qed.

Lemma storeEffect_quiet path new w w' result evs :
  storeEvents evs = [] -> files w' = files w ->
  storeEffect path new w w' result evs.
Proof. intros He Hf. left. split; [now left | exact Hf]. Qed.

(** A store effect carried over steps before and after it that touch
    neither the files nor the lock. *)
Lemma storeEffect_frame path new w0 w w' w'' result pre evs post :
  files w = files w0 -> files w'' = files w' ->
  storeEvents pre = [] -> storeEvents post = [] ->
  storeEffect path new w w' result evs ->
  storeEffect path new w0 w'' result (pre ++ evs ++ post)%list.
Proof.
  intros Hf0 Hf2 Hpre Hpost He. unfold storeEffect in *.
  rewrite !storeEvents_app, Hpre, Hpost, app_nil_r. cbn [app].
  rewrite Hf2, <- Hf0. exact He.
Qed.

Lemma verify_effect c h r key path term w :
  let new := appendRecord (contents w path) (knownhosts.Line [h] key) in
  let res := verify FingerprintSHA256 c h r key path term w in
  mutex (snd res) = mutex w
  /\ exists evs,
      trace (snd res) = (trace w ++ evs)%list
      /\ storeEffect path new w (snd res) (fst res) evs.
Proof.
  intros new res. subst new res.
  destruct (storeOutcome w path h key) as [[| |]|] eqn:Ho.
  - rewrite (verify_matched c h r key _ _ w Ho). cbn. split; [reflexivity |].
    exists [EvLoadStore path]. split; [reflexivity | now apply storeEffect_quiet].
  - rewrite (verify_unknown c h r key _ _ w Ho).
    destruct (strictnessSwitch_effect c h r key term (emit (EvLoadStore path) w))
      as (Hs & evs & Ht & Hm).
    destruct (strictnessSwitch FingerprintSHA256 c h r key term
                (emit (EvLoadStore path) w)) as [[e | warnAdd] w2];
      cbn [fst snd] in *.
    + split; [apply Hs |]. exists (EvLoadStore path :: evs). split.
      * rewrite Ht. cbn. now rewrite <- app_assoc.
      * apply storeEffect_quiet; [cbn; exact Hm | apply Hs].
    + destruct Hs as (_ & _ & _ & Hf & Hmu & _). cbn [files mutex emit] in Hf, Hmu.
      destruct (persist_effect path h key warnAdd term w2) as (Hmu2 & evs2 & Ht2 & Hcase).
      split; [now rewrite Hmu2 |].
      unfold contents in Hcase. rewrite Hf in Hcase. fold (contents w path) in Hcase.
      exists ((EvLoadStore path :: evs) ++ evs2 ++ [])%list. split.
      * rewrite Ht2, Ht. cbn. now rewrite app_nil_r, <- !app_assoc.
      * eapply storeEffect_frame; [exact Hf | reflexivity | | reflexivity | exact Hcase].
        cbn. exact Hm.
  - rewrite (verify_changed c h r key _ _ w Ho).
    destruct (printError_effect term
                (mismatchHead FingerprintSHA256 key path
                 ++ mismatchTail key (wanted w path h))
                (emit (EvLoadStore path) w)) as (Hs & evs & Ht & Hm).
    destruct (printError term _ _) as [[perr|] w2]; cbn [fst snd] in *;
      (split; [apply Hs |]; exists (EvLoadStore path :: evs); split;
       [rewrite Ht; cbn; now rewrite <- app_assoc
       | apply storeEffect_quiet; [cbn; exact Hm | apply Hs]]).
  - rewrite (verify_unreadable c h r key _ _ w Ho). cbn. split; [reflexivity |].
    exists [EvLoadStore path]. split; [reflexivity | now apply storeEffect_quiet].
Qed.

(** The whole callback, on every path. *)
Lemma hostKeyCallback_effect c h r key w :
  let path := resolvedPath c w in
  let new := appendRecord (contents w path) (knownhosts.Line [h] key) in
  let res := hostKeyCallback FingerprintSHA256 c h r key w in
  mutex (snd res) = mutex w
  /\ exists evs,
      trace (snd res) = (trace w ++ evs)%list
      /\ storeEffect path new w (snd res) (fst res) evs.
Proof.
  intros path new res. subst res.
  destruct (nonEmpty (resolvedPath c w)) eqn:Hp.
  2:{ destruct (hostKeyCallback_unconfigured c h r key w Hp) as (w' & -> & He & Ht).
      cbn [fst snd]. split; [apply He |].
      exists []. split; [now rewrite app_nil_r |].
      apply storeEffect_quiet; [reflexivity | apply He]. }
  destruct (Stdin_eq_dec (stdin w) (Terminal false)) as [Hs | Hs].
  { destruct (hostKeyCallback_rawModeFails c h r key w Hp Hs) as (w' & -> & He & Ht).
    cbn [fst snd]. split; [apply He |].
    exists []. split; [now rewrite app_nil_r |].
    apply storeEffect_quiet; [reflexivity | apply He]. }
  destruct (hostKeyCallback_body c h r key w Hp Hs) as (w1 & Henv & Htr & ->).
  destruct (verify_effect c h r key path (termOf w) w1) as (Hmu & evs & Ht & Hcase).
  fold path. cbn [fst snd].
  pose proof Henv as (_ & _ & _ & _ & Hf & Hmu1 & _).
  unfold contents in Hcase. rewrite Hf in Hcase. fold (contents w path) in Hcase.
  fold new in Hcase.
  assert (Hfc : forall w0, files (closeRaw w w0) = files w0)
    by (intros w0; unfold closeRaw; now destruct (stdin w)).
  assert (Hmc : forall w0, mutex (closeRaw w w0) = mutex w0)
    by (intros w0; unfold closeRaw; now destruct (stdin w)).
  split; [now rewrite Hmc, Hmu |].
  exists (rawOpen w ++ evs ++ rawClose w)%list. split.
  - rewrite trace_closeRaw, Ht, Htr. now rewrite <- !app_assoc.
  - eapply storeEffect_frame; [exact Hf | apply Hfc | | | exact Hcase].
    + unfold rawOpen. now destruct (stdin w).
    + unfold rawClose. now destruct (stdin w).
Qed.

(** Neither the alphabet nor the padding of base64 contains a line feed, so
    a known-hosts line never ends in one. *)
Lemma EncodeToString_no_newline (l : list byte) :
  contains "010" (base64.EncodeToString l) = false.
Proof.
  assert (Hch : forall n, Ascii.eqb "010" (base64.encChar n) = false).
  { intros n. apply Ascii.eqb_neq. intros E. now apply (encChar_not_nl n). }
  assert (H : forall n (l : list byte), length l <= n ->
                contains "010" (base64.EncodeToString l) = false).
  { clear l. induction n as [|n IH]; intros l Hl.
    - destruct l; [reflexivity | cbn in Hl; lia].
    - destruct l as [|a [|b [|c rest]]]; cbn [base64.EncodeToString contains];
        rewrite ?Hch; try reflexivity.
      cbn [orb]. apply IH. cbn in Hl. lia. }
  now apply (H (length l)).
Qed.

Lemma lastByte_contains (s : string) ch :
  lastByte s = Some ch -> contains ch s = true.
Proof.
  induction s as [|d s IH]; [discriminate |].
  cbn [lastByte contains]. destruct s as [|e s'].
  - intros [= ->]. now rewrite Ascii.eqb_refl.
  - intros H. rewrite (IH H). apply orb_true_r.
Qed.

Lemma Line_not_terminated h key :
  HasSuffixNl (knownhosts.Line [h] key) = false.
Proof.
  rewrite Line_single. unfold HasSuffixNl.
  rewrite <- (append_assoc h " "), <- (append_assoc (h ++ " ")).
  rewrite lastByte_append by reflexivity.
  destruct (lastByte (" " ++ base64.EncodeToString (pk_Marshal key))) as [ch|] eqn:E;
    [| reflexivity].
  apply Ascii.eqb_neq. intros ->. apply lastByte_contains in E.
  rewrite append_cons in E. cbn [contains] in E.
  change ("" ++ base64.EncodeToString (pk_Marshal key))
    with (base64.EncodeToString (pk_Marshal key)) in E.
  rewrite EncodeToString_no_newline in E. discriminate.
Qed.

(** C2: every call of the verifier either leaves every file as it was, or
    replaces the store at the configured path, once, by a temporary file
    renamed over it, with the former bytes followed by the record and one
    line feed.  A line feed is put between the two exactly when the former
    bytes are not empty and do not end in one, and the record itself does
    not end in a line feed, so the appended record ends in exactly one. *)
Theorem append_only_atomic c h r key w :
  let path := resolvedPath c w in
  let old := contents w path in
  let line := knownhosts.Line [h] key in
  let new := appendRecord old line in
  let res := hostKeyCallback FingerprintSHA256 c h r key w in
  (exists evs,
      trace (snd res) = (trace w ++ evs)%list
      /\ ((mutations evs = [] /\ files (snd res) = files w)
          \/ (mutations evs = [EvWriteTemp path new; EvRename path]
              /\ files (snd res) = <[path := Regular new]> (files w)
              /\ fst res = None)))
  /\ (old = "" -> new = line ++ nl)
  /\ (forall pre ch, old = pre ++ String ch "" -> ch <> "010"%char ->
      new = old ++ nl ++ line ++ nl)
  /\ (forall pre, old = pre ++ nl -> new = old ++ line ++ nl)
  /\ HasSuffixNl line = false
  /\ HasSuffixNl (line ++ nl) = true.
Proof.
  intros path old line new res. split; [| split; [| split; [| split; [| split]]]].
  - destruct (hostKeyCallback_effect c h r key w) as (_ & evs & Ht & Hcase).
    fold path old line new res in Ht, Hcase.
    exists evs. split; [exact Ht |].
    destruct Hcase as [[[He | He] Hf] | (He & Hf & Hres)];
      rewrite <- (mutations_storeEvents evs), He; [left | left | right]; auto.
  - intros E. subst new. rewrite E. apply appendRecord_empty.
  - intros pre ch E Hch. subst new. rewrite E. now apply appendRecord_unterminated.
  - intros pre E. subst new. rewrite E. apply appendRecord_terminated.
  - apply Line_not_terminated.
  - unfold HasSuffixNl. rewrite lastByte_append by reflexivity. reflexivity.
Qed.

End VerifierProperties.

(** ** Concurrent appends *)

Section ConcurrentAppends.

Import Concurrent.

Variable lines : list string.
Variable old : string.

Lemma Inv_init : Inv lines old (init old (length lines)).
Proof.
  unfold Inv, init. cbn [pcs holder store].
  split; [apply length_replicate |].
  split; [intros i p [-> _]%lookup_replicate; discriminate |].
  split; [discriminate |].
  split; [intros i d [[=] _]%lookup_replicate |].
  exists []. split; [constructor |]. split; [| reflexivity].
  intros i. split; [intros H; inversion H |].
  intros (p & [-> _]%lookup_replicate & Hp). discriminate.
Qed.

Lemma Inv_step i s : Inv lines old s -> Inv lines old (step lines i s).
Proof.
  intros HInv.
  pose proof HInv as (Hlen & Hhold & Hheld & Hread & order & Hnd & Hord & Hstore).
  unfold step.
  destruct (lines !! i) as [line|] eqn:Hl; [| exact HInv].
  destruct (pcs s !! i) as [p|] eqn:Hp; [| exact HInv].
  assert (Hi : i < length (pcs s)) by (eapply lookup_lt_Some; eauto).
  destruct p as [| | data | |].
  - (* Waiting: mutex.Acquire *)
    destruct (holder s) as [k|] eqn:Hh; [exact HInv |].
    unfold Inv. cbn [pcs holder store]. rewrite length_insert.
    split; [exact Hlen |]. split; [| split; [| split]].
    + intros j q [(-> & <- & _) | (Hne & Hq)]%list_lookup_insert_Some Hq';
        [reflexivity |].
      specialize (Hhold j q Hq Hq'). congruence.
    + intros j [= <-]. exists Locked. split; [| reflexivity].
      now apply list_lookup_insert_eq.
    + intros j d [(_ & [=] & _) | (Hne & Hq)]%list_lookup_insert_Some.
      eauto.
    + exists order. split; [exact Hnd |]. split; [| exact Hstore].
      intros j. rewrite Hord. split.
      * intros (q & Hq & Hq'). exists q. split; [| exact Hq'].
        rewrite list_lookup_insert_ne; [exact Hq |]. intros ->.
        rewrite Hp in Hq. now injection Hq as <-.
      * intros (q & [(-> & <- & _) | (Hne & Hq)]%list_lookup_insert_Some & Hq');
          [discriminate | eauto].
  - (* Locked: ioutil.ReadFile *)
    pose proof (Hhold i Locked Hp eq_refl) as Hh.
    unfold Inv. cbn [pcs holder store]. rewrite length_insert.
    split; [exact Hlen |]. split; [| split; [| split]].
    + intros j q [(-> & <- & _) | (Hne & Hq)]%list_lookup_insert_Some Hq';
        [exact Hh | eauto].
    + intros j Hj. rewrite Hh in Hj. injection Hj as <-.
      exists (HasRead (store s)). split; [| reflexivity].
      now apply list_lookup_insert_eq.
    + intros j d [(_ & [= <-] & _) | (Hne & Hq)]%list_lookup_insert_Some;
        [reflexivity | eauto].
    + exists order. split; [exact Hnd |]. split; [| exact Hstore].
      intros j. rewrite Hord. split.
      * intros (q & Hq & Hq'). exists q. split; [| exact Hq'].
        rewrite list_lookup_insert_ne; [exact Hq |]. intros ->.
        rewrite Hp in Hq. now injection Hq as <-.
      * intros (q & [(-> & <- & _) | (Hne & Hq)]%list_lookup_insert_Some & Hq');
          [discriminate | eauto].
  - (* HasRead: the rename of utils.AtomicWriteFile *)
    pose proof (Hhold i _ Hp eq_refl) as Hh.
    pose proof (Hread i _ Hp) as ->.
    unfold Inv. cbn [pcs holder store]. rewrite length_insert.
    split; [exact Hlen |]. split; [| split; [| split]].
    + intros j q [(-> & <- & _) | (Hne & Hq)]%list_lookup_insert_Some Hq';
        [exact Hh | eauto].
    + intros j Hj. rewrite Hh in Hj. injection Hj as <-.
      exists Written. split; [| reflexivity].
      now apply list_lookup_insert_eq.
    + intros j d [(_ & [=] & _) | (Hne & Hq)]%list_lookup_insert_Some.
      specialize (Hhold j _ Hq eq_refl). congruence.
    + exists (order ++ [i])%list. split; [| split].
      * apply NoDup_app. split; [exact Hnd |]. split; [| apply NoDup_singleton].
        intros j Hj ->%list_elem_of_singleton.
        apply Hord in Hj as (q & Hq & Hq'). rewrite Hp in Hq.
        now injection Hq as <-.
      * intros j. rewrite elem_of_app, list_elem_of_singleton, Hord. split.
        -- intros [(q & Hq & Hq') | ->].
           ++ exists q. split; [| exact Hq'].
              rewrite list_lookup_insert_ne; [exact Hq |]. intros ->.
              rewrite Hp in Hq. now injection Hq as <-.
           ++ exists Written. split; [| reflexivity].
              now apply list_lookup_insert_eq.
        -- intros (q & [(-> & <- & _) | (Hne & Hq)]%list_lookup_insert_Some & Hq');
             [now right | left; eauto].
      * rewrite fmap_app, fold_left_app, <- Hstore. cbn.
        unfold lineOf. now rewrite Hl.
  - (* Written: the deferred Release *)
    pose proof (Hhold i _ Hp eq_refl) as Hh.
    unfold Inv. cbn [pcs holder store]. rewrite length_insert.
    split; [exact Hlen |]. split; [| split; [| split]].
    + intros j q [(-> & <- & _) | (Hne & Hq)]%list_lookup_insert_Some Hq';
        [discriminate |].
      specialize (Hhold j q Hq Hq'). congruence.
    + discriminate.
    + intros j d [(_ & [=] & _) | (Hne & Hq)]%list_lookup_insert_Some.
      eauto.
    + exists order. split; [exact Hnd |]. split; [| exact Hstore].
      intros j. rewrite Hord. split.
      * intros (q & Hq & Hq'). destruct (decide (i = j)) as [<- | Hne].
        -- exists Done. split; [| reflexivity]. now apply list_lookup_insert_eq.
        -- exists q. split; [| exact Hq']. now rewrite list_lookup_insert_ne.
      * intros (q & [(-> & <- & _) | (Hne & Hq)]%list_lookup_insert_Some & Hq');
          [exists Written; now split | eauto].
  - (* Done *)
    exact HInv.
Qed.

Lemma Inv_run schedule s : Inv lines old s -> Inv lines old (run lines schedule s).
Proof.
  revert s. induction schedule as [|i schedule IH]; intros s H; [exact H |].
  cbn. apply IH, Inv_step, H.
Qed.

Lemma allDone_lookup s i :
  allDone s = true -> i < length (pcs s) -> pcs s !! i = Some Done.
Proof.
  unfold allDone. intros Hall Hi.
  destruct (lookup_lt_is_Some_2 _ _ Hi) as [p Hp].
  rewrite Hp. f_equal.
  rewrite forallb_forall in Hall.
  assert (Hin : In p (pcs s)) by (apply list_elem_of_In; eapply list_elem_of_lookup_2; eauto).
  specialize (Hall p Hin). now destruct p.
Qed.

Lemma lineOf_seq : lineOf lines <$> seq 0 (length lines) = lines.
Proof.
  apply list_eq. intros i. rewrite list_lookup_fmap.
  destruct (decide (i < length lines)) as [Hi | Hi].
  - rewrite lookup_seq_lt by exact Hi. cbn. unfold lineOf.
    destruct (lookup_lt_is_Some_2 _ _ Hi) as [l Hl]. now rewrite Hl.
  - rewrite lookup_seq_ge by lia. cbn. symmetry. apply lookup_ge_None. lia.
Qed.

(** Whatever the schedule, once every call has returned the file holds the
    original bytes and then the records of all calls, each once. *)
Lemma serialized_result schedule :
  allDone (run lines schedule (init old (length lines))) = true ->
  exists order,
    Permutation order lines
    /\ store (run lines schedule (init old (length lines)))
       = fold_left appendRecord order old.
Proof.
  intros Hall.
  destruct (Inv_run schedule _ Inv_init)
    as (Hlen & _ & _ & _ & order & Hnd & Hord & Hstore).
  exists (lineOf lines <$> order). split; [| exact Hstore].
  rewrite <- lineOf_seq at 2. apply fmap_Permutation.
  apply NoDup_Permutation; [exact Hnd | apply NoDup_seq |].
  intros i. rewrite Hord, elem_of_seq. split.
  - intros (p & Hp & _). apply lookup_lt_Some in Hp. lia.
  - intros [_ Hi]. exists Done. split; [| reflexivity].
    apply allDone_lookup; [exact Hall | lia].
Qed.

Lemma work_insert (l : list pc) k q q' :
  l !! k = Some q -> remaining q' < remaining q ->
  sum_list (remaining <$> <[k := q']> l) < sum_list (remaining <$> l).
Proof.
  revert k. induction l as [|p l IH]; intros [|k] Hk Hlt; try discriminate.
  - injection Hk as ->. csimpl. lia.
  - csimpl in *. specialize (IH k Hk Hlt). lia.
Qed.

Lemma not_allDone (l : list pc) :
  forallb isDone l = false -> exists i p, l !! i = Some p /\ isDone p = false.
Proof.
  induction l as [|p l IH]; [discriminate |].
  cbn. destruct (isDone p) eqn:E.
  - intros (i & q & Hq & Hd)%IH. now exists (S i), q.
  - intros _. now exists 0, p.
Qed.

(** While some call has not returned, some call can move. *)
Lemma progress s :
  Inv lines old s -> allDone s = false ->
  exists i, work (step lines i s) < work s.
Proof.
  intros (Hlen & Hhold & Hheld & _) Hnd.
  apply not_allDone in Hnd as (i & p & Hp & Hd).
  assert (Hline : forall k q, pcs s !! k = Some q -> is_Some (lines !! k)).
  { intros k q Hk. apply lookup_lt_is_Some_2. rewrite <- Hlen.
    eapply lookup_lt_Some; eauto. }
  destruct (holder s) as [k|] eqn:Hh.
  - destruct (Hheld k eq_refl) as (q & Hq & Hq').
    destruct (Hline k q Hq) as [line Hl].
    exists k. unfold step, work. rewrite Hl, Hq.
    destruct q; try discriminate; cbn [pcs];
      (eapply work_insert; [exact Hq | cbn; lia]).
  - destruct (Hline i p Hp) as [line Hl].
    exists i. unfold step, work. rewrite Hl, Hp.
    destruct p; try discriminate;
      try (specialize (Hhold i _ Hp eq_refl); congruence).
    rewrite Hh. cbn [pcs]. eapply work_insert; [exact Hp | cbn; lia].
Qed.

(** Every state of a schedule can be run to completion: no deadlock. *)
Lemma completes s :
  Inv lines old s -> exists schedule, allDone (run lines schedule s) = true.
Proof.
  remember (work s) as n eqn:Hn. revert s Hn.
  induction n as [n IH] using lt_wf_ind. intros s -> HInv.
  destruct (allDone s) eqn:Hall; [now exists [] |].
  destruct (progress s HInv Hall) as (i & Hlt).
  destruct (IH _ Hlt (step lines i s) eq_refl (Inv_step i s HInv)) as (schedule & Hs).
  now exists (i :: schedule).
Qed.

End ConcurrentAppends.

Lemma appendAll_joinLines (order : list string) (old : string) :
  old = "" \/ (exists pre, old = pre ++ nl) ->
  fold_left appendRecord order old = old ++ Concurrent.joinLines order.
Proof.
  revert old. induction order as [|line order IH]; intros old Hold.
  - cbn. now rewrite append_empty_r.
  - cbn [fold_left Concurrent.joinLines fold_right].
    assert (E : appendRecord old line = (old ++ line) ++ nl).
    { destruct Hold as [-> | (pre & ->)].
      - now rewrite appendRecord_empty.
      - now rewrite appendRecord_terminated, append_assoc, append_assoc, append_assoc. }
    rewrite E, IH by (right; eauto).
    now rewrite !append_assoc.
Qed.

(** A call that runs alone through the four effects of the interleaving
    model leaves the file that [persist] leaves. *)
Lemma solo_call_is_persist path h key warnAdd term w :
  String.eqb path os_DevNull = false ->
  mutex w = Free ->
  dirWritable w = true ->
  files w !! path <> Some Unreadable ->
  exists w',
    persist path h key warnAdd (printError term) w = (None, w')
    /\ files w' !! path
       = Some (Regular
                 (Concurrent.store
                    (Concurrent.run [knownhosts.Line [h] key] [0; 0; 0; 0]
                       (Concurrent.init (contents w path) 1)))).
Proof.
  intros Hdev Hm Hd Hf.
  destruct (persist_appends path h key warnAdd term w Hdev Hm Hd Hf)
    as (w' & Heq & Hfiles & _).
  exists w'. split; [exact Heq |].
  rewrite Hfiles, lookup_insert_eq. reflexivity.
Qed.

(** Were the mutex not exclusive, two calls that both read before either
    writes would lose a record: the second rename overwrites the first. *)
Example lost_record_without_mutex :
  let lines := ["a.example ssh-rsa Zm9v"; "b.example ssh-rsa YmFy"] in
  let final :=
    fold_left (fun s i => Concurrent.stepWithoutWait lines i s)
      [0; 1; 0; 1; 0; 1; 0; 1] (Concurrent.init "" 2) in
  Concurrent.allDone final = true
  /\ Concurrent.store final = "b.example ssh-rsa YmFy" ++ nl.
Proof. split; vm_compute; reflexivity. Qed.

(** C3: the append of every call takes the named mutex before it reads the
    file for the append and releases it on every path, the write included
    in between (the earlier load that classifies the key is not under the
    mutex); and for any number of calls appending to the same file, under
    every interleaving of their effects in which taking the mutex waits for
    the holder to release it, once all calls have returned the file is the
    original bytes followed by the records of all calls, each once, none
    lost or duplicated; every interleaving can be continued until all calls
    have returned. *)
Theorem appends_serialized_by_lock :
  (forall FingerprintSHA256 c h r key w,
      let path := resolvedPath c w in
      let new := appendRecord (contents w path) (knownhosts.Line [h] key) in
      let res := hostKeyCallback FingerprintSHA256 c h r key w in
      mutex (snd res) = mutex w
      /\ exists evs,
          trace (snd res) = (trace w ++ evs)%list
          /\ (storeEvents evs = []
              \/ storeEvents evs = lockedRead path
              \/ storeEvents evs = lockedAppend path new))
  /\ (forall lines old schedule,
         let final := Concurrent.run lines schedule
                        (Concurrent.init old (length lines)) in
         Concurrent.allDone final = true ->
         exists order,
           Permutation order lines
           /\ Concurrent.store final = fold_left appendRecord order old
           /\ (old = "" \/ (exists pre, old = pre ++ nl) ->
               Concurrent.store final = old ++ Concurrent.joinLines order))
  /\ (forall lines old schedule,
         exists rest,
           Concurrent.allDone
             (Concurrent.run lines (schedule ++ rest)%list
                (Concurrent.init old (length lines))) = true).
Proof.
  split; [| split].
  - intros fp c h r key w path new res.
    destruct (hostKeyCallback_effect fp c h r key w) as (Hm & evs & Ht & Hcase).
    split; [exact Hm |]. exists evs. split; [exact Ht |].
    destruct Hcase as [[[He | He] _] | (He & _)]; auto.
  - intros lines old schedule final Hall.
    destruct (serialized_result lines old schedule Hall) as (order & Hperm & Hstore).
    exists order. split; [exact Hperm |]. split; [exact Hstore |].
    intros Hold. fold final in Hstore. rewrite Hstore.
    now apply appendAll_joinLines.
  - intros lines old schedule.
    destruct (completes lines old
                (Concurrent.run lines schedule (Concurrent.init old (length lines)))
                (Inv_run lines old schedule _ (Inv_init lines old)))
      as (rest & Hrest).
    exists rest. unfold Concurrent.run in *. now rewrite fold_left_app.
Qed.

(** ** The claims at concrete inputs *)

(** Without any configured path the callback fails before anything else. *)
Lemma unconfigured_rejects_witness :
  let c := {| knownHostsFile := ""; strictHostKeyChecking := StrictHostChecksNo |} in
  let w := world NotATerminal [] storeFoo in
  knownHostsFile c = ""
  /\ goCryptoKnownHostsFile w = ""
  /\ stdin w = NotATerminal
  /\ exists w',
      hostKeyCallback sampleFingerprint c "example.com" "192.0.2.1:22" keyFoo w
      = (Some (errors_New "known_hosts file not configured"), w')
      /\ sameEnv w' w /\ trace w' = trace w.
Proof.
  cbv zeta. split; [reflexivity |]. split; [reflexivity |]. split; [reflexivity |].
  apply (unconfigured_rejects_before_classification sampleFingerprint); reflexivity.
Defined.

(** A recorded key is accepted under the Strict policy, and the answer
    waiting on the terminal is not read. *)
Lemma matched_accepts_witness :
  let c := command StrictHostChecksYes in
  let w := world (Terminal true) ["yes"] storeFoo in
  let rec := {| knownhosts.hostname := "example.com";
                knownhosts.keyType := "ssh-rsa";
                knownhosts.keyBytes := [x66; x6f; x6f];
                knownhosts.sourceFile := "known_hosts";
                knownhosts.sourceLine := 1 |} in
  In rec (knownhosts.load "known_hosts" ("example.com ssh-rsa Zm9v" ++ nl))
  /\ fst (hostKeyCallback sampleFingerprint c "example.com" "192.0.2.1:22" keyFoo w)
     = None
  /\ files (snd (hostKeyCallback sampleFingerprint c "example.com" "192.0.2.1:22"
                   keyFoo w)) = storeFoo
  /\ termInput (snd (hostKeyCallback sampleFingerprint c "example.com"
                       "192.0.2.1:22" keyFoo w)) = ["yes"].
Proof.
  cbv zeta.
  assert (Hin : In {| knownhosts.hostname := "example.com";
                      knownhosts.keyType := "ssh-rsa";
                      knownhosts.keyBytes := [x66; x6f; x6f];
                      knownhosts.sourceFile := "known_hosts";
                      knownhosts.sourceLine := 1 |}
                  (knownhosts.load "known_hosts" ("example.com ssh-rsa Zm9v" ++ nl)))
    by (vm_compute; left; reflexivity).
  split; [exact Hin |].
  destruct (matched_accepts_without_mutation sampleFingerprint
              (command StrictHostChecksYes) "example.com" "192.0.2.1:22" keyFoo
              (world (Terminal true) ["yes"] storeFoo)
              ("example.com ssh-rsa Zm9v" ++ nl) _
              eq_refl ltac:(discriminate) eq_refl Hin eq_refl eq_refl eq_refl)
    as (w' & -> & Hf & He & _).
  split; [reflexivity |]. split; [exact Hf | apply He].
Defined.

(** Without a terminal the Default policy rejects an unknown host. *)
Lemma no_terminal_rejects_witness :
  let c := command StrictHostChecksDefault in
  let w := world NotATerminal [] storeOther in
  storeOutcome w "known_hosts" "example.com" keyBar = Some knownhosts.Unknown
  /\ fst (hostKeyCallback sampleFingerprint c "example.com" "192.0.2.1:22" keyBar w)
     <> None
  /\ files (snd (hostKeyCallback sampleFingerprint c "example.com" "192.0.2.1:22"
                   keyBar w)) = storeOther.
Proof.
  cbv zeta. split; [vm_compute; reflexivity |].
  destruct (no_terminal_rejects_unmatched sampleFingerprint
              (command StrictHostChecksDefault) "example.com" "192.0.2.1:22" keyBar
              (world NotATerminal [] storeOther)
              (or_introl eq_refl) eq_refl ltac:(vm_compute; discriminate))
    as (err & w' & evs & -> & Hf & _).
  split; [discriminate | exact Hf].
Defined.

(** C4, counterexample: under the Strict policy, with a store that has
    another key for the host, the offered key is absent and the call is
    rejected, but the error is the key mismatch of the store and not the
    error that names strict checking. *)
Lemma strict_changed_key_counterexample :
  let c := command StrictHostChecksYes in
  let w := world NotATerminal [] storeFoo in
  existsb (knownhosts.exact "example.com" keyBar)
    (knownhosts.load "known_hosts" (contents w "known_hosts")) = false
  /\ fst (hostKeyCallback sampleFingerprint c "example.com" "192.0.2.1:22" keyBar w)
     = Some (KeyError [ {| kk_Key := keyFoo; kk_Filename := "known_hosts";
                           kk_Line := 1 |} ])
  /\ fst (hostKeyCallback sampleFingerprint c "example.com" "192.0.2.1:22" keyBar w)
     <> Some (strictError "example.com" keyBar).
Proof.
  cbv zeta. split; [vm_compute; reflexivity |].
  assert (E : fst (hostKeyCallback sampleFingerprint (command StrictHostChecksYes)
                     "example.com" "192.0.2.1:22" keyBar
                     (world NotATerminal [] storeFoo))
              = Some (KeyError [ {| kk_Key := keyFoo; kk_Filename := "known_hosts";
                                    kk_Line := 1 |} ]))
    by (vm_compute; reflexivity).
  split; [exact E |]. rewrite E. discriminate.
Qed.

(** The Strict policy rejects an unknown host with its own error. *)
Lemma strict_rejects_witness :
  let c := command StrictHostChecksYes in
  let w := world (Terminal true) ["yes"] storeOther in
  strictHostKeyChecking c = StrictHostChecksYes
  /\ storeOutcome w (resolvedPath c w) "example.com" keyBar
     = Some knownhosts.Unknown
  /\ fst (hostKeyCallback sampleFingerprint c "example.com" "192.0.2.1:22" keyBar w)
     = Some (errors_New
               "no ssh-rsa host key is known for example.com and you have requested strict checking")
  /\ files (snd (hostKeyCallback sampleFingerprint c "example.com" "192.0.2.1:22"
                   keyBar w)) = storeOther.
Proof.
  cbv zeta. split; [reflexivity |]. split; [vm_compute; reflexivity |].
  destruct (strict_rejects_unmatched sampleFingerprint
              (command StrictHostChecksYes) "example.com" "192.0.2.1:22" keyBar
              (world (Terminal true) ["yes"] storeOther)
              eq_refl ltac:(vm_compute; discriminate))
    as (err & w' & -> & Hf & _ & Hunknown & _).
  cbn [fst snd]. split; [| exact Hf].
  rewrite (Hunknown eq_refl ltac:(discriminate) ltac:(vm_compute; reflexivity)).
  reflexivity.
Defined.

(** C5, counterexample: under the Disabled policy, with a store that has
    another key for the host, the offered key is absent from the store, yet
    the call is rejected with the key mismatch and the file is not
    touched. *)
Lemma disabled_changed_key_counterexample :
  let c := command StrictHostChecksNo in
  let w := world NotATerminal [] storeFoo in
  existsb (knownhosts.exact "example.com" keyBar)
    (knownhosts.load "known_hosts" (contents w "known_hosts")) = false
  /\ fst (hostKeyCallback sampleFingerprint c "example.com" "192.0.2.1:22" keyBar w)
     = Some (KeyError [ {| kk_Key := keyFoo; kk_Filename := "known_hosts";
                           kk_Line := 1 |} ])
  /\ files (snd (hostKeyCallback sampleFingerprint c "example.com" "192.0.2.1:22"
                   keyBar w)) = storeFoo.
Proof. cbv zeta. repeat split; vm_compute; reflexivity. Qed.

(** The Disabled policy adds an unknown host to a store that lacks a final
    line feed. *)
Lemma disabled_accepts_witness :
  let c := command StrictHostChecksNo in
  let w := world NotATerminal [] storeOther in
  storeOutcome w (resolvedPath c w) "example.com" keyBar = Some knownhosts.Unknown
  /\ fst (hostKeyCallback sampleFingerprint c "example.com" "192.0.2.1:22" keyBar w)
     = None
  /\ files (snd (hostKeyCallback sampleFingerprint c "example.com" "192.0.2.1:22"
                   keyBar w)) !! "known_hosts"
     = Some (Regular ("other.org ssh-rsa Zm9v" ++ nl
                      ++ "example.com ssh-rsa YmFy" ++ nl)).
Proof.
  cbv zeta. split; [vm_compute; reflexivity |].
  pose proof (disabled_accepts_unknown_and_appends sampleFingerprint
                (command StrictHostChecksNo) "example.com" "192.0.2.1:22" keyBar
                (world NotATerminal [] storeOther)
                eq_refl eq_refl eq_refl ltac:(discriminate)
                ltac:(vm_compute; reflexivity) eq_refl eq_refl) as H.
  cbv zeta in H. destruct H as (w' & new & -> & -> & Hf & _).
  cbn [fst snd]. split; [reflexivity |]. rewrite Hf. vm_compute. reflexivity.
Defined.

(** C1, counterexample: under the Default policy, on a terminal whose user
    would answer yes, a changed key is rejected with the key mismatch: the
    answer is not read and the store keeps the old key. *)
Lemma changed_key_not_prompted_counterexample :
  let c := command StrictHostChecksDefault in
  let w := world (Terminal true) ["yes"] storeFoo in
  storeOutcome w "known_hosts" "example.com" keyBar = Some knownhosts.Changed
  /\ fst (hostKeyCallback sampleFingerprint c "example.com" "192.0.2.1:22" keyBar w)
     = Some (KeyError [ {| kk_Key := keyFoo; kk_Filename := "known_hosts";
                           kk_Line := 1 |} ])
  /\ termInput (snd (hostKeyCallback sampleFingerprint c "example.com"
                       "192.0.2.1:22" keyBar w)) = ["yes"]
  /\ files (snd (hostKeyCallback sampleFingerprint c "example.com" "192.0.2.1:22"
                   keyBar w)) = storeFoo.
Proof. cbv zeta. repeat split; vm_compute; reflexivity. Qed.

(** A changed key on a terminal: the warning names the offending record,
    and the call fails. *)
Lemma changed_key_warns_witness :
  let c := command StrictHostChecksAsk in
  let w := world (Terminal true) ["yes"] storeFoo in
  storeOutcome w (resolvedPath c w) "example.com" keyBar = Some knownhosts.Changed
  /\ fst (hostKeyCallback sampleFingerprint c "example.com" "192.0.2.1:22" keyBar w)
     = Some (KeyError (wanted w "known_hosts" "example.com"))
  /\ mismatchTail keyBar (wanted w "known_hosts" "example.com")
     = "Offending ssh-rsa key in known_hosts:1"
  /\ termInput (snd (hostKeyCallback sampleFingerprint c "example.com"
                       "192.0.2.1:22" keyBar w)) = ["yes"].
Proof.
  cbv zeta. split; [vm_compute; reflexivity |].
  pose proof (changed_key_warns_and_rejects sampleFingerprint
                (command StrictHostChecksAsk) "example.com" "192.0.2.1:22" keyBar
                (world (Terminal true) ["yes"] storeFoo)
                eq_refl eq_refl eq_refl ltac:(vm_compute; reflexivity)) as H.
  cbv zeta in H. destruct H as (w' & -> & _ & _ & He & _).
  cbn [fst snd]. split; [reflexivity |]. split; [vm_compute; reflexivity |].
  apply He.
Defined.

(** An unknown host on a terminal: a line that is no answer, then YES. *)
Lemma prompt_loop_witness :
  let c := command StrictHostChecksDefault in
  let w := world (Terminal true) ["maybe"; "YES"; "later"] storeOther in
  forallb otherAnswer ["maybe"] = true
  /\ ToLower "YES" = "yes"
  /\ fst (hostKeyCallback sampleFingerprint c "example.com" "192.0.2.1:22" keyBar w)
     = None
  /\ termInput (snd (hostKeyCallback sampleFingerprint c "example.com"
                       "192.0.2.1:22" keyBar w)) = ["later"]
  /\ files (snd (hostKeyCallback sampleFingerprint c "example.com" "192.0.2.1:22"
                   keyBar w)) !! "known_hosts"
     = Some (Regular ("other.org ssh-rsa Zm9v" ++ nl
                      ++ "example.com ssh-rsa YmFy" ++ nl)).
Proof.
  cbv zeta. split; [reflexivity |]. split; [reflexivity |].
  pose proof (prompt_loop_answers sampleFingerprint
                (command StrictHostChecksDefault) "example.com" "192.0.2.1:22" keyBar
                (world (Terminal true) ["maybe"; "YES"; "later"] storeOther)
                ["maybe"] ["later"]
                (or_introl eq_refl) eq_refl eq_refl
                ltac:(vm_compute; reflexivity) eq_refl) as H.
  cbv zeta in H. destruct H as (_ & Hyes & _).
  destruct (Hyes "YES" eq_refl eq_refl eq_refl eq_refl eq_refl)
    as (w' & -> & Hf & _ & Hti & _).
  cbn [fst snd]. split; [reflexivity |]. split; [exact Hti |].
  rewrite Hf. vm_compute. reflexivity.
Defined.

(** Three calls whose effects interleave; the calls that find the mutex
    held wait, and the records end up in the order of the writes. *)
Lemma appends_serialized_witness :
  let lines := ["a.example ssh-rsa Zm9v"; "b.example ssh-rsa YmFy";
                "c.example ssh-rsa Zm9v"] in
  let schedule := [1; 0; 1; 2; 1; 0; 1; 0; 2; 0; 2; 0; 0; 2; 2; 2; 2] in
  let final := Concurrent.run lines schedule (Concurrent.init "" 3) in
  Concurrent.allDone final = true
  /\ Concurrent.store final
     = "b.example ssh-rsa YmFy" ++ nl ++ "a.example ssh-rsa Zm9v" ++ nl
       ++ "c.example ssh-rsa Zm9v" ++ nl
  /\ exists order,
      Permutation order lines
      /\ Concurrent.store final = fold_left appendRecord order "".
Proof.
  cbv zeta. split; [vm_compute; reflexivity |]. split; [vm_compute; reflexivity |].
  destruct (proj1 (proj2 appends_serialized_by_lock)
              ["a.example ssh-rsa Zm9v"; "b.example ssh-rsa YmFy";
               "c.example ssh-rsa Zm9v"] ""
              [1; 0; 1; 2; 1; 0; 1; 0; 2; 0; 2; 0; 0; 2; 2; 2; 2]
              ltac:(vm_compute; reflexivity))
    as (order & Hperm & Hstore & _).
  exists order. split; [exact Hperm | exact Hstore].
Defined.

(** * Further properties of the file *)

(** ** User, host and proxy arguments *)

Lemma contains_append ch (s t : string) :
  contains ch (s ++ t) = contains ch s || contains ch t.
Proof.
  induction s as [|d s IH]; [reflexivity |].
  rewrite append_cons. cbn [contains]. now rewrite IH, orb_assoc.
Qed.

Lemma cut_Some sep s before after :
  Address.cut sep s = Some (before, after) ->
  s = before ++ String sep after /\ contains sep before = false.
Proof.
  revert before. induction s as [|c s IH]; intros before; [discriminate |].
  cbn [Address.cut]. destruct (Ascii.eqb c sep) eqn:E.
  - intros [= <- <-]. apply Ascii.eqb_eq in E as ->. now split.
  - destruct (Address.cut sep s) as [[b a]|]; [| discriminate].
    intros [= <- <-]. destruct (IH b eq_refl) as [-> Hb].
    split; [reflexivity |]. cbn [contains].
    rewrite Ascii.eqb_sym, E. exact Hb.
Qed.

Lemma cut_None sep s :
  Address.cut sep s = None <-> contains sep s = false.
Proof.
  induction s as [|c s IH]; [now split |].
  cbn [Address.cut contains]. rewrite (Ascii.eqb_sym sep c).
  destruct (Ascii.eqb c sep); cbn [orb]; [now split |].
  destruct (Address.cut sep s) as [[b a]|]; [| tauto].
  split; [discriminate |]. intros H. apply IH in H. discriminate.
Qed.

(** X1: [splitUserHost] cuts its argument at the first at-sign: the user
    is what precedes it and holds no at-sign, the host is all that follows;
    without an at-sign the user is empty and the host is the argument. *)
Theorem splitUserHost_parts (s : string) :
  let '(user, host) := Address.splitUserHost s in
  (if contains "@" s
   then s = user ++ "@" ++ host /\ contains "@" user = false
   else user = "" /\ host = s).
Proof.
  unfold Address.splitUserHost, Address.SplitN2.
  destruct (Address.cut "@" s) as [[before after]|] eqn:E.
  - destruct (cut_Some _ _ _ _ E) as [-> Hb].
    rewrite contains_append. cbn [contains]. rewrite Ascii.eqb_refl, orb_true_r.
    now split.
  - apply cut_None in E. rewrite E. now split.
Qed.

Lemma Replace2_cons o1 o2 new c d rest :
  Address.Replace2 o1 o2 new (String c (String d rest))
  = if Ascii.eqb c o1 && Ascii.eqb d o2
    then new ++ Address.Replace2 o1 o2 new rest
    else String c (Address.Replace2 o1 o2 new (String d rest)).
Proof. reflexivity. Qed.

Lemma Replace2_clean o1 o2 new s :
  contains o1 s = false -> Address.Replace2 o1 o2 new s = s.
Proof.
  induction s as [|c s IH]; [reflexivity |].
  cbn [contains]. intros [Hc Hs]%orb_false_elim.
  destruct s as [|d rest]; [reflexivity |].
  rewrite Replace2_cons, Ascii.eqb_sym, Hc. cbn [andb]. now rewrite IH.
Qed.

Lemma Replace2_clean_prefix o1 o2 new pre t :
  contains o1 pre = false ->
  Address.Replace2 o1 o2 new (pre ++ t) = pre ++ Address.Replace2 o1 o2 new t.
Proof.
  induction pre as [|c pre IH]; [reflexivity |].
  cbn [contains]. intros [Hc Hs]%orb_false_elim.
  rewrite !append_cons. specialize (IH Hs).
  destruct (pre ++ t) as [|d rest] eqn:E.
  - destruct pre; [| discriminate]. change ("" ++ t) with t in E. now rewrite E.
  - rewrite Replace2_cons, Ascii.eqb_sym, Hc. cbn [andb]. now rewrite IH.
Qed.

Lemma Replace2_verb o1 o2 new pre post :
  contains o1 pre = false -> contains o1 post = false ->
  Address.Replace2 o1 o2 new (pre ++ String o1 (String o2 post))
  = pre ++ new ++ post.
Proof.
  intros Hpre Hpost. rewrite Replace2_clean_prefix by exact Hpre.
  rewrite Replace2_cons, !Ascii.eqb_refl. cbn [andb].
  now rewrite Replace2_clean.
Qed.

(** X2: a proxy command none of whose arguments holds a percent sign
    comes out of the substitution of lines 120-127 as it went in, whatever
    the address and the user are. *)
Theorem proxy_arguments_without_verbs split addr user proxyCommand :
  forallb (fun arg => negb (contains "%" arg)) proxyCommand = true ->
  Address.proxyArguments split addr user proxyCommand = proxyCommand.
Proof.
  intros Hall. unfold Address.proxyArguments.
  destruct (match split with Some (h, p) => (h, p) | None => (addr, "") end)
    as [host port].
  induction proxyCommand as [|arg args IH]; [reflexivity |].
  cbn [forallb] in Hall. apply andb_prop in Hall as [Harg Hargs].
  apply negb_true_iff in Harg. cbn [map]. rewrite IH by exact Hargs. f_equal.
  unfold Address.substitute.
  rewrite (Replace2_clean "%"%char "h"%char host arg Harg).
  destruct (nonEmpty port);
    [rewrite (Replace2_clean "%"%char "p"%char port arg Harg) |];
    exact (Replace2_clean "%"%char "r"%char user arg Harg).
Qed.

(** X3: around text free of percent signs, with a host, port and user
    free of them, [%h] becomes the host, [%r] the user and [%p] the port;
    when the address has no port [%p] is left in place. *)
Theorem proxy_verbs_replaced host port user pre post :
  contains "%" pre = false -> contains "%" post = false ->
  contains "%" host = false -> contains "%" port = false ->
  contains "%" user = false ->
  Address.substitute host port user (pre ++ "%h" ++ post) = pre ++ host ++ post
  /\ Address.substitute host port user (pre ++ "%r" ++ post) = pre ++ user ++ post
  /\ Address.substitute host port user (pre ++ "%p" ++ post)
     = pre ++ (if nonEmpty port then port else "%p") ++ post.
Proof.
  intros Hpre Hpost Hh Hp Hu.
  assert (Hclean : forall v, contains "%" v = false ->
                     contains "%" (pre ++ v ++ post) = false).
  { intros v Hv. now rewrite !contains_append, Hpre, Hv, Hpost. }
  assert (Hother : forall o new (v : ascii),
             Ascii.eqb v o = false -> Ascii.eqb v "%" = false ->
             Address.Replace2 "%" o new (pre ++ String "%" (String v post))
             = pre ++ String "%" (String v post)).
  { intros o new v Hvo Hv. rewrite Replace2_clean_prefix by exact Hpre.
    rewrite Replace2_cons, Hvo, andb_false_r.
    f_equal. f_equal. apply Replace2_clean. cbn [contains].
    rewrite Ascii.eqb_sym, Hv. exact Hpost. }
  unfold Address.substitute. split; [| split].
  - change (pre ++ "%h" ++ post) with (pre ++ String "%" (String "h" post)).
    rewrite Replace2_verb by assumption.
    destruct (nonEmpty port);
      [rewrite (Replace2_clean "%"%char "p"%char port (pre ++ host ++ post))
         by now apply Hclean |];
      now rewrite (Replace2_clean "%"%char "r"%char user (pre ++ host ++ post))
        by now apply Hclean.
  - change (pre ++ "%r" ++ post) with (pre ++ String "%" (String "r" post)).
    rewrite (Hother "h"%char host "r"%char) by reflexivity.
    destruct (nonEmpty port);
      [rewrite (Hother "p"%char port "r"%char) by reflexivity |];
      now rewrite Replace2_verb.
  - change (pre ++ "%p" ++ post) with (pre ++ String "%" (String "p" post)).
    rewrite (Hother "h"%char host "p"%char) by reflexivity.
    destruct (nonEmpty port).
    + rewrite Replace2_verb by assumption.
      now rewrite (Replace2_clean "%"%char "r"%char user (pre ++ port ++ post))
        by now apply Hclean.
    + now rewrite (Hother "r"%char user "p"%char) by reflexivity.
Qed.

(** ** The warning about a changed key *)

Lemma findTypeKey_fold key (Want : list KnownKey) (acc : option KnownKey) :
  Forall (fun k => pk_Type (kk_Key k) <> pk_Type key) Want ->
  fold_left
    (fun typeKey knownKey =>
       if String.eqb (pk_Type (kk_Key knownKey)) (pk_Type key)
       then Some knownKey else typeKey)
    Want acc = acc.
Proof.
  revert acc. induction Want as [|k Want IH]; intros acc HF; [reflexivity |].
  inversion HF as [|? ? Hk HW]; subst. cbn [fold_left].
  apply String.eqb_neq in Hk. rewrite Hk. now apply IH.
Qed.

Lemma tail_fold (Want : list KnownKey) (acc : string) :
  fold_left
    (fun tail knownKey =>
       tail ++ nl ++ " - " ++ pk_Type (kk_Key knownKey) ++ " key in " ++
       kk_Filename knownKey ++ ":" ++ Itoa (kk_Line knownKey))
    Want acc
  = acc ++ String.concat "" (map knownKeyItem Want).
Proof.
  revert acc. induction Want as [|k Want IH]; intros acc.
  - cbn. now rewrite append_empty_r.
  - cbn [fold_left map]. rewrite IH.
    assert (E : String.concat "" (knownKeyItem k :: map knownKeyItem Want)
                = knownKeyItem k ++ String.concat "" (map knownKeyItem Want)).
    { cbn [String.concat]. destruct (map knownKeyItem Want); [| reflexivity].
      cbn. now rewrite append_empty_r. }
    rewrite E. unfold knownKeyItem. now rewrite !append_assoc.
Qed.

(** X4: the warning of [checkHostKey] ends with the file and line of the
    last wanted key that has the offered key type; when no wanted key has
    that type it ends with a heading followed by one line per wanted key,
    in order, each with its type, file and line. *)
Theorem mismatch_tail_cases key (Want : list KnownKey) :
  (forall pre k post,
      Want = (pre ++ k :: post)%list ->
      pk_Type (kk_Key k) = pk_Type key ->
      Forall (fun k' => pk_Type (kk_Key k') <> pk_Type key) post ->
      mismatchTail key Want
      = "Offending " ++ pk_Type (kk_Key k) ++ " key in " ++
        kk_Filename k ++ ":" ++ Itoa (kk_Line k))
  /\ (Forall (fun k => pk_Type (kk_Key k) <> pk_Type key) Want ->
      mismatchTail key Want
      = "Host was previously using different host key algorithms:"
        ++ String.concat "" (map knownKeyItem Want)).
Proof.
  unfold mismatchTail, findTypeKey. split.
  - intros pre k post -> Hk Hpost.
    rewrite fold_left_app. cbn [fold_left].
    rewrite (proj2 (String.eqb_eq _ _) Hk).
    now rewrite findTypeKey_fold.
  - intros HF. rewrite findTypeKey_fold by exact HF. apply tail_fold.
Qed.

(** ** A record that is written is a record that is read *)

Lemma allBytes_all (a : byte) : In a allBytes.
Proof.
  unfold allBytes. apply in_map_iff.
  exists (Byte.to_nat a). split.
  - now rewrite Byte.of_to_nat.
  - apply in_seq. pose proof (Byte.to_nat_bounded a). lia.
Qed.

Lemma forall_bytes (P : byte -> bool) :
  forallb P allBytes = true -> forall a, P a = true.
Proof. intros H a. exact (proj1 (forallb_forall P allBytes) H a (allBytes_all a)). Qed.

Lemma forall_below (k : nat) (P : N -> bool) :
  forallb P (below k) = true -> forall n, (n < N.of_nat k)%N -> P n = true.
Proof.
  intros H n Hn. apply (proj1 (forallb_forall P (below k)) H).
  unfold below. apply in_map_iff. exists (N.to_nat n).
  split; [apply N2Nat.id | apply in_seq; lia].
Qed.

Lemma byte_below (a : byte) : (Byte.to_N a < 256)%N.
Proof. pose proof (Byte.to_N_bounded a). lia. Qed.

Lemma shiftr_below (x : N) (n k : N) :
  (x < k * 2 ^ n)%N -> (N.shiftr x n < k)%N.
Proof.
  intros H. rewrite N.shiftr_div_pow2.
  apply N.Div0.div_lt_upper_bound. lia.
Qed.

Lemma land_below (x : N) (n : N) : (N.land x (N.ones n) < 2 ^ n)%N.
Proof. rewrite N.land_ones. apply N.mod_lt. apply N.pow_nonzero. lia. Qed.

Lemma sextet_roundtrip (n : N) :
  (n < 64)%N ->
  base64.decChar (base64.encChar n) = Some n
  /\ base64.isPad (base64.encChar n) = false.
Proof.
  intros Hn.
  assert (H : sextetOk n = true).
  { revert n Hn. apply (forall_below 64). vm_compute. reflexivity. }
  unfold sextetOk in H. apply andb_prop in H as [H1 H2].
  split; [exact (bool_decide_eq_true_1 _ H1) | now apply negb_true_iff].
Qed.

Lemma sextet1_below a : (sextet1 (Byte.to_N a) < 64)%N.
Proof. apply shiftr_below. pose proof (byte_below a). lia. Qed.

Lemma sextet4_below z : (sextet4 z < 64)%N.
Proof. apply (land_below z 6). Qed.

Lemma sextet2_below x q : (q < 16)%N -> (sextet2 x q < 64)%N.
Proof.
  intros Hq. unfold sextet2.
  pose proof (land_below x 2) as Hp. change (N.ones 2) with 3%N in Hp.
  change (2 ^ 2)%N with 4%N in Hp.
  generalize dependent (N.land x 3). intros p Hp.
  assert (H : (N.lor (N.shiftl p 4) q <? 64)%N = true).
  { revert q Hq. apply (forall_below 16). revert p Hp. apply (forall_below 4).
    vm_compute. reflexivity. }
  now apply N.ltb_lt.
Qed.

Lemma sextet3_below y r : (r < 4)%N -> (sextet3 y r < 64)%N.
Proof.
  intros Hr. unfold sextet3.
  pose proof (land_below y 4) as Hp. change (N.ones 4) with 15%N in Hp.
  change (2 ^ 4)%N with 16%N in Hp.
  generalize dependent (N.land y 15). intros p Hp.
  assert (H : (N.lor (N.shiftl p 2) r <? 64)%N = true).
  { revert r Hr. apply (forall_below 4). revert p Hp. apply (forall_below 16).
    vm_compute. reflexivity. }
  now apply N.ltb_lt.
Qed.

(** The three bytes that the decoder rebuilds from the sextets. *)
Lemma byte1_rebuilt (a : byte) (q : N) :
  (q < 16)%N ->
  let x := Byte.to_N a in
  base64.byteOf (N.lor (N.shiftl (sextet1 x) 2) (N.shiftr (sextet2 x q) 4)) = Some a.
Proof.
  intros Hq x. subst x.
  assert (H : bool_decide
                (base64.byteOf
                   (N.lor (N.shiftl (sextet1 (Byte.to_N a)) 2)
                      (N.shiftr (sextet2 (Byte.to_N a) q) 4)) = Some a) = true).
  { revert q Hq. apply (forall_below 16). revert a. apply forall_bytes.
    vm_compute. reflexivity. }
  exact (bool_decide_eq_true_1 _ H).
Qed.

Lemma byte2_rebuilt (x : N) (b : byte) (r : N) :
  (r < 4)%N ->
  let y := Byte.to_N b in
  base64.byteOf
    (N.lor (N.shiftl (sextet2 x (N.shiftr y 4)) 4) (N.shiftr (sextet3 y r) 2))
  = Some b.
Proof.
  intros Hr y. subst y. unfold sextet2.
  pose proof (land_below x 2) as Hp. change (N.ones 2) with 3%N in Hp.
  change (2 ^ 2)%N with 4%N in Hp.
  generalize dependent (N.land x 3). intros p Hp.
  assert (H : bool_decide
                (base64.byteOf
                   (N.lor
                      (N.shiftl (N.lor (N.shiftl p 4) (N.shiftr (Byte.to_N b) 4)) 4)
                      (N.shiftr (sextet3 (Byte.to_N b) r) 2)) = Some b) = true).
  { revert r Hr. apply (forall_below 4). revert p Hp. apply (forall_below 4).
    revert b. apply forall_bytes. vm_compute. reflexivity. }
  exact (bool_decide_eq_true_1 _ H).
Qed.

Lemma byte3_rebuilt (y : N) (c : byte) :
  let z := Byte.to_N c in
  base64.byteOf (N.lor (N.shiftl (sextet3 y (N.shiftr z 6)) 6) (sextet4 z)) = Some c.
Proof.
  intros z. subst z. unfold sextet3.
  pose proof (land_below y 4) as Hp. change (N.ones 4) with 15%N in Hp.
  change (2 ^ 4)%N with 16%N in Hp.
  generalize dependent (N.land y 15). intros p Hp.
  assert (H : bool_decide
                (base64.byteOf
                   (N.lor
                      (N.shiftl (N.lor (N.shiftl p 2) (N.shiftr (Byte.to_N c) 6)) 6)
                      (sextet4 (Byte.to_N c))) = Some c) = true).
  { revert p Hp. apply (forall_below 16). revert c. apply forall_bytes.
    vm_compute. reflexivity. }
  exact (bool_decide_eq_true_1 _ H).
Qed.

Lemma shiftr_byte_below (a : byte) (n k : N) :
  (256 <= k * 2 ^ n)%N -> (N.shiftr (Byte.to_N a) n < k)%N.
Proof. intros H. apply shiftr_below. pose proof (byte_below a). lia. Qed.

Lemma decode_encode (src : list byte) :
  base64.DecodeString (base64.EncodeToString src) = Some src.
Proof.
  unfold base64.DecodeString.
  assert (H : forall n src, (length src < n)%nat ->
            base64.decodeQuads (list_ascii_of_string (base64.EncodeToString src))
            = Some src); [| apply (H (S (length src))); lia].
  clear src. induction n as [|n IH]; intros src Hlen; [lia |].
  destruct src as [|a [|b [|c rest]]]; [reflexivity | | |].
  - cbn [base64.EncodeToString list_ascii_of_string base64.decodeQuads].
    rewrite <- (N.lor_0_r (N.shiftl (N.land (Byte.to_N a) 3) 4)).
    fold (sextet1 (Byte.to_N a)). fold (sextet2 (Byte.to_N a) 0).
    destruct (sextet_roundtrip _ (sextet1_below a)) as [-> _].
    destruct (sextet_roundtrip (sextet2 (Byte.to_N a) 0)) as [-> _];
      [now apply sextet2_below |].
    cbn [mbind option_bind]. rewrite byte1_rebuilt by reflexivity.
    reflexivity.
  - cbn [base64.EncodeToString list_ascii_of_string base64.decodeQuads].
    rewrite <- (N.lor_0_r (N.shiftl (N.land (Byte.to_N b) 15) 2)).
    fold (sextet1 (Byte.to_N a)).
    fold (sextet2 (Byte.to_N a) (N.shiftr (Byte.to_N b) 4)).
    fold (sextet3 (Byte.to_N b) 0).
    assert (Hq : (N.shiftr (Byte.to_N b) 4 < 16)%N)
      by now apply shiftr_byte_below.
    destruct (sextet_roundtrip _ (sextet1_below a)) as [-> _].
    destruct (sextet_roundtrip _ (sextet2_below (Byte.to_N a) _ Hq)) as [-> _].
    destruct (sextet_roundtrip (sextet3 (Byte.to_N b) 0)) as [-> ->];
      [now apply sextet3_below |].
    cbn [mbind option_bind]. rewrite (byte1_rebuilt a _ Hq).
    cbn [mbind option_bind].
    rewrite (byte2_rebuilt (Byte.to_N a) b 0) by reflexivity.
    reflexivity.
  - cbn [base64.EncodeToString list_ascii_of_string base64.decodeQuads].
    fold (sextet1 (Byte.to_N a)).
    fold (sextet2 (Byte.to_N a) (N.shiftr (Byte.to_N b) 4)).
    fold (sextet3 (Byte.to_N b) (N.shiftr (Byte.to_N c) 6)).
    fold (sextet4 (Byte.to_N c)).
    assert (Hq : (N.shiftr (Byte.to_N b) 4 < 16)%N)
      by now apply shiftr_byte_below.
    assert (Hr : (N.shiftr (Byte.to_N c) 6 < 4)%N)
      by now apply shiftr_byte_below.
    destruct (sextet_roundtrip _ (sextet1_below a)) as [-> _].
    destruct (sextet_roundtrip _ (sextet2_below (Byte.to_N a) _ Hq)) as [-> _].
    destruct (sextet_roundtrip _ (sextet3_below (Byte.to_N b) _ Hr)) as [-> _].
    destruct (sextet_roundtrip _ (sextet4_below (Byte.to_N c))) as [-> ->].
    cbn [mbind option_bind]. rewrite (byte1_rebuilt a _ Hq).
    cbn [mbind option_bind]. rewrite (byte2_rebuilt (Byte.to_N a) b _ Hr).
    rewrite (byte3_rebuilt (Byte.to_N b) c).
    cbn [mbind option_bind]. rewrite IH by (cbn in Hlen; lia).
    reflexivity.
Qed.

Lemma get_contains (s : string) (i : nat) (c : ascii) :
  String.get i s = Some c -> contains c s = true.
Proof.
  revert i. induction s as [|d s IH]; intros i; [discriminate |].
  destruct i as [|i]; cbn [String.get contains].
  - intros [= ->]. now rewrite Ascii.eqb_refl.
  - intros H. rewrite (IH _ H). apply orb_true_r.
Qed.

Lemma encChar_symbol (n : N) :
  contains (base64.encChar n) (base64.alphabet ++ "=") = true.
Proof.
  rewrite contains_append. unfold base64.encChar.
  destruct (String.get (N.to_nat n) base64.alphabet) as [c|] eqn:E.
  - now rewrite (get_contains _ _ _ E).
  - apply orb_true_r.
Qed.

Lemma encoded_symbols (ch : ascii) (src : list byte) :
  contains ch (base64.alphabet ++ "=") = false ->
  contains ch (base64.EncodeToString src) = false.
Proof.
  intros Hch.
  assert (Henc : forall n, Ascii.eqb ch (base64.encChar n) = false).
  { intros n. destruct (Ascii.eqb ch (base64.encChar n)) eqn:E; [| reflexivity].
    apply Ascii.eqb_eq in E. rewrite E, encChar_symbol in Hch. discriminate. }
  assert (Hpad : Ascii.eqb ch base64.pad = false).
  { rewrite contains_append in Hch. apply orb_false_elim in Hch as [_ Hch].
    cbn [contains] in Hch. now apply orb_false_elim in Hch as [Hch _]. }
  assert (H : forall n src, (length src < n)%nat ->
            contains ch (base64.EncodeToString src) = false);
    [| apply (H (S (length src))); lia].
  clear src. induction n as [|n IH]; intros src Hlen; [lia |].
  destruct src as [|a [|b [|c rest]]]; [reflexivity | | |];
    cbn [base64.EncodeToString contains]; rewrite ?Henc, ?Hpad; cbn [orb];
    [reflexivity | reflexivity |].
  apply IH. cbn in Hlen. lia.
Qed.

Lemma splitOn_clean (sep : ascii) (s : string) :
  contains sep s = false -> splitOn sep s = [s].
Proof.
  induction s as [|c s IH]; [reflexivity |].
  cbn [contains splitOn]. rewrite (Ascii.eqb_sym sep c).
  intros H. apply orb_false_elim in H as [-> H]. now rewrite (IH H).
Qed.

Lemma splitOn_cons (sep : ascii) (s : string) :
  exists first rest, splitOn sep s = first :: rest.
Proof.
  induction s as [|c s (first & rest & IH)]; [now eexists _, _ |].
  cbn [splitOn]. rewrite IH. destruct (Ascii.eqb c sep); now eexists _, _.
Qed.

Lemma splitOn_append (sep : ascii) (a b : string) :
  splitOn sep (a ++ String sep b) = (splitOn sep a ++ splitOn sep b)%list.
Proof.
  induction a as [|c a IH].
  - change ("" ++ String sep b) with (String sep b). cbn [splitOn].
    now rewrite Ascii.eqb_refl.
  - rewrite append_cons. cbn [splitOn]. rewrite IH.
    destruct (Ascii.eqb c sep); [reflexivity |].
    now destruct (splitOn_cons sep a) as (first & rest & ->).
Qed.

Lemma recordable_fields h key :
  recordable h key = true ->
  nonEmpty h = true /\ contains " " h = false /\ contains "010" h = false
  /\ knownhosts.startsWith "#" h = false /\ knownhosts.startsWith "|" h = false
  /\ nonEmpty (pk_Type key) = true /\ contains " " (pk_Type key) = false
  /\ contains "010" (pk_Type key) = false.
Proof.
  unfold recordable. rewrite !andb_true_iff, !negb_true_iff. tauto.
Qed.

(** The line that [knownhosts.Line] writes for a host parses back to the
    host, the key type and the key bytes. *)
Lemma parseLine_Line file lineNo h key :
  recordable h key = true ->
  knownhosts.parseLine file lineNo (knownhosts.Line [h] key)
  = Some {| knownhosts.hostname := h; knownhosts.keyType := pk_Type key;
            knownhosts.keyBytes := pk_Marshal key;
            knownhosts.sourceFile := file; knownhosts.sourceLine := lineNo |}.
Proof.
  intros Hrec.
  destruct (recordable_fields h key Hrec)
    as (Hh & Hhs & _ & Hhc & Hhp & Ht & Hts & _).
  unfold knownhosts.parseLine. rewrite Line_single.
  assert (Hstart : forall ch rest,
            knownhosts.startsWith ch (h ++ rest) = knownhosts.startsWith ch h).
  { intros ch rest. destruct h; [discriminate Hh | reflexivity]. }
  rewrite Hstart, Hhc.
  change (h ++ " " ++ pk_Type key ++ " " ++ base64.EncodeToString (pk_Marshal key))
    with (h ++ String " " (pk_Type key
            ++ String " " (base64.EncodeToString (pk_Marshal key)))).
  rewrite !splitOn_append, (splitOn_clean _ _ Hhs), (splitOn_clean _ _ Hts).
  rewrite splitOn_clean by now apply encoded_symbols.
  cbn [app]. rewrite Hh, Ht, Hhp. cbn [andb negb].
  now rewrite decode_encode.
Qed.

Lemma Line_one_line h key :
  recordable h key = true ->
  contains "010" (knownhosts.Line [h] key) = false.
Proof.
  intros Hrec.
  destruct (recordable_fields h key Hrec) as (_ & _ & Hhn & _ & _ & _ & _ & Htn).
  rewrite Line_single, !contains_append, Hhn, Htn.
  now rewrite encoded_symbols.
Qed.

Lemma loadLines_app file lineNo (a b : list string) :
  knownhosts.loadLines file lineNo (a ++ b)
  = (knownhosts.loadLines file lineNo a
     ++ knownhosts.loadLines file (lineNo + length a) b)%list.
Proof.
  revert lineNo. induction a as [|l a IH]; intros lineNo.
  - cbn. now rewrite Nat.add_0_r.
  - cbn [app knownhosts.loadLines length]. rewrite IH.
    replace (S lineNo + length a)%nat with (lineNo + S (length a))%nat by lia.
    now destruct (knownhosts.parseLine file lineNo l).
Qed.

Lemma lastByte_Some (s : string) (ch : ascii) :
  lastByte s = Some ch -> exists body, s = body ++ String ch "".
Proof.
  induction s as [|d s IH]; [discriminate |].
  destruct s as [|e s].
  - intros [= ->]. now exists "".
  - intros H. destruct (IH H) as (body & ->). now exists (String d body).
Qed.

Lemma parseLine_empty file lineNo : knownhosts.parseLine file lineNo "" = None.
Proof. reflexivity. Qed.

(** The store after an append holds the records it held, in their places,
    and the new record after them. *)
Lemma load_appendRecord file old h key :
  recordable h key = true ->
  exists lineNo,
    knownhosts.load file (appendRecord old (knownhosts.Line [h] key))
    = (knownhosts.load file old
       ++ [{| knownhosts.hostname := h; knownhosts.keyType := pk_Type key;
              knownhosts.keyBytes := pk_Marshal key;
              knownhosts.sourceFile := file;
              knownhosts.sourceLine := lineNo |}])%list.
Proof.
  intros Hrec. unfold knownhosts.load, appendRecord.
  pose proof (Line_one_line h key Hrec) as Hone.
  assert (Htail : forall n,
    knownhosts.loadLines file n
      (splitOn "010" (knownhosts.Line [h] key ++ nl))
    = [{| knownhosts.hostname := h; knownhosts.keyType := pk_Type key;
          knownhosts.keyBytes := pk_Marshal key;
          knownhosts.sourceFile := file; knownhosts.sourceLine := n |}]).
  { intros n. change nl with (String "010" ""). rewrite splitOn_append.
    rewrite (splitOn_clean _ _ Hone). cbn [app splitOn knownhosts.loadLines].
    now rewrite (parseLine_Line file n h key Hrec). }
  destruct (nonEmpty old) eqn:Hne; cbn [andb].
  - destruct (HasSuffixNl old) eqn:Hsuf; cbn [negb].
    + unfold HasSuffixNl in Hsuf.
      destruct (lastByte old) as [ch|] eqn:Hlast; [| discriminate].
      apply Ascii.eqb_eq in Hsuf as ->.
      destruct (lastByte_Some _ _ Hlast) as (body & ->).
      rewrite !append_assoc. rewrite !splitOn_append.
      change (String "010" "" ++ knownhosts.Line [h] key ++ nl)
        with (String "010" (knownhosts.Line [h] key ++ nl)).
      rewrite splitOn_append, !loadLines_app. cbn [splitOn].
      eexists. rewrite Htail. cbn [knownhosts.loadLines].
      rewrite parseLine_empty, app_nil_r. reflexivity.
    + rewrite !append_assoc.
      change (nl ++ knownhosts.Line [h] key ++ nl)
        with (String "010" (knownhosts.Line [h] key ++ nl)).
      rewrite splitOn_append, loadLines_app. eexists. now rewrite Htail.
  - destruct old; [| discriminate]. cbn [append]. eexists.
    rewrite Htail. reflexivity.
Qed.

(** ** Further properties of the verifier *)

Section VerifierFurther.

Variable FingerprintSHA256 : PublicKey -> string.

Lemma sameEnv_trans w2 w1 w : sameEnv w2 w1 -> sameEnv w1 w -> sameEnv w2 w.
Proof. unfold sameEnv. intuition congruence. Qed.

(** X5: a key that conflicts with the store (the host is on record with
    other keys) or a store that cannot be read makes every call fail, under
    every policy, whatever standard input is and whatever the user would
    answer: nothing is read from the terminal, locked or written. *)
Theorem conflicting_key_never_accepted c h r key w :
  storeOutcome w (resolvedPath c w) h key = Some knownhosts.Changed
  \/ storeOutcome w (resolvedPath c w) h key = None ->
  exists err w',
    hostKeyCallback FingerprintSHA256 c h r key w = (Some err, w')
    /\ sameEnv w' w.
Proof.
  intros Ho.
  destruct (nonEmpty (resolvedPath c w)) eqn:Hp.
  2:{ destruct (hostKeyCallback_unconfigured FingerprintSHA256 c h r key w Hp)
        as (w' & -> & He & _). eauto. }
  destruct (Stdin_eq_dec (stdin w) (Terminal false)) as [Hs | Hs].
  { destruct (hostKeyCallback_rawModeFails FingerprintSHA256 c h r key w Hp Hs)
      as (w' & -> & He & _). eauto. }
  destruct (hostKeyCallback_body FingerprintSHA256 c h r key w Hp Hs)
    as (w1 & Henv & Htr & ->).
  rewrite <- !(storeOutcome_env _ _ _ _ _ Henv) in Ho.
  destruct Ho as [Ho | Ho].
  - rewrite (verify_changed FingerprintSHA256 c h r key _ _ w1 Ho).
    destruct (printError_effect (termOf w)
                (mismatchHead FingerprintSHA256 key (resolvedPath c w)
                 ++ mismatchTail key (wanted w1 (resolvedPath c w) h))
                (emit (EvLoadStore (resolvedPath c w)) w1)) as (He & _).
    destruct (printError (termOf w) _ _) as [[perr|] w2]; cbn [fst snd] in *;
      (eexists _, _; split; [reflexivity |];
       apply sameEnv_closeRaw; eapply sameEnv_trans; [exact He | exact Henv]).
  - rewrite (verify_unreadable FingerprintSHA256 c h r key _ _ w1 Ho).
    cbn [fst snd]. eexists _, _. split; [reflexivity |].
    now apply sameEnv_closeRaw, sameEnv_emit.
Qed.

(** The loop breaks only on a line that reads yes. *)
Lemma promptLoop_None t input w w' :
  promptLoop t input w = (None, w') ->
  exists pre line,
    input = (pre ++ line :: termInput w')%list
    /\ forallb otherAnswer pre = true
    /\ ToLower line = "yes".
Proof.
  revert w. induction input as [|l rest IH]; intros w; [discriminate |].
  cbn [promptLoop]. destruct (String.eqb (ToLower l) "yes") eqn:Hy.
  - intros [= <-]. exists [], l. cbn. apply String.eqb_eq in Hy. now repeat split.
  - destruct (String.eqb (ToLower l) "no") eqn:Hn; [discriminate |].
    intros H. apply IH in H as (pre & line & -> & Hpre & Hline).
    exists (l :: pre), line. cbn [app forallb]. unfold otherAnswer at 1.
    rewrite Hy, Hn. now repeat split.
Qed.

(** The append never touches the pending terminal input, and returns nil
    only after the file has been replaced or when the path is the discard
    sink. *)
Lemma persist_result path h key warnAdd term w :
  let new := appendRecord (contents w path) (knownhosts.Line [h] key) in
  let res := persist path h key warnAdd (printError term) w in
  termInput (snd res) = termInput w
  /\ (fst res = None ->
      String.eqb path os_DevNull = false ->
      files (snd res) = <[path := Regular new]> (files w)).
Proof.
  intros new res. subst new res.
  unfold persist, mutex_Acquire, ioutil_ReadFile, utils_AtomicWriteFile,
    warnAndReturn, contents, printError, Fprint.
  destruct (String.eqb path os_DevNull) eqn:Hdev; cbn [negb].
  - destruct warnAdd; [destruct term as [t|]; [destruct (termWritable w) |] |];
      cbn [fst snd]; (split; [reflexivity | discriminate]).
  - destruct (mutex w) eqn:Hm; try (cbn; split; [reflexivity | discriminate]).
    cbn [files emit setMutex].
    destruct (files w !! path) as [[data|]|];
      cbn [os_IsNotExist negb errors_Trace dirWritable emit setMutex fst snd];
      try (split; [reflexivity | discriminate]);
      (destruct (dirWritable w);
       [ destruct warnAdd;
         [destruct term as [t|];
          cbn [termWritable emit setFiles setMutex];
          [destruct (termWritable w) |] |];
         cbn [fst snd]; (split; reflexivity)
       | cbn; split; [reflexivity | discriminate] ]).
Qed.

Lemma closeRaw_fields w0 w1 :
  files (closeRaw w0 w1) = files w1
  /\ termInput (closeRaw w0 w1) = termInput w1
  /\ mutex (closeRaw w0 w1) = mutex w1.
Proof. unfold closeRaw. now destruct (stdin w0). Qed.

(** X6: under the Default or the Ask policy a key that is not Matched is
    accepted only on a terminal and only after a line reading yes, in any
    case, has been taken from it, every line before it being neither yes
    nor no. *)
Theorem unmatched_acceptance_needs_yes c h r key w w' :
  strictHostKeyChecking c = StrictHostChecksDefault
  \/ strictHostKeyChecking c = StrictHostChecksAsk ->
  storeOutcome w (resolvedPath c w) h key <> Some knownhosts.Matched ->
  hostKeyCallback FingerprintSHA256 c h r key w = (None, w') ->
  stdin w = Terminal true
  /\ exists pre line,
      termInput w = (pre ++ line :: termInput w')%list
      /\ forallb otherAnswer pre = true
      /\ ToLower line = "yes".
Proof.
  intros Hpol Hnm Hres.
  destruct (nonEmpty (resolvedPath c w)) eqn:Hp.
  2:{ destruct (hostKeyCallback_unconfigured FingerprintSHA256 c h r key w Hp)
        as (w0 & E & _). congruence. }
  destruct (Stdin_eq_dec (stdin w) (Terminal false)) as [Hs | Hs].
  { destruct (hostKeyCallback_rawModeFails FingerprintSHA256 c h r key w Hp Hs)
      as (w0 & E & _). congruence. }
  destruct (hostKeyCallback_body FingerprintSHA256 c h r key w Hp Hs)
    as (w1 & Henv & Htr & E).
  rewrite E in Hres. clear E. injection Hres as Hres Hw'.
  rewrite <- (storeOutcome_env _ _ _ _ _ Henv) in Hnm.
  destruct (storeOutcome w1 (resolvedPath c w) h key) as [[| |]|] eqn:Ho.
  - congruence.
  - rewrite (verify_unknown FingerprintSHA256 c h r key _ _ w1 Ho) in Hres, Hw'.
    unfold termOf in *. destruct (stdin w) as [|[|]] eqn:Hst; [| | congruence].
    + unfold strictnessSwitch in Hres. destruct Hpol as [Hpol | Hpol];
        rewrite Hpol in Hres; discriminate.
    + split; [reflexivity |].
      destruct (strictnessSwitch_ask FingerprintSHA256 c h r key stdinTerminal
                  (emit (EvLoadStore (resolvedPath c w)) w1) Hpol)
        as (w2 & Henv2 & _ & E).
      rewrite E in Hres, Hw'. clear E.
      destruct (promptLoop stdinTerminal
                  (termInput (emit (EvLoadStore (resolvedPath c w)) w1)) w2)
        as [[err|] w3] eqn:Hloop; [discriminate |].
      apply promptLoop_None in Hloop as (pre & line & Hin & Hpre & Hline).
      exists pre, line. split; [| now split].
      destruct (persist_result (resolvedPath c w) h key false
                  (Some stdinTerminal) w3) as (Hti & _).
      cbn [termInput emit] in Hin. destruct Henv as (_ & _ & _ & <- & _).
      rewrite Hin. do 2 f_equal. rewrite <- Hw'.
      destruct (closeRaw_fields w
                  (snd (persist (resolvedPath c w) h key false
                          (printError (Some stdinTerminal)) w3))) as (_ & -> & _).
      now rewrite Hti.
  - rewrite (verify_changed FingerprintSHA256 c h r key _ _ w1 Ho) in Hres.
    now destruct (printError (termOf w) _ _) as [[perr|] w2].
  - now rewrite (verify_unreadable FingerprintSHA256 c h r key _ _ w1 Ho) in Hres.
Qed.

Lemma persist_config path h key warnAdd term w :
  let res := persist path h key warnAdd (printError term) w in
  goCryptoKnownHostsFile (snd res) = goCryptoKnownHostsFile w
  /\ stdin (snd res) = stdin w.
Proof.
  intros res. subst res.
  unfold persist, mutex_Acquire, ioutil_ReadFile, utils_AtomicWriteFile,
    warnAndReturn, printError, Fprint.
  destruct (String.eqb path os_DevNull); cbn [negb].
  - destruct warnAdd; [destruct term as [t|]; [destruct (termWritable w) |] |];
      cbn [snd]; (split; reflexivity).
  - destruct (mutex w); try (cbn; split; reflexivity).
    cbn [files emit setMutex].
    destruct (files w !! path) as [[data|]|];
      cbn [os_IsNotExist negb errors_Trace dirWritable emit setMutex fst snd];
      try (split; reflexivity);
      (destruct (dirWritable w);
       [ destruct warnAdd;
         [destruct term as [t|];
          cbn [termWritable emit setFiles setMutex];
          [destruct (termWritable w) |] |];
         cbn [fst snd]; (split; reflexivity)
       | cbn; split; reflexivity ]).
Qed.

Lemma closeRaw_config w0 w1 :
  goCryptoKnownHostsFile (closeRaw w0 w1) = goCryptoKnownHostsFile w1
  /\ stdin (closeRaw w0 w1) = stdin w1.
Proof. unfold closeRaw. now destruct (stdin w0). Qed.

(** A call that returns nil has found the key Matched and left the files
    alone, or has found the host Unknown and, unless the path is the discard
    sink, replaced the file by its bytes with the record appended. *)
Lemma accepted_call c h r key w w' :
  hostKeyCallback FingerprintSHA256 c h r key w = (None, w') ->
  let path := resolvedPath c w in
  nonEmpty path = true
  /\ stdin w <> Terminal false
  /\ goCryptoKnownHostsFile w' = goCryptoKnownHostsFile w
  /\ stdin w' = stdin w
  /\ ((storeOutcome w path h key = Some knownhosts.Matched /\ files w' = files w)
      \/ (storeOutcome w path h key = Some knownhosts.Unknown
          /\ (String.eqb path os_DevNull = false ->
              files w' =
                <[path := Regular (appendRecord (contents w path)
                                     (knownhosts.Line [h] key))]> (files w)))).
Proof.
  intros Hres path. subst path.
  destruct (nonEmpty (resolvedPath c w)) eqn:Hp.
  2:{ destruct (hostKeyCallback_unconfigured FingerprintSHA256 c h r key w Hp)
        as (w0 & E & _). congruence. }
  destruct (Stdin_eq_dec (stdin w) (Terminal false)) as [Hs | Hs].
  { destruct (hostKeyCallback_rawModeFails FingerprintSHA256 c h r key w Hp Hs)
      as (w0 & E & _). congruence. }
  split; [reflexivity |]. split; [exact Hs |].
  destruct (hostKeyCallback_body FingerprintSHA256 c h r key w Hp Hs)
    as (w1 & Henv & Htr & E).
  rewrite E in Hres. clear E. injection Hres as Hres Hw'.
  rewrite <- (storeOutcome_env _ _ _ _ _ Henv).
  pose proof Henv as (Hg1 & Hs1 & _ & _ & Hf1 & _).
  destruct (storeOutcome w1 (resolvedPath c w) h key) as [[| |]|] eqn:Ho.
  - rewrite (verify_matched FingerprintSHA256 c h r key _ _ w1 Ho) in Hw'.
    cbn [snd] in Hw'. subst w'.
    destruct (closeRaw_config w (emit (EvLoadStore (resolvedPath c w)) w1))
      as (-> & ->).
    destruct (closeRaw_fields w (emit (EvLoadStore (resolvedPath c w)) w1))
      as (-> & _).
    cbn [goCryptoKnownHostsFile stdin files emit]. auto.
  - rewrite (verify_unknown FingerprintSHA256 c h r key _ _ w1 Ho) in Hres, Hw'.
    destruct (strictnessSwitch_effect FingerprintSHA256 c h r key (termOf w)
                (emit (EvLoadStore (resolvedPath c w)) w1)) as (Hs2 & _).
    destruct (strictnessSwitch FingerprintSHA256 c h r key (termOf w)
                (emit (EvLoadStore (resolvedPath c w)) w1))
      as [[e | warnAdd] w2]; [discriminate |].
    cbn [snd] in Hs2. destruct Hs2 as (Hg2 & Hst2 & _ & Hf2 & _).
    cbn [goCryptoKnownHostsFile stdin files emit] in Hg2, Hst2, Hf2.
    destruct (persist_result (resolvedPath c w) h key warnAdd (termOf w) w2)
      as (_ & Hfiles).
    destruct (persist_config (resolvedPath c w) h key warnAdd (termOf w) w2)
      as (Hg3 & Hst3).
    set (w3 := snd (persist (resolvedPath c w) h key warnAdd
                      (printError (termOf w)) w2)) in *.
    destruct (closeRaw_config w w3) as (Hg4 & Hst4).
    destruct (closeRaw_fields w w3) as (Hf4 & _).
    subst w'. rewrite Hg4, Hst4, Hg3, Hst3, Hg2, Hst2, Hg1, Hs1.
    split; [reflexivity |]. split; [reflexivity |]. right.
    split; [reflexivity |]. intros Hdev.
    rewrite Hf4, (Hfiles Hres Hdev). unfold contents. now rewrite Hf2, Hf1.
  - rewrite (verify_changed FingerprintSHA256 c h r key _ _ w1 Ho) in Hres.
    now destruct (printError (termOf w) _ _) as [[perr|] w2].
  - now rewrite (verify_unreadable FingerprintSHA256 c h r key _ _ w1 Ho) in Hres.
Qed.

(** X7: a key that was not already Matched is accepted only once its
    record is in the store: whenever the call returns nil and the path is
    not the discard sink, the file at the path is its former bytes with the
    record appended, under every policy and every answer. *)
Theorem acceptance_implies_persisted c h r key w w' :
  storeOutcome w (resolvedPath c w) h key <> Some knownhosts.Matched ->
  String.eqb (resolvedPath c w) os_DevNull = false ->
  hostKeyCallback FingerprintSHA256 c h r key w = (None, w') ->
  files w' =
    <[resolvedPath c w :=
        Regular (appendRecord (contents w (resolvedPath c w))
                   (knownhosts.Line [h] key))]> (files w).
Proof.
  intros Hnm Hdev Hres.
  destruct (accepted_call c h r key w w' Hres)
    as (_ & _ & _ & _ & [[Hm _] | [_ Hf]]); [congruence | exact (Hf Hdev)].
Qed.

Lemma classify_appended records file lineNo h key :
  knownhosts.classify
    (records ++ [{| knownhosts.hostname := h; knownhosts.keyType := pk_Type key;
                    knownhosts.keyBytes := pk_Marshal key;
                    knownhosts.sourceFile := file;
                    knownhosts.sourceLine := lineNo |}])%list h key
  = knownhosts.Matched.
Proof.
  eapply classify_matched_of_record;
    [apply in_or_app; right; left; reflexivity | reflexivity ..].
Qed.

(** X8: trust on first use.  Whenever a call has returned nil for a host
    name and a key that can stand in a record line, and the path is not the
    discard sink, the store at the path classifies the key as Matched
    afterwards -- whatever the file held before, terminated by a line feed or
    not -- and the same call made again returns nil without a prompt: it
    only loads the store, and leaves the files and the pending input as
    they are. *)
Theorem accepted_key_is_matched_afterwards c h r key w w' :
  recordable h key = true ->
  String.eqb (resolvedPath c w) os_DevNull = false ->
  hostKeyCallback FingerprintSHA256 c h r key w = (None, w') ->
  let path := resolvedPath c w in
  storeOutcome w' path h key = Some knownhosts.Matched
  /\ exists w'',
      hostKeyCallback FingerprintSHA256 c h r key w' = (None, w'')
      /\ files w'' = files w'
      /\ termInput w'' = termInput w'
      /\ trace w'' =
         (trace w' ++ rawOpen w' ++ [EvLoadStore path] ++ rawClose w')%list.
Proof.
  intros Hrec Hdev Hres path.
  destruct (accepted_call c h r key w w' Hres) as (Hp & Hs & Hg & Hst & Hcase).
  fold path in Hp, Hcase, Hdev.
  assert (Hm : storeOutcome w' path h key = Some knownhosts.Matched).
  { destruct Hcase as [[Hm Hf] | [_ Hf]].
    - unfold storeOutcome in *. now rewrite Hf.
    - unfold storeOutcome. rewrite (Hf Hdev), lookup_insert_eq.
      destruct (load_appendRecord path (contents w path) h key Hrec)
        as (lineNo & ->).
      now rewrite classify_appended. }
  split; [exact Hm |].
  assert (Hpath : resolvedPath c w' = path).
  { unfold path, resolvedPath. now rewrite Hg. }
  assert (Hp' : nonEmpty (resolvedPath c w') = true) by now rewrite Hpath.
  assert (Hs' : stdin w' <> Terminal false) by now rewrite Hst.
  destruct (hostKeyCallback_body FingerprintSHA256 c h r key w' Hp' Hs')
    as (w1 & Henv & Htr & ->).
  rewrite Hpath. rewrite <- (storeOutcome_env _ _ _ _ _ Henv) in Hm.
  rewrite (verify_matched FingerprintSHA256 c h r key _ (termOf w') w1 Hm).
  cbn [fst snd]. eexists. split; [reflexivity |].
  destruct (closeRaw_fields w' (emit (EvLoadStore path) w1)) as (-> & -> & _).
  destruct Henv as (_ & _ & _ & Hi & Hf & _).
  split; [exact Hf |]. split; [exact Hi |].
  rewrite trace_closeRaw. cbn [trace emit]. rewrite Htr.
  now rewrite <- !app_assoc.
Qed.

Lemma persist_lock_fails path h key warnAdd pe w :
  String.eqb path os_DevNull = false ->
  mutex w <> Free ->
  persist path h key warnAdd pe w = (Some ErrMutex, w).
Proof.
  intros Hdev Hm. unfold persist, mutex_Acquire. rewrite Hdev. cbn [negb].
  now destruct (mutex w).
Qed.

Lemma persist_write_fails path h key warnAdd pe w :
  String.eqb path os_DevNull = false ->
  mutex w = Free ->
  dirWritable w = false ->
  files w !! path <> Some Unreadable ->
  exists w',
    persist path h key warnAdd pe w = (Some (ErrPermission path), w')
    /\ sameEnv w' w
    /\ trace w' =
       (trace w ++ [EvAcquire "juju-ssh-client"; EvReadFile path;
                    EvRelease "juju-ssh-client"])%list.
Proof.
  intros Hdev Hm Hd Hf.
  unfold persist, mutex_Acquire, ioutil_ReadFile, utils_AtomicWriteFile.
  rewrite Hdev, Hm. cbn [negb files emit setMutex].
  destruct (files w !! path) as [[data|]|]; [| congruence |];
    cbn [os_IsNotExist negb errors_Trace dirWritable emit setMutex];
    rewrite Hd; (eexists; split; [reflexivity |]; split;
                 [unfold sameEnv; cbn; now rewrite Hm
                 | cbn; now rewrite <- !app_assoc]).
Qed.

(** X9: when a new key has been accepted under the Disabled policy but
    cannot be persisted, the call fails: with the error of the mutex when
    the lock cannot be taken, before the file is read; with the error of the
    write when the write fails, the lock being released again.  In both
    cases no file changes and no "permanently added" warning is printed. *)
Theorem persistence_failure_is_reported c h r key w :
  strictHostKeyChecking c = StrictHostChecksNo ->
  nonEmpty (resolvedPath c w) = true ->
  String.eqb (resolvedPath c w) os_DevNull = false ->
  stdin w <> Terminal false ->
  storeOutcome w (resolvedPath c w) h key = Some knownhosts.Unknown ->
  let path := resolvedPath c w in
  (mutex w <> Free ->
   exists w',
     hostKeyCallback FingerprintSHA256 c h r key w = (Some ErrMutex, w')
     /\ sameEnv w' w
     /\ trace w' = (trace w ++ rawOpen w ++ [EvLoadStore path] ++ rawClose w)%list)
  /\ (mutex w = Free ->
      dirWritable w = false ->
      exists w',
        hostKeyCallback FingerprintSHA256 c h r key w
        = (Some (ErrPermission path), w')
        /\ sameEnv w' w
        /\ trace w' =
           (trace w ++ rawOpen w
            ++ [EvLoadStore path; EvAcquire "juju-ssh-client"; EvReadFile path;
                EvRelease "juju-ssh-client"]
            ++ rawClose w)%list).
Proof.
  intros Hpol Hp Hdev Hs Ho path.
  destruct (hostKeyCallback_body FingerprintSHA256 c h r key w Hp Hs)
    as (w1 & Henv & Htr & ->).
  fold path in Ho, Hdev |- *.
  rewrite <- (storeOutcome_env _ _ _ _ _ Henv) in Ho.
  rewrite (verify_unknown FingerprintSHA256 c h r key _ _ w1 Ho).
  rewrite (strictnessSwitch_no FingerprintSHA256 c h r key _ _ Hpol).
  pose proof Henv as (_ & _ & _ & _ & Hf & Hmu & Hdw).
  split.
  - intros Hm.
    rewrite persist_lock_fails by (cbn; congruence). cbn [fst snd].
    eexists. split; [reflexivity |]. split.
    + now apply sameEnv_closeRaw, sameEnv_emit.
    + rewrite trace_closeRaw. cbn [trace emit]. rewrite Htr.
      now rewrite <- !app_assoc.
  - intros Hm Hd.
    assert (Hread : files (emit (EvLoadStore path) w1) !! path <> Some Unreadable).
    { cbn [files emit]. unfold storeOutcome in Ho.
      destruct (files w1 !! path) as [[d|]|]; congruence. }
    destruct (persist_write_fails path h key true (printError (termOf w))
                (emit (EvLoadStore path) w1) Hdev
                ltac:(cbn; congruence) ltac:(cbn; congruence) Hread)
      as (w2 & -> & He2 & Ht2).
    cbn [fst snd]. eexists. split; [reflexivity |]. split.
    + apply sameEnv_closeRaw. eapply sameEnv_trans; [exact He2 |].
      now apply sameEnv_emit.
    + rewrite trace_closeRaw, Ht2. cbn [trace emit]. rewrite Htr.
      now rewrite <- !app_assoc.
Qed.

Lemma persist_discards h key warnAdd term w :
  exists w',
    persist os_DevNull h key warnAdd (printError term) w = (None, w')
    /\ sameEnv w' w
    /\ trace w' = (trace w ++ warnEvents warnAdd term (termWritable w) h key)%list.
Proof.
  unfold persist. change (String.eqb os_DevNull os_DevNull) with true.
  cbn [negb]. unfold warnAndReturn, warnEvents.
  destruct warnAdd.
  - fold (addedWarning h key).
    destruct term as [t|]; unfold printError, Fprint.
    + destruct (termWritable w); cbn [snd];
        (eexists; split; [reflexivity |]; split; [done |]);
        cbn [trace emit]; now rewrite ?app_nil_r.
    + cbn [snd]. eexists. split; [reflexivity |]. split; [done |]. reflexivity.
  - eexists. split; [reflexivity |]. split; [done |]. now rewrite app_nil_r.
Qed.

(** X10: when the known_hosts path is the discard sink, an unknown host is
    accepted under the Disabled policy without taking the lock and without
    reading or writing any file beyond the load of the store; the warning is
    still printed. *)
Theorem discard_sink_is_not_written c h r key w :
  strictHostKeyChecking c = StrictHostChecksNo ->
  resolvedPath c w = os_DevNull ->
  stdin w <> Terminal false ->
  storeOutcome w os_DevNull h key = Some knownhosts.Unknown ->
  exists w',
    hostKeyCallback FingerprintSHA256 c h r key w = (None, w')
    /\ sameEnv w' w
    /\ trace w' =
       (trace w ++ rawOpen w ++ [EvLoadStore os_DevNull]
        ++ warnEvents true (termOf w) (termWritable w) h key
        ++ rawClose w)%list.
Proof.
  intros Hpol Hpath Hs Ho.
  assert (Hp : nonEmpty (resolvedPath c w) = true) by now rewrite Hpath.
  destruct (hostKeyCallback_body FingerprintSHA256 c h r key w Hp Hs)
    as (w1 & Henv & Htr & ->).
  rewrite Hpath.
  rewrite <- (storeOutcome_env _ _ _ _ _ Henv) in Ho.
  rewrite (verify_unknown FingerprintSHA256 c h r key _ _ w1 Ho).
  rewrite (strictnessSwitch_no FingerprintSHA256 c h r key _ _ Hpol).
  pose proof Henv as (_ & _ & Hw & _).
  destruct (persist_discards h key true (termOf w)
              (emit (EvLoadStore os_DevNull) w1)) as (w2 & -> & He2 & Ht2).
  cbn [fst snd]. eexists. split; [reflexivity |]. split.
  - apply sameEnv_closeRaw. eapply sameEnv_trans; [exact He2 |].
    now apply sameEnv_emit.
  - rewrite trace_closeRaw, Ht2. cbn [trace emit termWritable].
    rewrite Htr, Hw. now rewrite <- !app_assoc.
Qed.

Lemma appendRecord_prefix old line :
  exists suffix, appendRecord old line = old ++ suffix.
Proof.
  unfold appendRecord.
  destruct (nonEmpty old && negb (HasSuffixNl old)); eexists;
    rewrite ?append_assoc; reflexivity.
Qed.

(** X11: no call removes or rewrites what a file holds: for every path the
    former bytes are a prefix of the bytes after the call, a file that
    existed still exists, and every file other than the store at the
    configured path is exactly as before. *)
Theorem store_only_grows c h r key w (p : string) :
  let w' := snd (hostKeyCallback FingerprintSHA256 c h r key w) in
  (exists suffix, contents w' p = contents w p ++ suffix)
  /\ (is_Some (files w !! p) -> is_Some (files w' !! p))
  /\ (p <> resolvedPath c w -> files w' !! p = files w !! p).
Proof.
  intros w'. subst w'.
  destruct (hostKeyCallback_effect FingerprintSHA256 c h r key w)
    as (_ & evs & _ & [[_ Hf] | (_ & Hf & _)]).
  - unfold contents. rewrite Hf. split; [| split]; [| tauto | reflexivity].
    exists "". now rewrite append_empty_r.
  - unfold contents. rewrite Hf.
    destruct (decide (resolvedPath c w = p)) as [<- | Hne].
    + rewrite lookup_insert_eq. split; [| split]; [| eauto | congruence].
      apply appendRecord_prefix.
    + rewrite lookup_insert_ne by exact Hne. split; [| split]; [| tauto | reflexivity].
      exists "". now rewrite append_empty_r.
Qed.

(** X12: a call without a per-connection known_hosts file behaves exactly
    as a call whose per-connection file is the process-wide default that
    [SetGoCryptoKnownHostsFile] set last: same result, same final world. *)
Theorem default_path_is_used c h r key w (file : string) :
  knownHostsFile c = "" ->
  let w1 := snd (SetGoCryptoKnownHostsFile file w) in
  hostKeyCallback FingerprintSHA256 c h r key w1
  = hostKeyCallback FingerprintSHA256
      {| knownHostsFile := file;
         strictHostKeyChecking := strictHostKeyChecking c |} h r key w1.
Proof.
  intros Hc w1. subst w1. destruct w as [m f st tw ti fs mu dw tr].
  unfold hostKeyCallback, GoCryptoKnownHostsFile, SetGoCryptoKnownHostsFile,
    sync_Lock, sync_Unlock, setKnownHostsMutex, setKnownHostsFile.
  rewrite Hc.
  cbn [fst snd goCryptoKnownHostsFile goCryptoKnownHostsMutex stdin termWritable
       termInput files mutex dirWritable trace knownHostsFile].
  change (nonEmpty "") with false.
  destruct (nonEmpty file) eqn:Hf; cbn [negb]; rewrite ?Hf; cbn [negb];
    [| reflexivity].
  unfold verify, strictnessSwitch. reflexivity.
Qed.

Lemma terminalEffect_refl w : terminalEffect w w [].
Proof. unfold terminalEffect. now rewrite app_nil_r. Qed.

Lemma rawEvents_app (a b : list Event) :
  rawEvents (a ++ b)%list = (rawEvents a ++ rawEvents b)%list.
Proof. apply List.filter_app. Qed.

Lemma readLines_app (a b : list Event) :
  readLines (a ++ b)%list = (readLines a ++ readLines b)%list.
Proof. apply List.flat_map_app. Qed.

Lemma terminalEffect_trans w w1 w2 evs1 evs2 :
  terminalEffect w w1 evs1 -> terminalEffect w1 w2 evs2 ->
  terminalEffect w w2 (evs1 ++ evs2).
Proof.
  intros (Ht1 & Hr1 & Hi1) (Ht2 & Hr2 & Hi2). unfold terminalEffect.
  rewrite Ht2, Ht1, rawEvents_app, readLines_app, Hr1, Hr2, Hi1, Hi2.
  now rewrite <- !app_assoc.
Qed.

Lemma terminalEffect_emit e w :
  isRawEvent e = false -> readLines [e] = [] ->
  terminalEffect w (emit e w) [e].
Proof.
  intros He Hl. unfold terminalEffect, rawEvents. cbn [List.filter].
  rewrite He, Hl. done.
Qed.

Lemma terminalEffect_ReadLine line rest w :
  termInput w = line :: rest ->
  terminalEffect w (emit (EvReadLine line) (setTermInput rest w)) [EvReadLine line].
Proof. intros Hi. unfold terminalEffect. now rewrite Hi. Qed.

Lemma Fprint_terminal t text w :
  exists evs, terminalEffect w (snd (Fprint t text w)) evs.
Proof.
  unfold Fprint. destruct (termWritable w); cbn [snd].
  - eexists. now apply terminalEffect_emit.
  - eexists. apply terminalEffect_refl.
Qed.

Lemma printError_terminal term message w :
  exists evs, terminalEffect w (snd (printError term message w)) evs.
Proof.
  destruct term as [t|]; [apply Fprint_terminal |].
  cbn. eexists. now apply terminalEffect_emit.
Qed.

Lemma promptLoop_terminal t w :
  exists evs, terminalEffect w (snd (promptLoop t (termInput w) w)) evs.
Proof.
  remember (termInput w) as input eqn:Hin. revert w Hin.
  induction input as [|line rest IH]; intros w Hin.
  - cbn. eexists. apply terminalEffect_refl.
  - cbn [promptLoop].
    pose proof (terminalEffect_ReadLine line rest w (eq_sym Hin)) as Hread.
    destruct (String.eqb (ToLower line) "yes");
      [| destruct (String.eqb (ToLower line) "no")]; cbn [snd]; eauto.
    destruct (Fprint_terminal t "Please type 'yes' or 'no': "
                (emit (EvReadLine line) (setTermInput rest w))) as (evs1 & H1).
    assert (Hrest : rest = termInput (snd (Fprint t "Please type 'yes' or 'no': "
                (emit (EvReadLine line) (setTermInput rest w))))).
    { unfold Fprint. cbn [termWritable emit setTermInput].
      now destruct (termWritable w). }
    destruct (IH _ Hrest) as (evs2 & H2).
    eexists. eapply terminalEffect_trans; [exact Hread |].
    eapply terminalEffect_trans; [exact H1 | exact H2].
Qed.

Lemma strictnessSwitch_terminal c h r key term w :
  exists evs,
    terminalEffect w (snd (strictnessSwitch FingerprintSHA256 c h r key term w)) evs.
Proof.
  unfold strictnessSwitch.
  destruct (strictHostKeyChecking c); destruct term as [t|]; cbn [snd];
    try (eexists; apply terminalEffect_refl);
    try (eexists; now apply terminalEffect_emit).
  all: match goal with
       | |- context [Fprint ?t0 ?text ?w0] =>
           destruct (Fprint_terminal t0 text w0) as (evs1 & H1);
           destruct (promptLoop_terminal t0 (snd (Fprint t0 text w0))) as (evs2 & H2);
           destruct (promptLoop t0 (termInput (snd (Fprint t0 text w0)))
                       (snd (Fprint t0 text w0))) as [[err|] w2]
       end; cbn [snd] in *; eexists; eapply terminalEffect_trans; eassumption.
Qed.

Lemma checkHostKey_terminal h r key path term w :
  exists evs,
    terminalEffect w
      (snd (checkHostKey FingerprintSHA256 h r key path (printError term) w)) evs.
Proof.
  unfold checkHostKey, knownhosts_New.
  assert (H0 : terminalEffect w (emit (EvLoadStore path) w) [EvLoadStore path])
    by now apply terminalEffect_emit.
  destruct (files w !! path) as [[data|]|]; cbn [os_IsNotExist snd]; eauto.
  destruct (knownhosts.check (knownhosts.load path data) h r key) as [[]|];
    cbn [snd]; eauto.
  destruct (length Want =? 0)%nat; cbn [snd]; eauto.
  match goal with
  | |- context [printError term ?m ?w0] =>
      destruct (printError_terminal term m w0) as (evs1 & H1);
      destruct (printError term m w0) as [[perr|] w2]
  end; cbn [snd] in *; eexists; eapply terminalEffect_trans; eassumption.
Qed.

Lemma terminalEffect_direct w w' evs :
  trace w' = (trace w ++ evs)%list ->
  termInput w' = termInput w ->
  rawEvents evs = [] -> readLines evs = [] ->
  terminalEffect w w' evs.
Proof. intros Ht Hi Hr Hl. unfold terminalEffect. now rewrite Ht, Hr, Hl, Hi. Qed.

Lemma terminalEffect_fields w w' evs b :
  trace w' = (trace b ++ evs)%list ->
  termInput w' = termInput b ->
  rawEvents evs = [] -> readLines evs = [] ->
  forall evs0, terminalEffect w b evs0 -> terminalEffect w w' (evs0 ++ evs).
Proof.
  intros Ht Hi Hr Hl evs0 H0. eapply terminalEffect_trans; [exact H0 |].
  now apply terminalEffect_direct.
Qed.

Lemma warnAndReturn_terminal warnAdd term h key w :
  exists evs,
    terminalEffect w (snd (warnAndReturn warnAdd (printError term) h key w)) evs.
Proof.
  unfold warnAndReturn. destruct warnAdd; cbn [snd].
  - apply printError_terminal.
  - eexists. apply terminalEffect_refl.
Qed.

Lemma persist_terminal path h key warnAdd term w :
  exists evs,
    terminalEffect w (snd (persist path h key warnAdd (printError term) w)) evs.
Proof.
  unfold persist.
  destruct (negb (String.eqb path os_DevNull)); [| apply warnAndReturn_terminal].
  unfold mutex_Acquire.
  destruct (mutex w); cbn [snd errors_Trace];
    try (eexists; apply terminalEffect_refl).
  unfold ioutil_ReadFile, utils_AtomicWriteFile, mutex_Release.
  cbn [files emit setMutex dirWritable].
  set (w1 := emit (EvReadFile path) (emit (EvAcquire "juju-ssh-client") (setMutex Held w))).
  assert (H1 : terminalEffect w w1 [EvAcquire "juju-ssh-client"; EvReadFile path]).
  { apply terminalEffect_direct; try reflexivity.
    subst w1. cbn [trace emit setMutex]. now rewrite <- app_assoc. }
  assert (Hrelease : forall w4 evs,
    terminalEffect w w4 evs ->
    terminalEffect w (emit (EvRelease "juju-ssh-client") (setMutex Free w4))
      (evs ++ [EvRelease "juju-ssh-client"])).
  { intros w4 evs H4.
    now refine (terminalEffect_fields w _ _ w4 _ _ _ _ _ H4). }
  destruct (files w !! path) as [[data|]|]; cbn [os_IsNotExist negb errors_Trace];
    try (cbn [snd]; eexists; apply Hrelease; exact H1).
  all: destruct (dirWritable w1);
    [| cbn [snd]; eexists; apply Hrelease; exact H1].
  all: match goal with
       | |- context [warnAndReturn _ _ _ _ ?w0] =>
           set (w3 := w0);
           assert (H3 : exists evs, terminalEffect w w3 evs)
             by (eexists;
                 refine (terminalEffect_fields w w3 [_; _] w1 _ _ _ _ _ H1);
                 [ subst w3; cbn [trace emit setFiles];
                   rewrite <- app_assoc; reflexivity
                 | reflexivity .. ]);
           destruct H3 as (evs3 & H3);
           destruct (warnAndReturn_terminal warnAdd term h key w3) as (evs4 & H4);
           destruct (warnAndReturn warnAdd (printError term) h key w3) as [res w4]
       end; cbn [snd] in *; eexists; apply Hrelease;
    eapply terminalEffect_trans; eassumption.
Qed.

Lemma verify_terminal c h r key path term w :
  exists evs,
    terminalEffect w (snd (verify FingerprintSHA256 c h r key path term w)) evs.
Proof.
  unfold verify.
  destruct (checkHostKey_terminal h r key path term w) as (evs1 & H1).
  destruct (checkHostKey FingerprintSHA256 h r key path (printError term) w)
    as [[matched err] w1].
  cbn [snd] in H1. destruct (isSome err || matched); cbn [snd]; eauto.
  destruct (strictnessSwitch_terminal c h r key term w1) as (evs2 & H2).
  destruct (strictnessSwitch FingerprintSHA256 c h r key term w1) as [[e|warnAdd] w2];
    cbn [snd] in *.
  - eexists. eapply terminalEffect_trans; eassumption.
  - destruct (persist_terminal path h key warnAdd term w2) as (evs3 & H3).
    eexists. eapply terminalEffect_trans; [| exact H3].
    eapply terminalEffect_trans; eassumption.
Qed.

(** X13: in every call that reaches the terminal, the terminal is put in
    raw mode before anything else happens and is restored after everything
    else, whatever the result; in between the mode is left alone, and the
    lines missing from the pending input afterwards are exactly the lines
    that the call has read, in order.  Without a terminal the mode is never
    touched. *)
Theorem terminal_restored_on_every_path c h r key w :
  nonEmpty (resolvedPath c w) = true ->
  stdin w <> Terminal false ->
  let w' := snd (hostKeyCallback FingerprintSHA256 c h r key w) in
  exists body,
    trace w' = (trace w ++ rawOpen w ++ body ++ rawClose w)%list
    /\ rawEvents body = []
    /\ termInput w = (readLines body ++ termInput w')%list.
Proof.
  intros Hp Hs w'. subst w'.
  destruct (hostKeyCallback_body FingerprintSHA256 c h r key w Hp Hs)
    as (w1 & Henv & Htr & ->).
  destruct (verify_terminal c h r key (resolvedPath c w) (termOf w) w1)
    as (body & Ht & Hr & Hi).
  destruct (verify FingerprintSHA256 c h r key (resolvedPath c w) (termOf w) w1)
    as [res w2].
  cbn [snd] in *. exists body. split; [| split; [exact Hr |]].
  - rewrite trace_closeRaw, Ht, Htr. now rewrite <- !app_assoc.
  - destruct (closeRaw_fields w w2) as (_ & Hti & _).
    destruct Henv as (_ & _ & _ & Hi1 & _). now rewrite Hti, <- Hi, Hi1.
Qed.

End VerifierFurther.
(** ** The command and its session *)

Section SessionProperties.

Variable lib : Session.Library.

Lemma openClients_snoc (t : list Session.Event) (e : Session.Event) :
  Session.openClients lib (t ++ [e])
  = Session.clientStep (negb (isSome (Session.outcome lib (t ++ [e]))))
      (length (t ++ [e])) e (Session.openClients lib t).
Proof.
  unfold Session.openClients. rewrite rev_app_distr.
  cbn [rev app Session.openClientsRev]. now rewrite rev_involutive.
Qed.

Lemma openSessions_snoc (t : list Session.Event) (e : Session.Event) :
  Session.openSessions lib (t ++ [e])
  = Session.sessionStep (negb (isSome (Session.outcome lib (t ++ [e]))))
      (length (t ++ [e])) e (Session.openSessions lib t).
Proof.
  unfold Session.openSessions. rewrite rev_app_distr.
  cbn [rev app Session.openSessionsRev]. now rewrite rev_involutive.
Qed.

Lemma filter_single (n : nat) :
  List.filter (fun i => negb (i =? n)%nat) [n] = [].
Proof. cbn. now rewrite Nat.eqb_refl. Qed.

Ltac outcomes :=
  repeat match goal with
         | |- context [Session.outcome lib ?h] =>
             let E := fresh "E" in destruct (Session.outcome lib h) eqn:E
         end.

Ltac settle :=
  unfold tidy, Session.heldClients, Session.heldSessions in *;
  cbn [Session.client Session.sess Session.setSession Session.setUser
       Session.setProxyCommand Session.SetStdio Session.handle] in *;
  rewrite ?openClients_snoc, ?openSessions_snoc;
  cbn [Session.clientStep Session.sessionStep];
  repeat match goal with
         | E : Session.outcome lib _ = _ |- _ => rewrite E
         end;
  cbn [isSome negb].

Lemma sshDialWithProxy_effect addr proxy config t :
  let '(res, proxy', t1) := Session.sshDialWithProxy lib addr proxy config t in
  Session.openSessions lib t1 = Session.openSessions lib t
  /\ Session.openClients lib t1
     = (Session.openClients lib t
        ++ match res with inl cl => [cl] | inr _ => [] end)%list.
Proof.
  unfold Session.sshDialWithProxy, Session.sshDial, Session.invoke.
  destruct (length proxy =? 0)%nat; outcomes; settle;
    now rewrite ?app_nil_r.
Qed.

Lemma ensureSession_tidy c t :
  tidy lib c t ->
  let '(res, c1, t1) := Session.ensureSession lib c t in
  tidy lib c1 t1
  /\ match res with
     | inl s => Session.sess c1 = Some s
     | inr _ => Session.sess c1 = None
     end.
Proof.
  intros Htidy. pose proof Htidy as (Hc & Hs & Hcs).
  unfold Session.ensureSession.
  destruct (Session.sess c) as [s|] eqn:Hsess; [now split |].
  assert (Hcl : Session.client c = None) by now apply Hcs.
  unfold Session.heldClients, Session.heldSessions in Hc, Hs.
  rewrite Hcl in Hc. rewrite Hsess in Hs.
  destruct (length (Session.signers c) =? 0)%nat; [now split |].
  assert (Hdial : forall c1 t1,
    Session.client c1 = None -> Session.sess c1 = None ->
    Session.openClients lib t1 = [] -> Session.openSessions lib t1 = [] ->
    let '(res, c2, t2) :=
      let config :=
        {| Session.User := Session.user c1;
           Session.HostKeyAlgorithms := Session.hostKeyAlgorithms c1;
           Session.Auth := Session.signers c1 |} in
      let '(res, proxy, t2) :=
        Session.sshDialWithProxy lib (Session.addr c1) (Session.proxyCommand c1)
          config t1 in
      let c2 := Session.setProxyCommand proxy c1 in
      match res with
      | inr e => (inr e, c2, t2)
      | inl cl =>
          let '(err, t3) := Session.invoke lib (Session.EvNewSession cl) t2 in
          match err with
          | Some e =>
              let '(_, t4) := Session.invoke lib (Session.EvClientClose cl) t3 in
              (inr e, c2, t4)
          | None =>
              let s :=
                {| Session.handle := length t3;
                   Session.Stdin := Session.WrapStdin (Session.stdin c2);
                   Session.Stdout := Session.stdout c2;
                   Session.Stderr := Session.stderr c2 |} in
              (inl s, Session.setSession (Some cl) (Some s) c2, t3)
          end
      end in
    tidy lib c2 t2
    /\ match res with
       | inl s => Session.sess c2 = Some s
       | inr _ => Session.sess c2 = None
       end).
  { intros c1 t1 Hcl1 Hs1 Hoc Hos. cbv zeta.
    pose proof (sshDialWithProxy_effect (Session.addr c1) (Session.proxyCommand c1)
                  {| Session.User := Session.user c1;
                     Session.HostKeyAlgorithms := Session.hostKeyAlgorithms c1;
                     Session.Auth := Session.signers c1 |} t1) as Hd.
    destruct (Session.sshDialWithProxy lib _ _ _ t1) as [[[cl|e] proxy] t2];
      destruct Hd as (Hd1 & Hd2); rewrite Hoc in Hd2; rewrite Hos in Hd1;
      cbn [app] in Hd2.
    - unfold Session.invoke. outcomes; (split; [| reflexivity || exact Hs1]);
        settle; rewrite ?Hd1, ?Hd2, ?Hcl1, ?Hs1; cbn [List.filter app];
        rewrite ?Nat.eqb_refl; cbn [negb];
        (split; [reflexivity |]; split; [reflexivity |]; split; congruence).
    - split; [| exact Hs1]. settle. rewrite Hd1, Hd2, Hcl1, Hs1. tauto. }
  destruct (String.eqb (Session.user c) "").
  - unfold Session.invoke at 1. cbv zeta.
    destruct (Session.outcome lib (t ++ [Session.EvCurrentUser])) eqn:E.
    + split; [| exact Hsess]. settle. rewrite Hc, Hs, Hcl, Hsess. tauto.
    + apply Hdial; try assumption; settle; assumption.
  - now apply Hdial.
Qed.

Lemma neutral_tidy c t e :
  (forall made number open, Session.clientStep made number e open = open) ->
  (forall made number open, Session.sessionStep made number e open = open) ->
  tidy lib c t -> tidy lib c (t ++ [e]).
Proof.
  intros H1 H2 (Hc & Hs & Hcs). unfold tidy.
  now rewrite openClients_snoc, openSessions_snoc, H1, H2.
Qed.

Lemma Close_tidy c t :
  tidy lib c t ->
  exists err c1 t1,
    Session.Close lib c t = Session.Return err c1 t1
    /\ tidy lib c1 t1 /\ Session.sess c1 = None.
Proof.
  intros Htidy. pose proof Htidy as (Hc & Hs & Hcs). unfold Session.Close.
  destruct (Session.sess c) as [s|] eqn:Hsess; [| now eexists _, _, _].
  destruct (Session.client c) as [cl|] eqn:Hcl;
    [| now specialize (proj1 Hcs eq_refl)].
  unfold Session.invoke. cbv zeta. eexists _, _, _.
  split; [reflexivity |]. split; [| reflexivity].
  unfold Session.heldClients, Session.heldSessions in Hc, Hs.
  rewrite Hcl in Hc. rewrite Hsess in Hs.
  settle. rewrite Hc, Hs, !filter_single. tauto.
Qed.

Lemma call_tidy op c t :
  tidy lib c t ->
  exists c1 t1, Session.call lib op c t = Some (c1, t1) /\ tidy lib c1 t1.
Proof.
  intros Htidy.
  assert (Hpipe : forall pipe,
    let '(res, c1, t1) := Session.ensureSession lib c t in
    match res with
    | inr e => tidy lib c1 t1
    | inl s => tidy lib c1 (t1 ++ [Session.EvPipe (Session.handle s) pipe])
    end).
  { intros pipe. pose proof (ensureSession_tidy c t Htidy) as He.
    destruct (Session.ensureSession lib c t) as [[[s|e] c1] t1];
      destruct He as [He _]; [now apply neutral_tidy | exact He]. }
  destruct op; cbn [Session.call].
  - unfold Session.Start.
    pose proof (ensureSession_tidy c t Htidy) as He.
    destruct (Session.ensureSession lib c t) as [[[s|e] c1] t1];
      destruct He as [He _]; [| now eexists _, _].
    unfold Session.invoke.
    destruct (String.eqb (Session.command c1) ""); cbv zeta;
      eexists _, _; (split; [reflexivity |]); now apply neutral_tidy.
  - destruct (Close_tidy c t Htidy) as (err & c1 & t1 & -> & H1 & _).
    now eexists _, _.
  - unfold Session.Wait.
    destruct (Session.sess c) as [s|] eqn:Hsess; [| now eexists _, _].
    unfold Session.invoke. cbv zeta.
    destruct (Close_tidy c (t ++ [Session.EvWait (Session.handle s)]))
      as (err & c1 & t1 & -> & H1 & _); [now apply neutral_tidy |].
    now eexists _, _.
  - unfold Session.Kill.
    destruct (Session.sess c) as [s|] eqn:Hsess; [| now eexists _, _].
    unfold Session.invoke. cbv zeta. eexists _, _.
    split; [reflexivity |]. now apply neutral_tidy.
  - eexists _, _. split; [reflexivity |]. exact Htidy.
  - unfold Session.StdinPipe. specialize (Hpipe Session.pipeStdin).
    destruct (Session.ensureSession lib c t) as [[[s|e] c1] t1];
      unfold Session.invoke; cbv zeta; now eexists _, _.
  - unfold Session.StdoutPipe. specialize (Hpipe Session.pipeStdout).
    destruct (Session.ensureSession lib c t) as [[[s|e] c1] t1];
      unfold Session.invoke; cbv zeta; now eexists _, _.
  - unfold Session.StderrPipe. specialize (Hpipe Session.pipeStderr).
    destruct (Session.ensureSession lib c t) as [[[s|e] c1] t1];
      unfold Session.invoke; cbv zeta; now eexists _, _.
Qed.

Lemma calls_tidy ops c t :
  tidy lib c t ->
  exists c1 t1, Session.calls lib ops c t = Some (c1, t1) /\ tidy lib c1 t1.
Proof.
  revert c t. induction ops as [|op ops IH]; intros c t Htidy.
  - now eexists _, _.
  - cbn [Session.calls].
    destruct (call_tidy op c t Htidy) as (c1 & t1 & -> & H1). now apply IH.
Qed.

(** X14: whatever sequence of [Start], [Wait], [Kill], [Close],
    [SetStdio] and the pipes is called on a command that [Command] has
    built, no call dereferences a nil client, and afterwards the clients and
    the sessions that have been made and not closed are exactly those the
    command holds: at most one of each, and none that it has let go of. *)
Theorem no_connection_is_leaked client host command options ops :
  exists c t,
    Session.calls lib ops (Session.Command lib client host command options) []
    = Some (c, t)
    /\ Session.openClients lib t = Session.heldClients c
    /\ Session.openSessions lib t = Session.heldSessions c.
Proof.
  destruct (calls_tidy ops (Session.Command lib client host command options) [])
    as (c & t & H & Hc & Hs & _).
  - unfold tidy, Session.Command.
    destruct (Address.splitUserHost host) as [user host']. now cbn.
  - now exists c, t.
Qed.

(** X15: after [Close] or [Wait] has returned, the command is as it was
    before it was started: [Close] returns nil, [Wait] and [Kill] fail with
    "command has not been started", and none of them calls the library. *)
Theorem closed_command_is_not_started c t err c1 t1 :
  Session.Close lib c t = Session.Return err c1 t1
  \/ Session.Wait lib c t = Session.Return err c1 t1 ->
  let notStarted := Some (Session.errors_Errorf "command has not been started") in
  Session.sess c1 = None
  /\ Session.Close lib c1 t1 = Session.Return None c1 t1
  /\ Session.Wait lib c1 t1 = Session.Return notStarted c1 t1
  /\ Session.Kill lib c1 t1 = (notStarted, c1, t1).
Proof.
  intros H notStarted.
  assert (Hclose : forall c t err c1 t1,
            Session.Close lib c t = Session.Return err c1 t1 ->
            Session.sess c1 = None).
  { clear. intros c t err c1 t1. unfold Session.Close, Session.invoke.
    destruct (Session.sess c) as [s|] eqn:Hsess; [| now intros [= _ <- _]].
    destruct (Session.client c); [| discriminate]. now intros [= _ <- _]. }
  assert (Hs : Session.sess c1 = None).
  { destruct H as [H | H]; [exact (Hclose _ _ _ _ _ H) |].
    unfold Session.Wait, Session.invoke in H.
    destruct (Session.sess c) as [s|] eqn:Hsess; [| now injection H as _ <- _].
    cbv zeta in H.
    destruct (Session.Close lib c _) as [e2 c2 t2|] eqn:E; [| discriminate].
    injection H as _ <- _. exact (Hclose _ _ _ _ _ E). }
  unfold Session.Close, Session.Wait, Session.Kill. now rewrite Hs.
Qed.

Lemma calls_without_keys ops c t :
  Session.signers c = [] -> Session.sess c = None ->
  exists c1, Session.calls lib ops c t = Some (c1, t).
Proof.
  revert c. induction ops as [|op ops IH]; intros c Hk Hs; [now eexists |].
  assert (He : Session.ensureSession lib c t
               = (inr (Session.errors_Errorf "no private keys available"), c, t)).
  { unfold Session.ensureSession. now rewrite Hs, Hk. }
  cbn [Session.calls].
  destruct op; cbn [Session.call];
    unfold Session.Start, Session.Close, Session.Wait, Session.Kill,
      Session.StdinPipe, Session.StdoutPipe, Session.StderrPipe;
    rewrite ?He, ?Hs; now apply IH.
Qed.

(** X16: without a private key, neither given nor found, no sequence of
    calls on the command reaches the library: nothing is dialled, no proxy
    is started, the user is not looked up. *)
Theorem no_keys_no_contact client host command options ops :
  Session.Client.signers client = [] ->
  Session.privateKeys lib = [] ->
  exists c,
    Session.calls lib ops (Session.Command lib client host command options) []
    = Some (c, []).
Proof.
  intros Hk Hp. apply calls_without_keys.
  - unfold Session.Command. rewrite Hk.
    destruct (Address.splitUserHost host) as [user host']. exact Hp.
  - unfold Session.Command.
    now destruct (Address.splitUserHost host) as [user host'].
Qed.

Lemma cut_append sep (a b : string) :
  contains sep a = false -> Address.cut sep (a ++ String sep b) = Some (a, b).
Proof.
  induction a as [|ch a IH]; intros Ha.
  - change ("" ++ String sep b) with (String sep b). cbn [Address.cut].
    now rewrite Ascii.eqb_refl.
  - rewrite append_cons. cbn [Address.cut]. cbn [contains] in Ha.
    apply orb_false_elim in Ha as [Hch Ha]. rewrite (Ascii.eqb_sym ch sep), Hch.
    now rewrite (IH Ha).
Qed.

(** X17: a command for the target [user@host], with keys and without a
    proxy, first dials the host at the port of the options, 22 when there
    are no options or the port is 0, as that user and with those keys; the
    operating system is not asked for a user name. *)
Theorem start_dials_the_target client user host command options :
  contains "@" user = false ->
  user <> "" ->
  Session.Client.signers client <> [] ->
  match options with Some o => Session.Options.proxyCommand o = [] | None => True end ->
  let port :=
    match options with
    | Some o =>
        if (Session.Options.port o =? 0)%Z then 22%Z else Session.Options.port o
    | None => 22%Z
    end in
  let c := Session.Command lib client (user ++ "@" ++ host) command options in
  exists rest,
    snd (Session.Start lib c [])
    = Session.EvDial
        (Session.net_JoinHostPort lib host (Session.strconv_Itoa port))
        {| Session.User := user;
           Session.HostKeyAlgorithms := Session.hostKeyAlgorithms c;
           Session.Auth := Session.Client.signers client |} :: rest.
Proof.
  intros Hu Hne Hk Hproxy port c. subst port c.
  unfold Session.Command, Address.splitUserHost, Address.SplitN2.
  change (user ++ "@" ++ host) with (user ++ String "@" host).
  rewrite (cut_append _ _ _ Hu).
  destruct (Session.Client.signers client) as [|k ks] eqn:Hsig; [congruence |].
  cbn [length Nat.eqb].
  unfold Session.Start, Session.ensureSession.
  cbn [Session.sess Session.signers length Nat.eqb Session.user].
  destruct (String.eqb user "") eqn:Heq; [now apply String.eqb_eq in Heq |].
  assert (Hp : match options with
               | Some o => Session.Options.proxyCommand o
               | None => []
               end = []) by now destruct options.
  unfold Session.sshDialWithProxy.
  cbn [Session.proxyCommand Session.addr Session.hostKeyAlgorithms
       Session.signers Session.user].
  rewrite Hp. cbn [length Nat.eqb].
  unfold Session.sshDial, Session.invoke. cbn [app].
  assert (Hport : forall o,
            (if negb (Session.Options.port o =? 0)%Z
             then Session.Options.port o else Session.sshDefaultPort)
            = (if (Session.Options.port o =? 0)%Z
               then 22%Z else Session.Options.port o)).
  { intros o. now destruct (Session.Options.port o =? 0)%Z. }
  destruct options as [o|]; rewrite ?Hport;
    outcomes; cbv zeta; cbn [Session.command Session.setSession
                              Session.setProxyCommand];
    repeat match goal with
           | |- context [String.eqb ?a ""] => destruct (String.eqb a "")
           end;
    outcomes; cbn [snd app]; eexists; reflexivity.
Qed.

(** X18: a command for a target that names no user asks the operating
    system for the current user before anything else; when that fails,
    [Start] returns the failure as "getting current user" and has neither
    dialled nor started a proxy, and the command holds no session. *)
Theorem current_user_failure_stops_start client target command options e :
  contains "@" target = false ->
  Session.Client.signers client <> [] ->
  Session.outcome lib [Session.EvCurrentUser] = Some e ->
  let c := Session.Command lib client target command options in
  Session.Start lib c []
  = (Some (Session.errors_Errorf_v "getting current user: %v" e), c,
     [Session.EvCurrentUser]).
Proof.
  intros Hat Hk Hout c. subst c.
  unfold Session.Command, Address.splitUserHost, Address.SplitN2.
  rewrite (proj2 (cut_None _ _) Hat).
  destruct (Session.Client.signers client) as [|k ks] eqn:Hsig; [congruence |].
  cbn [length Nat.eqb].
  unfold Session.Start, Session.ensureSession, Session.invoke.
  cbn [Session.sess Session.signers length Nat.eqb Session.user String.eqb app].
  now rewrite Hout.
Qed.

End SessionProperties.

(** ** The channels of the mismatch warning *)

Section WarningChannels.

Variable FingerprintSHA256 : PublicKey -> string.

(** X19: the warning about a changed key beside the writable terminal.
    On a terminal that cannot be written to, the call fails with the error
    of the write annotated "failed to print host key mismatch warning",
    not with the key mismatch, and the terminal is restored; without a
    terminal the warning goes to the log and the call fails with the key
    mismatch.  In both cases nothing is read, locked or written. *)
Theorem changed_key_warning_channels c h r key w :
  nonEmpty (resolvedPath c w) = true ->
  storeOutcome w (resolvedPath c w) h key = Some knownhosts.Changed ->
  let path := resolvedPath c w in
  let warning :=
    mismatchHead FingerprintSHA256 key path ++ mismatchTail key (wanted w path h) in
  (stdin w = Terminal true -> termWritable w = false ->
   exists w',
     hostKeyCallback FingerprintSHA256 c h r key w
     = (Some (errors_Annotate ErrTermWrite
                "failed to print host key mismatch warning"), w')
     /\ sameEnv w' w
     /\ trace w' = (trace w ++ [EvMakeRaw; EvLoadStore path; EvRestore])%list)
  /\ (stdin w = NotATerminal ->
      exists w',
        hostKeyCallback FingerprintSHA256 c h r key w
        = (Some (KeyError (wanted w path h)), w')
        /\ sameEnv w' w
        /\ trace w' = (trace w ++ [EvLoadStore path; EvLog warning])%list).
Proof.
  intros Hp Ho path warning. subst warning.
  assert (Hbody : stdin w <> Terminal false ->
    exists w1,
      sameEnv w1 w /\ trace w1 = (trace w ++ rawOpen w)%list
      /\ hostKeyCallback FingerprintSHA256 c h r key w
         = (fst (match printError (termOf w)
                         (mismatchHead FingerprintSHA256 key path
                          ++ mismatchTail key (wanted w path h))
                         (emit (EvLoadStore path) w1) with
                 | (Some perr, w2) =>
                     (Some (errors_Annotate perr
                              "failed to print host key mismatch warning"), w2)
                 | (None, w2) => (Some (KeyError (wanted w path h)), w2)
                 end),
            closeRaw w
              (snd (match printError (termOf w)
                            (mismatchHead FingerprintSHA256 key path
                             ++ mismatchTail key (wanted w path h))
                            (emit (EvLoadStore path) w1) with
                    | (Some perr, w2) =>
                        (Some (errors_Annotate perr
                                 "failed to print host key mismatch warning"), w2)
                    | (None, w2) => (Some (KeyError (wanted w path h)), w2)
                    end)))).
  { intros Hs.
    destruct (hostKeyCallback_body FingerprintSHA256 c h r key w Hp Hs)
      as (w1 & Henv & Htr & E).
    exists w1. split; [exact Henv |]. split; [exact Htr |].
    rewrite E. fold path.
    rewrite <- (storeOutcome_env _ _ _ _ _ Henv) in Ho.
    rewrite (verify_changed FingerprintSHA256 c h r key path (termOf w) w1 Ho).
    now rewrite (wanted_env _ _ _ _ Henv). }
  split.
  - intros Hs Hw.
    destruct Hbody as (w1 & Henv & Htr & ->); [rewrite Hs; discriminate |].
    pose proof Henv as (_ & _ & Hw1 & _).
    unfold termOf, printError, Fprint. rewrite Hs.
    cbn [termWritable emit]. rewrite Hw1, Hw. cbn [fst snd].
    eexists. split; [reflexivity |]. split.
    + now apply sameEnv_closeRaw, sameEnv_emit.
    + rewrite trace_closeRaw. cbn [trace emit]. rewrite Htr.
      unfold rawOpen, rawClose. rewrite Hs. now rewrite <- !app_assoc.
  - intros Hs.
    destruct Hbody as (w1 & Henv & Htr & ->); [rewrite Hs; discriminate |].
    unfold termOf, printError. rewrite Hs. cbn [fst snd].
    eexists. split; [reflexivity |]. split.
    + now apply sameEnv_closeRaw, sameEnv_emit, sameEnv_emit.
    + rewrite trace_closeRaw. cbn [trace emit]. rewrite Htr.
      unfold rawOpen, rawClose. rewrite Hs. now rewrite <- !app_assoc, app_nil_r.
Qed.

(** X20: when standard input is a terminal that cannot be put into raw
    mode, every call with a configured path fails with the error of
    [getTerminal] before the store is loaded, whatever the key, the store
    and the policy are -- a key that the store holds is refused as well --
    and the call has no effect: nothing is printed, logged, read, locked or
    written, and there is nothing to restore. *)
Theorem raw_mode_failure_rejects_every_key c h r key w :
  nonEmpty (resolvedPath c w) = true ->
  stdin w = Terminal false ->
  exists w',
    hostKeyCallback FingerprintSHA256 c h r key w = (Some ErrRawMode, w')
    /\ sameEnv w' w
    /\ files w' = files w
    /\ trace w' = trace w.
Proof.
  intros Hp Hs.
  destruct (hostKeyCallback_rawModeFails FingerprintSHA256 c h r key w Hp Hs)
    as (w' & E & Henv & Htr).
  exists w'. split; [exact E |]. split; [exact Henv |].
  split; [apply Henv | exact Htr].
Qed.

End WarningChannels.

(** ** The further properties at concrete inputs *)

(** A netcat proxy without verbs. *)
Lemma proxy_arguments_witness :
  forallb (fun arg => negb (contains "%" arg)) ["nc"; "gateway"; "2222"] = true
  /\ Address.proxyArguments (Some ("example.com", "22")) "example.com:22" "ubuntu"
       ["nc"; "gateway"; "2222"]
     = ["nc"; "gateway"; "2222"].
Proof.
  split; [reflexivity |].
  apply (proxy_arguments_without_verbs (Some ("example.com", "22"))
           "example.com:22" "ubuntu" ["nc"; "gateway"; "2222"]).
  reflexivity.
Defined.

(** The verbs of a jump command, with a port and without one. *)
Lemma proxy_verbs_witness :
  Address.substitute "example.com" "22" "ubuntu" "--to=%h:80" = "--to=example.com:80"
  /\ Address.substitute "example.com" "22" "ubuntu" "--to=%r:80" = "--to=ubuntu:80"
  /\ Address.substitute "example.com" "22" "ubuntu" "--to=%p:80" = "--to=22:80".
Proof.
  exact (proxy_verbs_replaced "example.com" "22" "ubuntu" "--to=" ":80"
           eq_refl eq_refl eq_refl eq_refl eq_refl).
Defined.

(** One wanted key of the offered type, and one of another type. *)
Lemma mismatch_tail_witness :
  let rsa := {| kk_Key := keyFoo; kk_Filename := "known_hosts"; kk_Line := 3 |} in
  let ed := {| kk_Key := {| pk_Type := "ssh-ed25519"; pk_Marshal := [x62] |};
               kk_Filename := "known_hosts"; kk_Line := 12 |} in
  mismatchTail keyBar [ed; rsa] = "Offending ssh-rsa key in known_hosts:3"
  /\ mismatchTail keyBar [ed]
     = "Host was previously using different host key algorithms:"
       ++ nl ++ " - ssh-ed25519 key in known_hosts:12".
Proof.
  cbv zeta. split.
  - apply (proj1 (mismatch_tail_cases keyBar _)
             [{| kk_Key := {| pk_Type := "ssh-ed25519"; pk_Marshal := [x62] |};
                 kk_Filename := "known_hosts"; kk_Line := 12 |}]
             {| kk_Key := keyFoo; kk_Filename := "known_hosts"; kk_Line := 3 |}
             [] eq_refl eq_refl ltac:(constructor)).
  - exact (proj2 (mismatch_tail_cases keyBar
                    [{| kk_Key := {| pk_Type := "ssh-ed25519"; pk_Marshal := [x62] |};
                        kk_Filename := "known_hosts"; kk_Line := 12 |}])
             ltac:(constructor; [discriminate | constructor])).
Defined.

(** Another key for a host on record, under the Disabled policy. *)
Lemma conflicting_key_witness :
  let c := command StrictHostChecksNo in
  let w := world (Terminal true) ["yes"] storeFoo in
  storeOutcome w (resolvedPath c w) "example.com" keyBar = Some knownhosts.Changed
  /\ exists err w',
      hostKeyCallback sampleFingerprint c "example.com" "192.0.2.1:22" keyBar w
      = (Some err, w')
      /\ sameEnv w' w.
Proof.
  cbv zeta. split; [vm_compute; reflexivity |].
  apply (conflicting_key_never_accepted sampleFingerprint
           (command StrictHostChecksNo) "example.com" "192.0.2.1:22" keyBar
           (world (Terminal true) ["yes"] storeFoo)).
  left. vm_compute. reflexivity.
Defined.

Lemma pair_of_fst {A B} (p : A * B) (a : A) : fst p = a -> p = (a, snd p).
Proof. intros <-. now destruct p. Defined.

(** An unknown host accepted on a terminal after a line that is no
    answer. *)
Lemma unmatched_acceptance_witness :
  let c := command StrictHostChecksAsk in
  let w := world (Terminal true) ["what"; "Yes"; "later"] storeOther in
  let res := hostKeyCallback sampleFingerprint c "example.com" "192.0.2.1:22" keyBar w in
  storeOutcome w (resolvedPath c w) "example.com" keyBar <> Some knownhosts.Matched
  /\ fst res = None
  /\ stdin w = Terminal true
  /\ exists pre line,
      termInput w = (pre ++ line :: termInput (snd res))%list
      /\ forallb otherAnswer pre = true
      /\ ToLower line = "yes".
Proof.
  cbv zeta.
  assert (Hnm : storeOutcome (world (Terminal true) ["what"; "Yes"; "later"] storeOther)
                  (resolvedPath (command StrictHostChecksAsk)
                     (world (Terminal true) ["what"; "Yes"; "later"] storeOther))
                  "example.com" keyBar <> Some knownhosts.Matched)
    by (vm_compute; discriminate).
  assert (Hres : fst (hostKeyCallback sampleFingerprint (command StrictHostChecksAsk)
                        "example.com" "192.0.2.1:22" keyBar
                        (world (Terminal true) ["what"; "Yes"; "later"] storeOther))
                 = None) by (vm_compute; reflexivity).
  split; [exact Hnm |]. split; [exact Hres |].
  exact (unmatched_acceptance_needs_yes sampleFingerprint
           (command StrictHostChecksAsk) "example.com" "192.0.2.1:22" keyBar
           (world (Terminal true) ["what"; "Yes"; "later"] storeOther) _
           (or_intror eq_refl) Hnm (pair_of_fst _ _ Hres)).
Defined.

(** An unknown host accepted under the Disabled policy: the record is in
    the file afterwards. *)
Lemma acceptance_persisted_witness :
  let c := command StrictHostChecksNo in
  let w := world NotATerminal [] storeOther in
  let res := hostKeyCallback sampleFingerprint c "example.com" "192.0.2.1:22" keyBar w in
  fst res = None
  /\ files (snd res)
     = <["known_hosts" :=
           Regular ("other.org ssh-rsa Zm9v" ++ nl ++ "example.com ssh-rsa YmFy" ++ nl)]>
         storeOther.
Proof.
  cbv zeta.
  assert (Hres : fst (hostKeyCallback sampleFingerprint (command StrictHostChecksNo)
                        "example.com" "192.0.2.1:22" keyBar
                        (world NotATerminal [] storeOther)) = None)
    by (vm_compute; reflexivity).
  split; [exact Hres |].
  exact (acceptance_implies_persisted sampleFingerprint
           (command StrictHostChecksNo) "example.com" "192.0.2.1:22" keyBar
           (world NotATerminal [] storeOther) _
           ltac:(vm_compute; discriminate) eq_refl (pair_of_fst _ _ Hres)).
Defined.

(** The same call made twice: the second finds the key it has stored. *)
Lemma accepted_key_matched_witness :
  let c := command StrictHostChecksNo in
  let w := world NotATerminal [] storeOther in
  let res := hostKeyCallback sampleFingerprint c "example.com" "192.0.2.1:22" keyBar w in
  recordable "example.com" keyBar = true
  /\ fst res = None
  /\ storeOutcome (snd res) "known_hosts" "example.com" keyBar
     = Some knownhosts.Matched
  /\ exists w'',
      hostKeyCallback sampleFingerprint c "example.com" "192.0.2.1:22" keyBar (snd res)
      = (None, w'')
      /\ files w'' = files (snd res)
      /\ termInput w'' = termInput (snd res)
      /\ trace w'' =
         (trace (snd res) ++ rawOpen (snd res) ++ [EvLoadStore "known_hosts"]
          ++ rawClose (snd res))%list.
Proof.
  cbv zeta.
  assert (Hres : fst (hostKeyCallback sampleFingerprint (command StrictHostChecksNo)
                        "example.com" "192.0.2.1:22" keyBar
                        (world NotATerminal [] storeOther)) = None)
    by (vm_compute; reflexivity).
  split; [reflexivity |]. split; [exact Hres |].
  exact (accepted_key_is_matched_afterwards sampleFingerprint
           (command StrictHostChecksNo) "example.com" "192.0.2.1:22" keyBar
           (world NotATerminal [] storeOther) _
           eq_refl eq_refl (pair_of_fst _ _ Hres)).
Defined.

(** The mutex held by another process, and a directory that cannot be
    written. *)
Lemma persistence_failure_witness :
  let c := command StrictHostChecksNo in
  (mutex worldLocked <> Free
   /\ fst (hostKeyCallback sampleFingerprint c "example.com" "192.0.2.1:22" keyBar
             worldLocked) = Some ErrMutex)
  /\ (dirWritable worldReadOnly = false
      /\ fst (hostKeyCallback sampleFingerprint c "example.com" "192.0.2.1:22" keyBar
                worldReadOnly) = Some (ErrPermission "known_hosts")).
Proof.
  cbv zeta. split.
  - split; [discriminate |].
    destruct (proj1 (persistence_failure_is_reported sampleFingerprint
                       (command StrictHostChecksNo) "example.com" "192.0.2.1:22"
                       keyBar worldLocked eq_refl eq_refl eq_refl
                       ltac:(discriminate) ltac:(vm_compute; reflexivity))
                ltac:(discriminate)) as (w' & -> & _).
    reflexivity.
  - split; [reflexivity |].
    destruct (proj2 (persistence_failure_is_reported sampleFingerprint
                       (command StrictHostChecksNo) "example.com" "192.0.2.1:22"
                       keyBar worldReadOnly eq_refl eq_refl eq_refl
                       ltac:(discriminate) ltac:(vm_compute; reflexivity))
                eq_refl eq_refl) as (w' & -> & _).
    reflexivity.
Defined.

(** The discard sink as the known_hosts file. *)
Lemma discard_sink_witness :
  let c := {| knownHostsFile := os_DevNull;
              strictHostKeyChecking := StrictHostChecksNo |} in
  let w := world NotATerminal [] ∅ in
  exists w',
    hostKeyCallback sampleFingerprint c "example.com" "192.0.2.1:22" keyBar w
    = (None, w')
    /\ sameEnv w' w
    /\ trace w' =
       [EvLoadStore os_DevNull;
        EvLog "Warning: permanently added 'example.com' (ssh-rsa) to the list of known hosts."].
Proof.
  cbv zeta.
  exact (discard_sink_is_not_written sampleFingerprint
           {| knownHostsFile := os_DevNull;
              strictHostKeyChecking := StrictHostChecksNo |}
           "example.com" "192.0.2.1:22" keyBar (world NotATerminal [] ∅)
           eq_refl eq_refl ltac:(discriminate) eq_refl).
Defined.

(** The default path set to the store of the examples. *)
Lemma default_path_witness :
  let c := {| knownHostsFile := ""; strictHostKeyChecking := StrictHostChecksYes |} in
  let w1 := snd (SetGoCryptoKnownHostsFile "known_hosts"
                   (world NotATerminal [] storeFoo)) in
  knownHostsFile c = ""
  /\ hostKeyCallback sampleFingerprint c "example.com" "192.0.2.1:22" keyFoo w1
     = hostKeyCallback sampleFingerprint (command StrictHostChecksYes)
         "example.com" "192.0.2.1:22" keyFoo w1.
Proof.
  cbv zeta. split; [reflexivity |].
  exact (default_path_is_used sampleFingerprint
           {| knownHostsFile := ""; strictHostKeyChecking := StrictHostChecksYes |}
           "example.com" "192.0.2.1:22" keyFoo (world NotATerminal [] storeFoo)
           "known_hosts" eq_refl).
Defined.

(** A prompt answered with no: the terminal is restored all the same. *)
Lemma terminal_restored_witness :
  let c := command StrictHostChecksAsk in
  let w := world (Terminal true) ["no"; "later"] storeOther in
  let w' := snd (hostKeyCallback sampleFingerprint c "example.com" "192.0.2.1:22"
                   keyBar w) in
  nonEmpty (resolvedPath c w) = true
  /\ stdin w <> Terminal false
  /\ exists body,
      trace w' = ([EvMakeRaw] ++ body ++ [EvRestore])%list
      /\ rawEvents body = []
      /\ ["no"; "later"] = (readLines body ++ termInput w')%list.
Proof.
  cbv zeta. split; [reflexivity |]. split; [discriminate |].
  exact (terminal_restored_on_every_path sampleFingerprint
           (command StrictHostChecksAsk) "example.com" "192.0.2.1:22" keyBar
           (world (Terminal true) ["no"; "later"] storeOther)
           eq_refl ltac:(discriminate)).
Defined.

(** A started command that is closed. *)
Lemma closed_command_witness :
  let lib := sampleLibrary neverFails in
  let notStarted := Some (Session.errors_Errorf "command has not been started") in
  Session.heldSessions (fst sampleStarted) = [2]
  /\ exists err c1 t1,
      Session.Close lib (fst sampleStarted) (snd sampleStarted)
      = Session.Return err c1 t1
      /\ Session.sess c1 = None
      /\ Session.Close lib c1 t1 = Session.Return None c1 t1
      /\ Session.Wait lib c1 t1 = Session.Return notStarted c1 t1
      /\ Session.Kill lib c1 t1 = (notStarted, c1, t1).
Proof.
  cbv zeta. split; [reflexivity |]. eexists _, _, _.
  refine ((fun H => conj H
             (closed_command_is_not_started (sampleLibrary neverFails)
                (fst sampleStarted) (snd sampleStarted) _ _ _ (or_introl H))) _).
  reflexivity.
Defined.

(** A client without keys, where none is found either. *)
Lemma no_keys_witness :
  let lib := sampleLibrary neverFails in
  Session.privateKeys lib = []
  /\ exists c,
      Session.calls lib
        [Session.CallStart; Session.CallStdinPipe; Session.CallWait;
         Session.CallKill; Session.CallClose]
        (Session.Command lib {| Session.Client.signers := [] |}
           "ubuntu@example.com" ["ls"] None) []
      = Some (c, []).
Proof.
  cbv zeta. split; [reflexivity |].
  exact (no_keys_no_contact (sampleLibrary neverFails)
           {| Session.Client.signers := [] |} "ubuntu@example.com" ["ls"] None
           [Session.CallStart; Session.CallStdinPipe; Session.CallWait;
            Session.CallKill; Session.CallClose]
           eq_refl eq_refl).
Defined.

(** ubuntu at example.com, on the default port. *)
Lemma start_dials_witness :
  let lib := sampleLibrary neverFails in
  exists rest,
    snd (Session.Start lib (sampleCommand lib "ubuntu@example.com") [])
    = Session.EvDial "example.com:22"
        {| Session.User := "ubuntu"; Session.HostKeyAlgorithms := [];
           Session.Auth := [7] |} :: rest.
Proof.
  cbv zeta.
  exact (start_dials_the_target (sampleLibrary neverFails)
           {| Session.Client.signers := [7] |} "ubuntu" "example.com" ["ls"] None
           eq_refl ltac:(discriminate) ltac:(discriminate) I).
Defined.

(** No user in the target, and the operating system has none either. *)
Lemma current_user_failure_witness :
  let lib := sampleLibrary alwaysFails in
  Session.Start lib (sampleCommand lib "example.com") []
  = (Some (Session.errors_Errorf_v "getting current user: %v" (Session.failure 1)),
     sampleCommand lib "example.com", [Session.EvCurrentUser]).
Proof.
  cbv zeta.
  exact (current_user_failure_stops_start (sampleLibrary alwaysFails)
           {| Session.Client.signers := [7] |} "example.com" ["ls"] None
           (Session.failure 1) eq_refl ltac:(discriminate) eq_refl).
Defined.

(** A changed key on a terminal that refuses writes, and without a
    terminal. *)
Lemma warning_channels_witness :
  let c := command StrictHostChecksNo in
  storeOutcome worldMuted (resolvedPath c worldMuted) "example.com" keyBar
  = Some knownhosts.Changed
  /\ fst (hostKeyCallback sampleFingerprint c "example.com" "192.0.2.1:22" keyBar
            worldMuted)
     = Some (errors_Annotate ErrTermWrite "failed to print host key mismatch warning")
  /\ exists w',
      hostKeyCallback sampleFingerprint c "example.com" "192.0.2.1:22" keyBar
        (world NotATerminal [] storeFoo)
      = (Some (KeyError (wanted (world NotATerminal [] storeFoo) "known_hosts"
                           "example.com")), w')
      /\ sameEnv w' (world NotATerminal [] storeFoo)
      /\ trace w' =
         [EvLoadStore "known_hosts";
          EvLog (mismatchHead sampleFingerprint keyBar "known_hosts"
                 ++ "Offending ssh-rsa key in known_hosts:1")].
Proof.
  cbv zeta. split; [vm_compute; reflexivity |]. split.
  - destruct (proj1 (changed_key_warning_channels sampleFingerprint
                       (command StrictHostChecksNo) "example.com" "192.0.2.1:22"
                       keyBar worldMuted eq_refl ltac:(vm_compute; reflexivity))
                eq_refl eq_refl) as (w' & -> & _).
    reflexivity.
  - exact (proj2 (changed_key_warning_channels sampleFingerprint
                    (command StrictHostChecksNo) "example.com" "192.0.2.1:22"
                    keyBar (world NotATerminal [] storeFoo)
                    eq_refl ltac:(vm_compute; reflexivity))
             eq_refl).
Defined.

(** The key on record for example.com, on a terminal without raw mode. *)
Lemma raw_mode_failure_witness :
  let c := command StrictHostChecksNo in
  let w := world (Terminal false) ["yes"] storeFoo in
  storeOutcome w (resolvedPath c w) "example.com" keyFoo = Some knownhosts.Matched
  /\ exists w',
      hostKeyCallback sampleFingerprint c "example.com" "192.0.2.1:22" keyFoo w
      = (Some ErrRawMode, w')
      /\ sameEnv w' w
      /\ files w' = files w
      /\ trace w' = trace w.
Proof.
  cbv zeta. split; [vm_compute; reflexivity |].
  exact (raw_mode_failure_rejects_every_key sampleFingerprint
           (command StrictHostChecksNo) "example.com" "192.0.2.1:22" keyFoo
           (world (Terminal false) ["yes"] storeFoo) eq_refl eq_refl).
Defined.
